(** * Sentinel procurement pipeline: dashboard readers, audit schema and
      the decision core

    The development embeds the dashboard's server actions
    ([getLiveMarketData], [getMockData], [getScannerStatus],
    [getDecisionHistory]), the card renderer [createMaterialCard] and the
    [ai_signals] audit table of [init.sql], and states the properties of
    the specification over them. It then embeds the code around them: the
    panels of the page that show the feed, the market feed, the country
    metrics and the map markers of the static dashboard, and the seed
    statements of [init.sql], with the properties their code shows.

    Conventions.
    - A JavaScript [number] is a finite value, [NaN] or a signed infinity.
      A finite value is kept as the exact rational it denotes: IEEE-754
      rounding, overflow and the sign of zero are not represented.
    - [Math.random] draws from an explicit stream of rationals; a
      computation that draws threads the position in that stream.
    - The Redis server and the PostgreSQL server are explicit values: a
      key-value store that may be unreachable, and three tables that may
      be unreachable. *)

From Stdlib Require Import ZArith QArith Qround Qabs Qminmax Lia Lqa List Ascii String Bool.
From stdpp Require Import base option gmap strings list sorting.
Import ListNotations.

Local Open Scope Z_scope.

(* ===================================================================== *)
(** * JavaScript numbers *)
(* ===================================================================== *)

Module Js.

Inductive number : Type :=
  | Fin (q : Q)
  | NaN
  | PosInf
  | NegInf.

Definition num (z : Z) : number := Fin (inject_Z z).

(** Sign of a rational as a comparison with zero. *)
Definition Qsign (q : Q) : comparison := (Qnum q ?= 0)%Z.

(** [a + b]. *)
Definition add (a b : number) : number :=
  match a, b with
  | NaN, _ | _, NaN => NaN
  | PosInf, NegInf | NegInf, PosInf => NaN
  | PosInf, _ | _, PosInf => PosInf
  | NegInf, _ | _, NegInf => NegInf
  | Fin x, Fin y => Fin (Qred (x + y))
  end.

(** [a * b]. *)
Definition mul (a b : number) : number :=
  let inf_times (pos : bool) (q : Q) : number :=
    match Qsign q with
    | Eq => NaN
    | Gt => if pos then PosInf else NegInf
    | Lt => if pos then NegInf else PosInf
    end in
  match a, b with
  | NaN, _ | _, NaN => NaN
  | PosInf, PosInf | NegInf, NegInf => PosInf
  | PosInf, NegInf | NegInf, PosInf => NegInf
  | PosInf, Fin q | Fin q, PosInf => inf_times true q
  | NegInf, Fin q | Fin q, NegInf => inf_times false q
  | Fin x, Fin y => Fin (Qred (x * y))
  end.

(** [a / b]. Division of a finite value by zero gives an infinity of the
    sign of the dividend, and [0 / 0] is [NaN]. *)
Definition div (a b : number) : number :=
  match a, b with
  | NaN, _ | _, NaN => NaN
  | Fin x, Fin y =>
      match Qsign y with
      | Eq => match Qsign x with Eq => NaN | Gt => PosInf | Lt => NegInf end
      | _ => Fin (Qred (x / y))
      end
  | Fin _, (PosInf | NegInf) => Fin 0
  | (PosInf | NegInf), (PosInf | NegInf) => NaN
  | PosInf, Fin y => match Qsign y with Lt => NegInf | _ => PosInf end
  | NegInf, Fin y => match Qsign y with Lt => PosInf | _ => NegInf end
  end.

(** [Math.floor]. *)
Definition floor (a : number) : number :=
  match a with
  | Fin q => Fin (inject_Z (Qfloor q))
  | other => other
  end.

(** [Math.abs]. *)
Definition abs (a : number) : number :=
  match a with
  | Fin q => Fin (Qabs q)
  | NaN => NaN
  | PosInf | NegInf => PosInf
  end.

(** [a > b]; any comparison with [NaN] is false. *)
Definition gt (a b : number) : bool :=
  match a, b with
  | NaN, _ | _, NaN => false
  | Fin x, Fin y => match (x ?= y)%Q with Gt => true | _ => false end
  | PosInf, PosInf => false
  | PosInf, _ => true
  | _, NegInf => match a with NegInf => false | _ => true end
  | _, _ => false
  end.

(** [a >= b]. *)
Definition ge (a b : number) : bool :=
  match a, b with
  | NaN, _ | _, NaN => false
  | Fin x, Fin y => match (x ?= y)%Q with Lt => false | _ => true end
  | PosInf, _ => true
  | _, NegInf => true
  | _, _ => false
  end.

(** Truthiness of a number: [0] and [NaN] are falsy. *)
Definition truthy_num (a : number) : bool :=
  match a with
  | Fin q => match Qsign q with Eq => false | _ => true end
  | NaN => false
  | PosInf | NegInf => true
  end.

(** Truthiness of a string: only the empty string is falsy. *)
Definition truthy_str (s : string) : bool :=
  match s with EmptyString => false | _ => true end.

(** ** [parseFloat] *)

Definition is_digit (c : ascii) : bool :=
  let n := nat_of_ascii c in (48 <=? n)%nat && (n <=? 57)%nat.

Definition digit_val (c : ascii) : Z := Z.of_nat (nat_of_ascii c) - 48.

(** White space and line terminators that fit in one byte. *)
Definition is_white (c : ascii) : bool :=
  let n := nat_of_ascii c in
  (n =? 9)%nat || (n =? 10)%nat || (n =? 11)%nat || (n =? 12)%nat
  || (n =? 13)%nat || (n =? 32)%nat.

Fixpoint skip_white (l : list ascii) : list ascii :=
  match l with
  | c :: r => if is_white c then skip_white r else l
  | [] => []
  end.

(** Reads the longest run of decimal digits: the accumulated value, the
    number of digits read and the rest of the input. *)
Fixpoint take_digits (l : list ascii) (acc : Z) (cnt : nat)
  : Z * nat * list ascii :=
  match l with
  | c :: r =>
      if is_digit c then take_digits r (acc * 10 + digit_val c) (S cnt)
      else (acc, cnt, l)
  | [] => (acc, cnt, [])
  end.

Definition pow10 (k : Z) : Q :=
  if (0 <=? k)%Z then inject_Z (10 ^ k) else (1 # Z.to_pos (10 ^ (- k)))%Q.

Fixpoint is_prefix (p l : list ascii) : bool :=
  match p, l with
  | [], _ => true
  | a :: p', b :: l' => Ascii.eqb a b && is_prefix p' l'
  | _ :: _, [] => false
  end.

(** The exponent part [e[+-]digits]; it counts only when it has a digit. *)
Definition exponent_part (l : list ascii) : Z :=
  match l with
  | c :: r =>
      if Ascii.eqb c "e" || Ascii.eqb c "E" then
        let '(neg, r') :=
          match r with
          | s :: r'' =>
              if Ascii.eqb s "-" then (true, r'')
              else if Ascii.eqb s "+" then (false, r'')
              else (false, r)
          | [] => (false, r)
          end in
        let '(e, n, _) := take_digits r' 0 0 in
        match n with
        | O => 0
        | S _ => if neg then - e else e
        end
      else 0
  | [] => 0
  end.

(** The unsigned part of a [StrDecimalLiteral]. *)
Definition unsigned_literal (neg : bool) (l : list ascii) : number :=
  if is_prefix (list_ascii_of_string "Infinity") l then
    if neg then NegInf else PosInf
  else
    let '(ip, ni, r1) := take_digits l 0 0 in
    let '(m, nf, r2) :=
      match r1 with
      | c :: r => if Ascii.eqb c "." then take_digits r ip 0 else (ip, O, r1)
      | [] => (ip, O, r1)
      end in
    match (ni + nf)%nat with
    | O => NaN
    | S _ =>
        let e := exponent_part r2 in
        let v := Qred (inject_Z m * pow10 (e - Z.of_nat nf)) in
        Fin (if neg then Qred (- v) else v)
    end.

(** [parseFloat(s)]: leading white space is skipped, the longest prefix
    that is a decimal literal is converted, anything after it is ignored,
    and [NaN] is returned when there is no such prefix. *)
Definition parseFloat (s : string) : number :=
  match skip_white (list_ascii_of_string s) with
  | c :: r =>
      if Ascii.eqb c "-" then unsigned_literal true r
      else if Ascii.eqb c "+" then unsigned_literal false r
      else unsigned_literal false (c :: r)
  | [] => NaN
  end.

(** ** The random source *)

(** A computation that may call [Math.random]: it reads the stream from a
    position on and returns the next position. *)
Definition Rand (A : Type) : Type := (nat -> Q) -> nat -> A * nat.

Definition ret {A} (a : A) : Rand A := fun _ pos => (a, pos).

Definition bind {A B} (m : Rand A) (k : A -> Rand B) : Rand B :=
  fun rnd pos => let '(a, pos') := m rnd pos in k a rnd pos'.

(** [Math.random()]. *)
Definition random : Rand number := fun rnd pos => (Fin (rnd pos), S pos).

(** [xs.map(f)] for an [f] that draws: elements are visited in order. *)
Fixpoint mapR {A B} (f : A -> Rand B) (xs : list A) : Rand (list B) :=
  match xs with
  | [] => ret []
  | x :: r => bind (f x) (fun y => bind (mapR f r) (fun ys => ret (y :: ys)))
  end.

End Js.

Declare Scope rand_scope.
Delimit Scope rand_scope with rand.
Notation "'let*' x ':=' m 'in' k" := (Js.bind m (fun x => k))
  (at level 10, x name, m at level 100, k at level 200) : rand_scope.

(* ===================================================================== *)
(** * The hot cache (Redis) *)
(* ===================================================================== *)

Module Redis.

(** What a key holds: a string, or a value of another type (a hash, a
    list), on which [GET] answers with an error. *)
Inductive value : Type :=
  | Str (s : string)
  | NotAString.

(** The server as the client finds it: out of reach, every command then
    failing, or connected with the keys it holds. *)
Inductive server : Type :=
  | Unreachable
  | Connected (store : gmap string value).

(** One element of the array a pipeline resolves to: [[null, val]] for a
    command that succeeded, where [val] is [null] when the key is missing,
    and [[err]] for a command that failed, whose second element is
    [undefined]. *)
Inductive reply : Type :=
  | Value (val : option string)
  | Failed (err : string).

Definition get (store : gmap string value) (key : string) : reply :=
  match store !! key with
  | None => Value None
  | Some (Str s) => Value (Some s)
  | Some NotAString =>
      Failed "WRONGTYPE Operation against a key holding the wrong kind of value"
  end.

(** Outcome of [await pipeline.exec()]: the promise rejects, or resolves
    to an array of replies or to [null]. *)
Inductive exec_outcome : Type :=
  | Rejected
  | Resolved (results : option (list reply)).

(** The error of a command that could not be sent. *)
Definition connection_error : string := "Connection is closed.".

(** [pipeline.exec()] on the queued [GET]s. The client does not reject
    the promise when the server is out of reach: every queued command
    fails, and the promise resolves to one [[err]] reply per command. *)
Definition exec (srv : server) (keys : list string) : exec_outcome :=
  match srv with
  | Unreachable => Resolved (Some (map (fun _ => Failed connection_error) keys))
  | Connected store => Resolved (Some (map (get store) keys))
  end.

End Redis.

(* ===================================================================== *)
(** * Server actions of the market panel *)
(* ===================================================================== *)

Module MarketData.
Import Js.

Definition MATERIALS : list string :=
  [ "Copper"; "Aluminum"; "XLPE Polymer"; "PVC Compound";
    "Mica Tape"; "Steel Tape"; "Lead Ingots"; "Masterbatch" ]%string.

Record MaterialData : Type := {
  name : string;
  price : number;
  trend : number;
  signal : string;
  forecast : number;
  confidence : option number
}.

(** The keys queued on the pipeline, five per material, in order. *)
Definition pipeline_keys : list string :=
  flat_map (fun mat =>
    let country := "Egypt" in
    [ "live:" +:+ country +:+ ":" +:+ mat +:+ ":price";
      "live:" +:+ country +:+ ":" +:+ mat +:+ ":trend";
      "live:" +:+ country +:+ ":" +:+ mat +:+ ":signal";
      "live:" +:+ country +:+ ":" +:+ mat +:+ ":forecast";
      "live:" +:+ country +:+ ":" +:+ mat +:+ ":confidence" ])
    MATERIALS.

(** [parseRes(idx, true)]: the default when [err] is set or [val] is
    [null]. [None] is the [TypeError] of destructuring [results[idx]] when
    the index is out of range. *)
Definition parseResFloat (results : list Redis.reply) (idx : nat)
  : option number :=
  match results !! idx with
  | None => None
  | Some r =>
      Some match r with
           | Redis.Failed _ | Redis.Value None => num 0
           | Redis.Value (Some v) => parseFloat v
           end
  end.

(** [parseRes(idx)], with [isFloat] left at its default [false]. *)
Definition parseResStr (results : list Redis.reply) (idx : nat)
  : option string :=
  match results !! idx with
  | None => None
  | Some r =>
      Some match r with
           | Redis.Failed _ | Redis.Value None => "N/A"%string
           | Redis.Value (Some v) => v
           end
  end.

(** The object pushed for [MATERIALS[i]]. *)
Definition liveEntry (results : list Redis.reply) (i : nat)
  : option MaterialData :=
  let baseIdx := (i * 5)%nat in
  mat ← MATERIALS !! i;
  p ← parseResFloat results baseIdx;
  s ← parseResStr results (baseIdx + 2);
  f ← parseResFloat results (baseIdx + 3);
  c ← parseResFloat results (baseIdx + 4);
  Some {| name := mat; price := p; trend := num 0; signal := s;
          forecast := f; confidence := Some c |}.

Definition getMockData : Rand (list MaterialData) :=
  mapR (fun mat =>
    (let* r1 := random in
     let* r2 := random in
     let* r3 := random in
     let* r4 := random in
     ret {| name := mat;
            price := add (floor (mul r1 (num 5000))) (num 1000);
            trend := mul r2 (num 5);
            signal := if gt r3 (Fin (1 # 2)) then "BUY" else "WAIT";
            forecast := add (floor (mul r4 (num 6000))) (num 1000);
            confidence := Some (num 85) |})%rand)
    MATERIALS.

(** [results && results.length > 0 && results[0][1] !== null]. The
    second element of a failed reply is [undefined], which is not [null]. *)
Definition hasData (results : option (list Redis.reply)) : bool :=
  match results with
  | None => false
  | Some rs =>
      (0 <? length rs)%nat &&
      match rs !! 0%nat with
      | Some (Redis.Value None) => false
      | Some (Redis.Value (Some _)) => true
      | Some (Redis.Failed _) => true
      | None => false
      end
  end.

(** The body of [getLiveMarketData] after [pipeline.exec()] has settled.
    A rejection, and a [TypeError] raised while the replies are parsed,
    both end in the [catch] block. *)
Definition getLiveMarketData_from (outcome : Redis.exec_outcome)
  : Rand (list MaterialData) :=
  match outcome with
  | Redis.Rejected => getMockData
  | Redis.Resolved results =>
      if negb (hasData results) then getMockData
      else
        match mapM (liveEntry (default [] results))
                   (seq 0 (length MATERIALS)) with
        | Some data => ret data
        | None => getMockData
        end
  end.

Definition getLiveMarketData (srv : Redis.server) : Rand (list MaterialData) :=
  getLiveMarketData_from (Redis.exec srv pipeline_keys).

Module Scanner.
Record status : Type := { demand : number; confidence : number }.
End Scanner.

(** [curr.confidence || 85]. *)
Definition confidence_or_default (curr : MaterialData) : number :=
  match confidence curr with
  | Some c => if truthy_num c then c else num 85
  | None => num 85
  end.

(** The part of [getScannerStatus] that follows the read of the feed. *)
Definition scannerStatus_of (materials : list MaterialData)
  : Rand Scanner.status :=
  let totalConf :=
    fold_left (fun acc curr => add acc (confidence_or_default curr))
              materials (num 0) in
  let len := length materials in
  let avgConf :=
    floor (div totalConf (num (Z.of_nat (match len with O => 1 | _ => len end)))) in
  (let* r := random in
   ret {| Scanner.demand := floor (add (num 10000) (mul r (num 90000)));
          Scanner.confidence := avgConf |})%rand.

Definition getScannerStatus (srv : Redis.server) : Rand Scanner.status :=
  (let* materials := getLiveMarketData srv in
   scannerStatus_of materials)%rand.

End MarketData.

(* ===================================================================== *)
(** * Exceptions *)
(* ===================================================================== *)

Module Exn.

Inductive exn : Type :=
  | TypeError
  | RangeError
  | ConnectionError.

(** How a block of statements completes. *)
Inductive completion (A : Type) : Type :=
  | Normal (a : A)
  | Throw (e : exn).
Arguments Normal {A} a.
Arguments Throw {A} e.

Definition bind {A B} (m : completion A) (k : A -> completion B)
  : completion B :=
  match m with
  | Normal a => k a
  | Throw e => Throw e
  end.

(** [xs.map(f)] for an [f] that may throw: the first exception leaves
    the loop. *)
Fixpoint mapE {A B} (f : A -> completion B) (xs : list A)
  : completion (list B) :=
  match xs with
  | [] => Normal []
  | x :: r =>
      bind (f x) (fun y => bind (mapE f r) (fun ys => Normal (y :: ys)))
  end.

(** [try { body } catch (error) { handler }]. *)
Definition try_catch {A} (body : completion A) (handler : exn -> completion A)
  : completion A :=
  match body with
  | Normal a => Normal a
  | Throw e => handler e
  end.

End Exn.

(* ===================================================================== *)
(** * [Date.prototype.toISOString] *)
(* ===================================================================== *)

Module JsDate.

Definition msPerDay : Z := 86400000.

(** Largest time value of a valid [Date], in milliseconds from the epoch. *)
Definition maxTime : Z := 8640000000000000.

(** Year, month and day of the proleptic Gregorian calendar for a number
    of days counted from 1970-01-01. *)
Definition civil_from_days (days : Z) : Z * Z * Z :=
  let z := days + 719468 in
  let era := z / 146097 in
  let doe := z - era * 146097 in
  let yoe := (doe - doe / 1460 + doe / 36524 - doe / 146096) / 365 in
  let doy := doe - (365 * yoe + yoe / 4 - yoe / 100) in
  let mp := (5 * doy + 2) / 153 in
  let d := doy - (153 * mp + 2) / 5 + 1 in
  let m := if mp <? 10 then mp + 3 else mp - 9 in
  let y := yoe + era * 400 in
  (if m <=? 2 then y + 1 else y, m, d).

Definition digit_char (d : Z) : ascii := ascii_of_nat (48 + Z.to_nat d).

(** The last [n] decimal digits of [x], with leading zeros. *)
Fixpoint pad (n : nat) (x : Z) : string :=
  match n with
  | O => EmptyString
  | S k => pad k (x / 10) +:+ String (digit_char (x mod 10)) EmptyString
  end.

Definition year_string (y : Z) : string :=
  if (0 <=? y) && (y <=? 9999) then pad 4 y
  else (if y <? 0 then "-" else "+") +:+ pad 6 (Z.abs y).

(** [toISOString] of the date with time value [ms], read in UTC; [None]
    is the [RangeError] of an invalid date. *)
Definition toISOString (ms : Z) : option string :=
  if maxTime <? Z.abs ms then None
  else
    let '(y, m, d) := civil_from_days (ms / msPerDay) in
    let t := ms mod msPerDay in
    Some (year_string y +:+ "-" +:+ pad 2 m +:+ "-" +:+ pad 2 d +:+ "T"
          +:+ pad 2 (t / 3600000) +:+ ":" +:+ pad 2 (t / 60000 mod 60)
          +:+ ":" +:+ pad 2 (t / 1000 mod 60) +:+ "." +:+ pad 3 (t mod 1000)
          +:+ "Z").

End JsDate.

(* ===================================================================== *)
(** * The audit store: [init.sql] *)
(* ===================================================================== *)

Module Schema.

Inductive sql_type : Type :=
  | SERIAL
  | INT
  | VARCHAR (n : nat)
  | DECIMAL (precision scale : nat)
  | TIMESTAMP.

Record column : Type := {
  col_name : string;
  col_type : sql_type;
  primary_key : bool;
  not_null : bool;
  unique : bool;
  references : option string;
  default : option string
}.

Definition col (n : string) (t : sql_type) : column :=
  {| col_name := n; col_type := t; primary_key := false; not_null := false;
     unique := false; references := None; default := None |}.

Definition pk (c : column) : column :=
  {| col_name := col_name c; col_type := col_type c; primary_key := true;
     not_null := true; unique := true; references := references c;
     default := default c |}.

Definition nn (c : column) : column :=
  {| col_name := col_name c; col_type := col_type c;
     primary_key := primary_key c; not_null := true; unique := unique c;
     references := references c; default := default c |}.

Definition uq (c : column) : column :=
  {| col_name := col_name c; col_type := col_type c;
     primary_key := primary_key c; not_null := not_null c; unique := true;
     references := references c; default := default c |}.

Definition fk (table : string) (c : column) : column :=
  {| col_name := col_name c; col_type := col_type c;
     primary_key := primary_key c; not_null := not_null c; unique := unique c;
     references := Some table; default := default c |}.

Definition dflt (v : string) (c : column) : column :=
  {| col_name := col_name c; col_type := col_type c;
     primary_key := primary_key c; not_null := not_null c; unique := unique c;
     references := references c; default := Some v |}.

(** [CREATE TABLE materials]. *)
Definition materials : list column :=
  [ pk (col "id" SERIAL);
    nn (uq (col "name" (VARCHAR 50)));
    nn (col "category" (VARCHAR 50));
    dflt "30" (col "lead_time" INT) ].

(** [CREATE TABLE countries]. *)
Definition countries : list column :=
  [ pk (col "id" SERIAL);
    nn (uq (col "name" (VARCHAR 50)));
    uq (col "code" (VARCHAR 10)) ].

(** [CREATE TABLE ai_signals]. *)
Definition ai_signals : list column :=
  [ pk (col "id" SERIAL);
    fk "materials" (col "material_id" INT);
    fk "countries" (col "country_id" INT);
    nn (col "input_price" (DECIMAL 10 2));
    col "predicted_demand" (DECIMAL 10 2);
    nn (col "decision" (VARCHAR 20));
    col "confidence_score" (DECIMAL 5 2);
    dflt "CURRENT_TIMESTAMP" (col "created_at" TIMESTAMP) ].

(** The [ai_signals] table as the schema reference of the repository
    ([DATABASE_SCHEMA.md]) documents it. *)
Definition ai_signals_documented : list column :=
  [ pk (col "id" SERIAL);
    fk "materials" (col "material_id" INT);
    fk "countries" (col "country_id" INT);
    nn (col "input_price" (DECIMAL 10 2));
    nn (col "decision" (VARCHAR 20));
    col "confidence_score" (DECIMAL 5 2);
    col "stockout_risk" (DECIMAL 5 4);
    dflt "NOW()" (col "created_at" TIMESTAMP) ].

Definition has_column (table : list column) (n : string) : bool :=
  existsb (fun c => String.eqb (col_name c) n) table.

(** The fields of an audit row, as the interface description lists them. *)
Inductive audit_field : Type :=
  | FMaterial | FCountry | FInputPrice | FForecast | FDecision
  | FConfidence | FRisk | FCreated.

Definition audit_fields : list audit_field :=
  [ FMaterial; FCountry; FInputPrice; FForecast; FDecision;
    FConfidence; FRisk; FCreated ].

(** The column that holds a field: the names the tables of the repository
    and its schema reference use. *)
Definition column_of (f : audit_field) : string :=
  match f with
  | FMaterial => "material_id"
  | FCountry => "country_id"
  | FInputPrice => "input_price"
  | FForecast => "predicted_demand"
  | FDecision => "decision"
  | FConfidence => "confidence_score"
  | FRisk => "stockout_risk"
  | FCreated => "created_at"
  end.

Definition carries (table : list column) (f : audit_field) : bool :=
  has_column table (column_of f).

(** Does [hay] contain [needle]? *)
Fixpoint mentions (needle hay : string) : bool :=
  String.prefix needle hay ||
  match hay with
  | EmptyString => false
  | String _ rest => mentions needle rest
  end.

End Schema.

(* ===================================================================== *)
(** * The tables and the history query *)
(* ===================================================================== *)

Module Materials.
Record row : Type := {
  id : Z; name : string; category : string; lead_time : option Z
}.
End Materials.

Module Countries.
Record row : Type := { id : Z; name : string; code : option string }.
End Countries.

(** A row of [ai_signals]. A [DECIMAL] is kept as the text the driver
    hands to JavaScript, [created_at] as milliseconds from the epoch
    (the session reads timestamps in UTC); [None] is SQL [NULL]. *)
Module Signals.
Record row : Type := {
  id : Z;
  material_id : option Z;
  country_id : option Z;
  input_price : string;
  predicted_demand : option string;
  decision : string;
  confidence_score : option string;
  created_at : option Z
}.
End Signals.

Module History.
Import Js Exn.

Record database : Type := {
  materials : list Materials.row;
  countries : list Countries.row;
  ai_signals : list Signals.row
}.

Inductive pool : Type :=
  | Down
  | Up (db : database).

(** A row of the result set, under the aliases of the [SELECT]. *)
Record result_row : Type := {
  r_timestamp : option Z;
  r_material : string;
  r_country : string;
  r_price : string;
  r_prediction : option string;
  r_signal : string
}.

(** [FROM ai_signals s JOIN materials m ON s.material_id = m.id
     JOIN countries c ON s.country_id = c.id]. *)
Definition joined (db : database) : list result_row :=
  s ← ai_signals db;
  m ← materials db;
  c ← countries db;
  if bool_decide (Signals.material_id s = Some (Materials.id m)
                  ∧ Signals.country_id s = Some (Countries.id c))
  then [ {| r_timestamp := Signals.created_at s;
            r_material := Materials.name m;
            r_country := Countries.name c;
            r_price := Signals.input_price s;
            r_prediction := Signals.predicted_demand s;
            r_signal := Signals.decision s |} ]
  else [].

(** [a] may stand before [b] under [ORDER BY ... DESC]: [NULL]s first,
    then later timestamps before earlier ones. *)
Definition desc_le (a b : option Z) : bool :=
  match a, b with
  | None, _ => true
  | Some _, None => false
  | Some x, Some y => y <=? x
  end.

Fixpoint insert_desc (r : result_row) (l : list result_row)
  : list result_row :=
  match l with
  | [] => [r]
  | h :: t =>
      if desc_le (r_timestamp h) (r_timestamp r) then h :: insert_desc r t
      else r :: l
  end.

(** [ORDER BY s.created_at DESC]. *)
Definition order_by_created_at_desc (l : list result_row) : list result_row :=
  foldr insert_desc [] l.

(** The whole statement, with its [LIMIT 10]. *)
Definition run_query (db : database) : list result_row :=
  take 10 (order_by_created_at_desc (joined db)).

(** [await pool.query(query)], giving [res.rows]. *)
Definition pool_query (p : pool) : completion (list result_row) :=
  match p with
  | Down => Throw ConnectionError
  | Up db => Normal (run_query db)
  end.

(** The object [getDecisionHistory] returns for one row. *)
Record DecisionRecord : Type := {
  timestamp : string;
  material : string;
  country : string;
  price : number;
  prediction : number;
  signal : string
}.

(** The callback of [res.rows.map]. [row.prediction] may be [null], which
    [parseFloat] reads as the text [null]; [row.timestamp] may be [null],
    on which [toISOString] is not a function. *)
Definition convert (row : result_row) : completion DecisionRecord :=
  let price := parseFloat (r_price row) in
  let prediction := parseFloat (default "null"%string (r_prediction row)) in
  match r_timestamp row with
  | None => Throw TypeError
  | Some d =>
      match JsDate.toISOString d with
      | None => Throw RangeError
      | Some iso =>
          Normal {| timestamp := iso;
                    material := r_material row;
                    country := r_country row;
                    price := price;
                    prediction := prediction;
                    signal := r_signal row |}
      end
  end.

(** The [try] block. *)
Definition getDecisionHistory_body (p : pool)
  : completion (list DecisionRecord) :=
  Exn.bind (pool_query p) (fun rows => mapE convert rows).

Definition getDecisionHistory (p : pool) : completion (list DecisionRecord) :=
  try_catch (getDecisionHistory_body p) (fun _ => Normal []).

End History.

(* ===================================================================== *)
(** * The values of a JSON answer *)
(* ===================================================================== *)

Module JsValue.
Import Js.

(** A scalar of the JSON the API answers with; [Undefined] is a field
    that is not there. Objects and arrays are not represented. *)
Inductive value : Type :=
  | Undefined
  | Null
  | Bool (b : bool)
  | Num (n : number)
  | Str (s : string).

Definition truthy (v : value) : bool :=
  match v with
  | Undefined | Null => false
  | Bool b => b
  | Num n => truthy_num n
  | Str s => truthy_str s
  end.

(** [a || b]. *)
Definition or (a b : value) : value := if truthy a then a else b.

(** [a || b] on numbers. *)
Definition or_number (a b : number) : number := if truthy_num a then a else b.

(** [a === b]; [NaN] equals nothing. *)
Definition strict_eq (a b : value) : bool :=
  match a, b with
  | Undefined, Undefined | Null, Null => true
  | Bool x, Bool y => Bool.eqb x y
  | Num (Fin x), Num (Fin y) => Qeq_bool x y
  | Num PosInf, Num PosInf | Num NegInf, Num NegInf => true
  | Str x, Str y => String.eqb x y
  | _, _ => false
  end.

(** [parseFloat(v)], which reads the text of [v]: the text of a number
    reads back as that number, and the texts [undefined], [null], [true]
    and [false] begin with no digit. *)
Definition parseFloat_value (v : value) : number :=
  match v with
  | Str s => parseFloat s
  | Num n => n
  | Undefined | Null | Bool _ => NaN
  end.

End JsValue.

(* ===================================================================== *)
(** * The material card of the static dashboard *)
(* ===================================================================== *)

Module Card.
Import Js JsValue.

(** An element of the list the card is built from, by the fields the
    script reads. An element that is a scalar or an array has none of
    these fields and reads as the object whose fields are all
    [Undefined]. *)
Record material_item : Type := {
  name : value;
  material : value;
  decision : value;
  price : value;
  input_price : value;
  trend : value
}.

(** The card, by the places of its markup that are filled in: [mat_name]
    and [badge_text] are the values the template prints, and the two
    numbers are the operands of [toFixed(2)]. *)
Record card : Type := {
  className : string;
  mat_name : value;
  badge_class : string;
  badge_text : value;
  mat_price : number;
  trend_class : string;
  trend_arrow : string;
  trend_abs : number
}.

Section WithStringToNumber.

(** The conversion of a string to a number, which [>=], [Number] and
    [Math.abs] apply to an operand that is a string. *)
Variable StringToNumber : string -> number.

(** The conversion of a value to a number. *)
Definition ToNumber (v : value) : number :=
  match v with
  | Undefined => NaN
  | Null => num 0
  | Bool b => if b then num 1 else num 0
  | Num n => n
  | Str s => StringToNumber s
  end.

Definition createMaterialCard (mat : material_item) : card :=
  let decisionClass := "wait"%string in
  let decisionClass :=
    if strict_eq (decision mat) (Str "BUY") then "buy"%string
    else decisionClass in
  let decisionClass :=
    if strict_eq (decision mat) (Str "HOLD") then "hold"%string
    else decisionClass in
  let isUp := ge (ToNumber (trend mat)) (num 0) in
  let trendClass := if isUp then "trend-up"%string else "trend-down"%string in
  let trendArrow := if isUp then "▲"%string else "▼"%string in
  {| className := "material-card " +:+ decisionClass;
     mat_name := or (name mat) (material mat);
     badge_class := decisionClass;
     badge_text := or (decision mat) (Str "WAIT");
     mat_price := ToNumber (or (price mat) (input_price mat));
     trend_class := trendClass;
     trend_arrow := trendArrow;
     trend_abs := abs (ToNumber (or (trend mat) (Num (Fin (1 # 2))))) |}.

End WithStringToNumber.

Definition generateMockData : list material_item :=
  [ {| name := Str "Copper (LME)"; material := Undefined;
       decision := Str "BUY"; price := Num (Fin (17081 # 2));
       input_price := Undefined; trend := Num (Fin (6 # 5)) |};
    {| name := Str "PVC Resin"; material := Undefined;
       decision := Str "WAIT"; price := Num (Fin 920);
       input_price := Undefined; trend := Num (Fin (- 1 # 2)) |};
    {| name := Str "Aluminum"; material := Undefined;
       decision := Str "HOLD"; price := Num (Fin 2150);
       input_price := Undefined; trend := Num (Fin (1 # 10)) |};
    {| name := Str "XLPE"; material := Undefined;
       decision := Str "BUY"; price := Num (Fin (4401 # 4));
       input_price := Undefined; trend := Num (Fin (5 # 2)) |};
    {| name := Str "GSW Steel"; material := Undefined;
       decision := Str "WAIT"; price := Num (Fin 650);
       input_price := Undefined; trend := Num (Fin (- 6 # 5)) |} ].

End Card.

(* ===================================================================== *)
(** * The Procurement Optimizer *)
(* ===================================================================== *)

Module Optimizer.

Inductive decision_kind : Type := BUY | WAIT | HOLD.

Inductive policy : Type := Aggressive | Conservative.

(** Direction of the price at a date, against the price observed now. *)
Inductive direction : Type := Rising | Falling | Steady.

Inductive error : Type := InfeasibleOptimization.

Record ProcurementDecision : Type := {
  decision : decision_kind;
  quantity : option Q;
  risk : Q
}.

Section Optimize.

(** What the design fixes by configuration and does not spell out. *)
Variable HoldingCost : Q.
Variable SafetyStock : Q -> Z -> Q.
Variable direction_of : Q -> direction.
Variable hedge_quantity : Q.
Variable otherwise : direction -> bool -> policy -> decision_kind * option Q.

(** Modelled from the spec: the optimizer of [shared/logic/optimizer.py]
    is not among the sources. A forecast is a series of prices by day
    counted from now; [Price(t_delivery)] is its value at
    [now + lead_time_days]. *)
Definition Price_t_delivery (forecast : Z -> Q) (lead_time_days : Z) : Q :=
  forecast lead_time_days.

(** Modelled from the spec: the minimized objective
    [Price(t_delivery) * Qty + HoldingCost * (Inventory + Qty)]. *)
Definition objective (forecast : Z -> Q) (lead_time_days : Z)
    (inventory qty : Q) : Q :=
  (Price_t_delivery forecast lead_time_days * qty
   + HoldingCost * (inventory + qty))%Q.

(** Modelled from the spec: the constraints
    [Inventory + Qty >= SafetyStock(risk, lead_time_days)] and [Qty >= 0]. *)
Definition feasible (rsk : Q) (lead_time_days : Z) (inventory qty : Q) : Prop :=
  (SafetyStock rsk lead_time_days <= inventory + qty)%Q /\ (0 <= qty)%Q.

(** Modelled from the spec: the minimal feasible quantity, which closes
    the gap to the safety stock. *)
Definition minimal_quantity (rsk : Q) (lead_time_days : Z) (inventory : Q) : Q :=
  Qmax 0 (SafetyStock rsk lead_time_days - inventory).

(** Modelled from the spec: [optimize(forecast, risk, current_inventory,
    lead_time_days, policy)] with its decision mapping. A negative lead
    time is infeasible. The combinations of direction and inventory that
    the mapping leaves open are answered by [otherwise]. *)
Definition optimize (forecast : Z -> Q) (rsk : Q) (current_inventory : Q)
    (lead_time_days : Z) (pol : policy) : error + ProcurementDecision :=
  if (lead_time_days <? 0)%Z then inl InfeasibleOptimization
  else
    let p := Price_t_delivery forecast lead_time_days in
    let below :=
      match (current_inventory ?= SafetyStock rsk lead_time_days)%Q with
      | Lt => true
      | _ => false
      end in
    let '(kind, qty) :=
      match direction_of p, below with
      | Rising, true =>
          (BUY, Some (minimal_quantity rsk lead_time_days current_inventory))
      | Falling, false => (WAIT, None)
      | Rising, false =>
          match pol with
          | Aggressive => (BUY, Some hedge_quantity)
          | Conservative => (HOLD, None)
          end
      | d, b => otherwise d b pol
      end in
    inr {| decision := kind; quantity := qty; risk := rsk |}.

End Optimize.

End Optimizer.

(* ===================================================================== *)
(** * The intermittent-demand state machine *)
(* ===================================================================== *)

Module Croston.

(** Smoothed inter-arrival interval [P], smoothed order size [Z], days
    elapsed since the last non-zero observation [E]. *)
Record state : Type := { P : Q; Z : Q; E : nat }.

(** An observation: the interval since the last non-zero demand and the
    size of the demand, zero when there is none. *)
Record observation : Type := { interval : Q; size : Q }.

Definition is_zero (q : Q) : bool := (Qnum q =? 0)%Z.

(** Modelled from the spec: the transition of the per-(material, country)
    state machine of the intermittent-demand strategy, whose Python
    implementation is not among the sources. *)
Inductive step (alpha : Q) : state -> observation -> state -> Prop :=
  | step_demand (st : state) (d s : Q) :
      is_zero s = false ->
      step alpha st {| interval := d; size := s |}
           {| P := alpha * d + (1 - alpha) * P st;
              Z := alpha * s + (1 - alpha) * Z st;
              E := 0 |}
  | step_zero (st : state) (d s : Q) :
      is_zero s = true ->
      step alpha st {| interval := d; size := s |}
           {| P := P st; Z := Z st; E := S (E st) |}.

(** Modelled from the spec: a run over a sequence of observations. *)
Inductive steps (alpha : Q) : state -> list observation -> state -> Prop :=
  | steps_nil (st : state) : steps alpha st [] st
  | steps_cons (st st' st'' : state) (o : observation) (os : list observation) :
      step alpha st o st' -> steps alpha st' os st'' ->
      steps alpha st (o :: os) st''.

(** Modelled from the spec: the same transition as a function, to run the
    machine. *)
Definition transition (alpha : Q) (st : state) (o : observation) : state :=
  if is_zero (size o) then {| P := P st; Z := Z st; E := S (E st) |}
  else {| P := alpha * interval o + (1 - alpha) * P st;
          Z := alpha * size o + (1 - alpha) * Z st;
          E := 0 |}.

Definition run (alpha : Q) (st : state) (os : list observation) : state :=
  fold_left (transition alpha) os st.

(** Modelled from the spec: the derived forecast [Z / P]. *)
Definition forecast (st : state) : Q := (Z st / P st)%Q.

End Croston.

(* ===================================================================== *)
(** * Vocabulary of the statements *)
(* ===================================================================== *)

Module Props.
Import Js.

(** A confidence that lies in [[0,100]]. *)
Definition in_range (c : number) : bool :=
  match c with
  | Fin q => Qle_bool 0 q && Qle_bool q 100
  | _ => false
  end.

(** Every confidence that is present lies in [[0,100]]. *)
Definition confidences_in_range (ms : list MarketData.MaterialData) : bool :=
  forallb (fun m =>
    match MarketData.confidence m with
    | Some c => in_range c
    | None => true
    end) ms.

(** What an entry adds to the total: its confidence, or 85 when the
    confidence is absent or zero. *)
Definition contribution (m : MarketData.MaterialData) : Q :=
  match MarketData.confidence m with
  | Some (Fin q) => if Qeq_bool q 0 then 85 else q
  | _ => 85
  end.

Definition total_contribution (ms : list MarketData.MaterialData) : Q :=
  fold_right (fun m acc => (contribution m + acc)%Q) 0%Q ms.

(** The divisor [materials.length || 1]. *)
Definition divisor (ms : list MarketData.MaterialData) : Z :=
  Z.of_nat (match length ms with O => 1 | _ => length ms end).

End Props.

Module FeedProps.
Import Js MarketData.

(** The cache key of a metric of a (country, material) pair. *)
Definition live_key (country mat metric : string) : string :=
  "live:" +:+ country +:+ ":" +:+ mat +:+ ":" +:+ metric.

(** The metrics the reader asks for, in the order it queues them. *)
Definition metrics : list string :=
  [ "price"; "trend"; "signal"; "forecast"; "confidence" ]%string.

(** The number cached under a key: [0] when the key is missing or holds
    no string. *)
Definition cached_number (store : gmap string Redis.value) (key : string)
  : number :=
  match store !! key with
  | Some (Redis.Str v) => parseFloat v
  | _ => num 0
  end.

(** The text cached under a key: [N/A] when the key is missing or holds
    no string. *)
Definition cached_text (store : gmap string Redis.value) (key : string)
  : string :=
  match store !! key with
  | Some (Redis.Str v) => v
  | _ => "N/A"%string
  end.

(** The cache holds something under the first key of the pipeline, the
    price of Copper in Egypt. *)
Definition first_reply_present (store : gmap string Redis.value) : bool :=
  match store !! live_key "Egypt" "Copper" "price" with
  | Some _ => true
  | None => false
  end.

(** An entry shows what the cache holds for its material in Egypt. *)
Definition shows_cached (store : gmap string Redis.value) (e : MaterialData)
  : Prop :=
  price e = cached_number store (live_key "Egypt" (name e) "price")
  /\ signal e = cached_text store (live_key "Egypt" (name e) "signal")
  /\ forecast e = cached_number store (live_key "Egypt" (name e) "forecast")
  /\ confidence e
     = Some (cached_number store (live_key "Egypt" (name e) "confidence")).

(** An entry as [getMockData] makes them. *)
Definition mock_shaped (e : MaterialData) : Prop :=
  (signal e = "BUY"%string \/ signal e = "WAIT"%string)
  /\ confidence e = Some (num 85).

(** The entry the reader builds for a material when every command of
    the pipeline failed: the defaults of [parseRes]. *)
Definition failed_entry (mat : string) : MaterialData :=
  {| name := mat;
     price := num 0;
     trend := num 0;
     signal := "N/A";
     forecast := num 0;
     confidence := Some (num 0) |}.

(** Where the decision of an entry comes from, by the state of the
    cache: the default of a failed command, the text cached for the
    material, or a draw of the mock data. *)
Definition signal_origin (srv : Redis.server) (e : MaterialData) : Prop :=
  match srv with
  | Redis.Unreachable => signal e = "N/A"%string
  | Redis.Connected store =>
      if first_reply_present store
      then signal e = cached_text store (live_key "Egypt" (name e) "signal")
      else signal e = "BUY"%string \/ signal e = "WAIT"%string
  end.

(** The entry the reader builds for a material from a connected cache. *)
Definition entry_of (store : gmap string Redis.value) (mat : string)
  : MaterialData :=
  {| name := mat;
     price := cached_number store (live_key "Egypt" mat "price");
     trend := num 0;
     signal := cached_text store (live_key "Egypt" mat "signal");
     forecast := cached_number store (live_key "Egypt" mat "forecast");
     confidence :=
       Some (cached_number store (live_key "Egypt" mat "confidence")) |}.

End FeedProps.

Module DecisionProps.
Import JsValue.

(** The text of a decision that is a string, and the empty text of one
    that is falsy: the operand of [toUpperCase] in the card of
    [app.js]. *)
Definition decision_text (v : value) : string :=
  match v with
  | Str s => s
  | _ => ""%string
  end.

(** The class a card gives to the text of a decision. *)
Definition class_of (d : string) : string :=
  (if bool_decide (d = "HOLD") then "hold"
   else if bool_decide (d = "BUY") then "buy"
   else "wait")%string.

(** The decision values of the data model. *)
Definition DECISIONS : list string := [ "BUY"; "WAIT"; "HOLD" ]%string.

Definition is_decision (s : string) : bool :=
  existsb (String.eqb s) DECISIONS.

(** No column of a table is named after a quantity. *)
Definition no_quantity_column (table : list Schema.column) : bool :=
  forallb (fun c =>
    negb (Schema.mentions "quantity" (Schema.col_name c))
    && negb (Schema.mentions "qty" (Schema.col_name c))) table.

End DecisionProps.

Module HistoryProps.
Import Js History.

(** [a] is at least as recent as [b], a missing timestamp counting as the
    most recent. *)
Definition before (a b : result_row) : Prop :=
  desc_le (r_timestamp a) (r_timestamp b) = true.

Definition most_recent_first (rows : list result_row) : Prop :=
  StronglySorted before rows.


(** A record is the conversion of a row. *)
Definition represents (row : result_row) (rec : DecisionRecord) : Prop :=
  material rec = r_material row
  /\ country rec = r_country row
  /\ signal rec = r_signal row
  /\ price rec = parseFloat (r_price row)
  /\ prediction rec = parseFloat (default "null"%string (r_prediction row))
  /\ exists d, r_timestamp row = Some d
               /\ JsDate.toISOString d = Some (timestamp rec).

(** The timestamp of a row is there and is a valid date. *)
Definition serialisable (row : result_row) : bool :=
  match r_timestamp row with
  | Some d => bool_decide (is_Some (JsDate.toISOString d))
  | None => false
  end.





End HistoryProps.

(* ===================================================================== *)
(** * Sample states *)
(* ===================================================================== *)

Module Samples.

(** A cache in which the worker has stored a decision for Copper and a
    confidence for Aluminum. *)
Definition store_copper : gmap string Redis.value :=
  <["live:Egypt:Copper:price" := Redis.Str "9000.50"]>
  (<["live:Egypt:Copper:trend" := Redis.Str "1.5"]>
  (<["live:Egypt:Copper:signal" := Redis.Str "BUY"]>
  (<["live:Egypt:Copper:forecast" := Redis.Str "9120"]>
  (<["live:Egypt:Copper:confidence" := Redis.Str "91.5"]>
  (<["live:Egypt:Copper:risk" := Redis.Str "0.15"]>
  (<["live:Egypt:Copper:updated_at" := Redis.Str "1706691234"]>
  (<["live:Egypt:Aluminum:confidence" := Redis.Str "77"]> ∅))))))).

(** The same cache after the worker has stored another risk and another
    update time for Copper. *)
Definition store_copper_later : gmap string Redis.value :=
  <["live:Egypt:Copper:risk" := Redis.Str "0.95"]>
  (<["live:Egypt:Copper:updated_at" := Redis.Str "1706694834"]> store_copper).

(** A cache that holds a decision for Aluminum and has lost the price of
    Copper. *)
Definition store_stalled : gmap string Redis.value :=
  <["live:Egypt:Aluminum:price" := Redis.Str "2150.00"]>
  (<["live:Egypt:Aluminum:signal" := Redis.Str "HOLD"]>
  (<["live:Egypt:Aluminum:forecast" := Redis.Str "2200"]>
  (<["live:Egypt:Aluminum:confidence" := Redis.Str "64"]>
  (<["live:Egypt:Copper:signal" := Redis.Str "BUY"]> ∅)))).

(** A random source that always answers [1/10], and one that always
    answers [9/10]. *)
Definition rnd_low : nat -> Q := fun _ => (1 # 10)%Q.
Definition rnd_high : nat -> Q := fun _ => (9 # 10)%Q.

End Samples.

Module SampleDb.

Definition materials : list Materials.row :=
  [ {| Materials.id := 1; Materials.name := "Copper";
       Materials.category := "Shielding"; Materials.lead_time := Some 30 |};
    {| Materials.id := 3; Materials.name := "PVC";
       Materials.category := "Polymer"; Materials.lead_time := Some 30 |} ].

Definition countries : list Countries.row :=
  [ {| Countries.id := 1; Countries.name := "Egypt";
       Countries.code := Some "818"%string |};
    {| Countries.id := 9; Countries.name := "Germany";
       Countries.code := Some "276"%string |} ].

Definition signal (i : Z) (m c : option Z) (p : string) (d : option string)
    (dec : string) (t : option Z) : Signals.row :=
  {| Signals.id := i; Signals.material_id := m; Signals.country_id := c;
     Signals.input_price := p; Signals.predicted_demand := d;
     Signals.decision := dec; Signals.confidence_score := None;
     Signals.created_at := t |}.

(** Three decisions, the second one the latest, and a row whose material
    is [NULL]. *)
Definition db : History.database :=
  {| History.materials := materials;
     History.countries := countries;
     History.ai_signals :=
       [ signal 1 (Some 1) (Some 1) "9000.00" (Some "9120.50") "BUY"
                (Some 1706691234000);
         signal 2 (Some 3) (Some 9) "920.00" None "WAIT"
                (Some 1706694834000);
         signal 3 None (Some 1) "1.00" None "HOLD" (Some 1706699999000);
         signal 4 (Some 1) (Some 9) "8990.10" (Some "9000") "HOLD"
                (Some 1706600000000) ] |}.

(** The same tables after a row with a [NULL] timestamp was inserted. *)
Definition db_null_timestamp : History.database :=
  {| History.materials := materials;
     History.countries := countries;
     History.ai_signals :=
       signal 5 (Some 1) (Some 1) "9001.00" None "BUY" None
       :: History.ai_signals db |}.

End SampleDb.

(** A configuration of the optimizer and two forecasts that differ only on
    the day of the call. *)
Module SampleOptimizer.
Import Optimizer.

Definition HoldingCost : Q := 2.

(** A buffer that grows with the risk. *)
Definition SafetyStock (rsk : Q) (lead_time_days : Z) : Q :=
  (100 + 1000 * rsk)%Q.

(** A price stands against the observed price of 9000. *)
Definition direction_of (p : Q) : direction :=
  match (p ?= 9000)%Q with
  | Gt => Rising
  | Lt => Falling
  | Eq => Steady
  end.

Definition hedge_quantity : Q := 50.

Definition otherwise (d : direction) (below : bool) (pol : policy)
  : decision_kind * option Q :=
  (HOLD, None).

(** Falling today, rising on the delivery date. *)
Definition forecast_down_then_up (t : Z) : Q :=
  if (t =? 0)%Z then 8900 else 9200.

(** Rising today and on the delivery date. *)
Definition forecast_up (t : Z) : Q :=
  if (t =? 0)%Z then 9300 else 9200.

(** Rising today, falling on the delivery date. *)
Definition forecast_up_then_down (t : Z) : Q :=
  if (t =? 0)%Z then 9300 else 8800.

Definition optimize :=
  Optimizer.optimize SafetyStock direction_of hedge_quantity otherwise.

End SampleOptimizer.

(* ===================================================================== *)
(** * The panels of the dashboard page *)
(* ===================================================================== *)

Module JsOps.
Import Js.

(** [a - b]. *)
Definition sub (a b : number) : number :=
  match a, b with
  | NaN, _ | _, NaN => NaN
  | PosInf, PosInf | NegInf, NegInf => NaN
  | PosInf, _ | _, NegInf => PosInf
  | NegInf, _ | _, PosInf => NegInf
  | Fin x, Fin y => Fin (Qred (x - y))
  end.

(** [a < b]; any comparison with [NaN] is false. *)
Definition lt (a b : number) : bool := gt b a.

(** [Array.from({ length: n }, f)] for an [f] that draws. *)
Fixpoint arrayFrom {A} (n : nat) (f : Rand A) : Rand (list A) :=
  match n with
  | O => ret []
  | S k => bind f (fun y => bind (arrayFrom k f) (fun ys => ret (y :: ys)))
  end.

End JsOps.

(** The decision engine of [ContextPanel]: the effect that polls the feed
    while a country is selected, and the part of the markup it fills. *)
Module ContextPanel.
Import Js MarketData.

(** The object kept in [latestSignal]. *)
Record LatestSignal : Type := {
  signal : string;
  confidence : number;
  material : string;
  price : number
}.

(** [marketData.find(m => m.signal === 'BUY') || marketData[0]]. *)
Definition interesting (marketData : list MaterialData)
  : option MaterialData :=
  match find (fun m => bool_decide (MarketData.signal m = "BUY"%string))
             marketData with
  | Some m => Some m
  | None => marketData !! 0%nat
  end.

(** [interesting.confidence || 90]. *)
Definition confidence_or_90 (m : MaterialData) : number :=
  match MarketData.confidence m with
  | Some c => if truthy_num c then c else num 90
  | None => num 90
  end.

Definition latestSignal_of (m : MaterialData) : LatestSignal :=
  {| signal := MarketData.signal m;
     confidence := confidence_or_90 m;
     material := MarketData.name m;
     price := MarketData.price m |}.

(** One run of [fetchMaterialStatus], from the value of [latestSignal] to
    its next value. *)
Definition fetchMaterialStatus (selectedCountry : option string)
    (srv : Redis.server) (latestSignal : option LatestSignal)
  : Rand (option LatestSignal) :=
  if match selectedCountry with
     | Some c => truthy_str c
     | None => false
     end
  then
    (let* marketData := getLiveMarketData srv in
     ret match interesting marketData with
         | Some m => Some (latestSignal_of m)
         | None => latestSignal
         end)%rand
  else ret latestSignal.

(** The places of the decision engine that depend on [latestSignal]. *)
Record DecisionEngine : Type := {
  country : string;
  buy_style : bool;
  recommendation : string;
  detail : option (string * number);
  confidence_shown : number;
  volatility : string
}.

(** [latestSignal?.confidence || 0]. *)
Definition confidence_or_0 (latestSignal : option LatestSignal) : number :=
  match latestSignal with
  | Some l => if truthy_num (confidence l) then confidence l else num 0
  | None => num 0
  end.

Definition decisionEngine (selectedCountry : string)
    (latestSignal : option LatestSignal) : DecisionEngine :=
  {| country := selectedCountry;
     buy_style :=
       bool_decide (option_map signal latestSignal = Some "BUY"%string);
     recommendation :=
       match option_map signal latestSignal with
       | Some s => if truthy_str s then s else "ANALYZING..."%string
       | None => "ANALYZING..."%string
       end;
     detail := option_map (fun l => (material l, price l)) latestSignal;
     confidence_shown := confidence_or_0 latestSignal;
     volatility :=
       if gt (confidence_or_0 latestSignal) (num 90)
       then "LOW"%string else "HIGH"%string |}.

End ContextPanel.

(** The forecast card of [BottomPanel]. *)
Module BottomPanel.
Import Js JsOps MarketData.

(** [getSparkline]: twenty points around [base]. The points are the
    exact values of the expression; the doubles the script computes
    differ from them by the rounding of 0.05, of the two products and of
    the sum, and a base at the end of the range of the doubles
    overflows. *)
Definition getSparkline (base : number) : Rand (list number) :=
  arrayFrom 20
    (let* r := random in
     ret (add base (mul (sub r (Fin (1 # 2))) (mul base (Fin (1 # 20))))))%rand.

(** One [MiniGraph] with its caption. *)
Record graph : Type := {
  caption : string;
  points : list number;
  color : string
}.

(** [data.slice(0, 2).map((item, i) => ...)]. *)
Definition forecasts (data : list MaterialData) : Rand (list graph) :=
  mapR (fun ix : nat * MaterialData =>
    (let* pts := getSparkline (price ix.2) in
     ret {| caption := name ix.2;
            points := pts;
            color := if (ix.1 =? 0)%nat then "#10b981"%string
                     else "#3b82f6"%string |})%rand)
    (imap pair (take 2 data)).

End BottomPanel.

(** The cards of [LeftPanel]. *)
Module LeftPanel.
Import Js JsOps MarketData.

Inductive icon : Type :=
  | ArrowUpRight
  | ArrowDownRight
  | Minus.

Record card : Type := {
  title : string;
  trend_icon : icon;
  shown_price : number;
  trend_class : string;
  trend_sign : string;
  shown_trend : number;
  bar_class : string;
  bar_width : number
}.

Definition LeftPanel (data : list MaterialData) : Rand (list card) :=
  mapR (fun item =>
    (let* r := random in
     ret {| title := name item;
            trend_icon :=
              if gt (trend item) (num 0) then ArrowUpRight
              else if lt (trend item) (num 0) then ArrowDownRight
              else Minus;
            shown_price := price item;
            trend_class :=
              if ge (trend item) (num 0) then "text-emerald-500"%string
              else "text-red-500"%string;
            trend_sign :=
              if gt (trend item) (num 0) then "+"%string else ""%string;
            shown_trend := trend item;
            bar_class :=
              if ge (trend item) (num 0) then "bg-emerald-500"%string
              else "bg-red-500"%string;
            bar_width := add (mul r (num 40)) (num 30) |})%rand)
    data.

End LeftPanel.

(** [page.tsx] and [DashboardLayout]: the feed is read once on the server
    and handed to the panels. *)
Module DashboardPage.
Import Js MarketData.

Record panels : Type := {
  left : list LeftPanel.card;
  bottom : list BottomPanel.graph
}.

(** The panels that are given [initialData], in the order of the markup:
    the left panel, then the bottom panel, of which the forecast card is
    kept (it draws before the card below it). The map and the context
    panel, which stand between them, draw nothing while they render. *)
Definition DashboardLayout (initialData : list MaterialData) : Rand panels :=
  (let* l := LeftPanel.LeftPanel initialData in
   let* b := BottomPanel.forecasts initialData in
   ret {| left := l; bottom := b |})%rand.

(** [Page]: the server draws from its own stream, the browser from
    another. *)
Definition Page (srv : Redis.server) (server_rnd : nat -> Q) (server_pos : nat)
  : Rand panels :=
  DashboardLayout (fst (getLiveMarketData srv server_rnd server_pos)).

End DashboardPage.

(* ===================================================================== *)
(** * The market feed of the static dashboard *)
(* ===================================================================== *)

(** [updateMarketFeed] of the first static dashboard, which polls
    [/api/live] and fills [#material-list] with the cards of [Card]. *)
Module StaticFeed.
Import Js JsValue Card.

(** [data.materials], by what the script does with it: a value that is
    falsy (the field is missing, or holds [null], [false], 0 or the empty
    string), a truthy value that is no array (a string, a number, [true]
    or an object) with whether its [length] is 0, as an object may say,
    or an array, whose elements are objects or [null]. *)
Inductive materials_field : Type :=
  | Falsy
  | NotAnArray (length_is_zero : bool)
  | Array (elements : list (option material_item)).

(** What [fetch] and [res.json()] give: a failure before the list is
    touched (the request fails, the body is no JSON, or it is [null], of
    which no field can be read), or a body with its [materials]. A body
    that is a scalar or an array has no such field. *)
Inductive response : Type :=
  | Failure
  | Body (materials : materials_field).

(** [!items || items.length === 0]. *)
Definition no_items (items : materials_field) : bool :=
  match items with
  | Falsy => true
  | NotAnArray length_is_zero => length_is_zero
  | Array l => (length l =? 0)%nat
  end.

Section WithStringToNumber.
Variable StringToNumber : string -> number.

(** [items.forEach(mat => container.appendChild(createMaterialCard(mat)))]
    on an array: the loop stops at an element that is [null], of which
    [createMaterialCard] cannot read the decision, and the cards appended
    before it stay. *)
Fixpoint forEach_append (items : list (option material_item))
    (container : list card) : list card :=
  match items with
  | [] => container
  | None :: _ => container
  | Some mat :: rest =>
      forEach_append rest
        (container ++ [createMaterialCard StringToNumber mat])
  end.

(** One run: from the cards of the list to its cards after the run. An
    exception is caught and logged wherever it is raised: before the list
    is touched it leaves the list as it is, and after the list was
    cleared it leaves what the loop had appended, nothing when
    [items.forEach] is no function. *)
Definition updateMarketFeed (res : response) (container : list card)
  : list card :=
  match res with
  | Failure => container
  | Body materials =>
      let items :=
        if no_items materials then Array (map Some generateMockData)
        else materials in
      match items with
      | Array l => forEach_append l []
      | Falsy | NotAnArray _ => []
      end
  end.

(** The list after a sequence of polls, from what it held when the page
    was loaded. *)
Definition polls (responses : list response) (container : list card)
  : list card :=
  fold_left (fun container res => updateMarketFeed res container)
            responses container.

End WithStringToNumber.

End StaticFeed.

(* ===================================================================== *)
(** * The dashboard of [static/js/app.js] *)
(* ===================================================================== *)

(** The market feed: the items of [/api/live], the signals merged into
    them and the card of an item. *)
Module MarketFeed.
Import Js JsValue Exn.

(** An element of [data.materials], by the fields the script reads or
    writes. *)
Record item : Type := {
  name : value;
  material : value;
  decision : value;
  price : value;
  input_price : value;
  trend : value;
  source : value
}.

(** An element of [data.ai_signals]. *)
Record ai_signal : Type := {
  signal_material : value;
  signal_input_price : value;
  signal_decision : value
}.

(** The card, by the places of its markup that are filled in; [mat_name]
    is the operand of the template, the two numbers are the operands of
    the formatters, and [grouped] tells that the price is formatted by
    [toLocaleString]. *)
Record card : Type := {
  className : string;
  mat_name : value;
  badge_class : string;
  badge_text : string;
  grouped : bool;
  mat_price : number;
  trend_class : string;
  trend_arrow : string;
  trend_abs : number
}.

Section WithUpperCase.

(** [String.prototype.toUpperCase]. *)
Variable toUpperCase : string -> string.

(** [(mat.decision || '').toUpperCase()]: a decision that is truthy and
    no string has no such method. *)
Definition upper_decision (mat : item) : completion string :=
  match or (decision mat) (Str "") with
  | Str s => Normal (toUpperCase s)
  | _ => Throw TypeError
  end.

Definition createMaterialCard (mat : item) : completion card :=
  Exn.bind (upper_decision mat) (fun decision =>
  let decisionClass := "wait"%string in
  let decisionClass :=
    if bool_decide (decision = "BUY"%string) then "buy"%string
    else decisionClass in
  let decisionClass :=
    if bool_decide (decision = "HOLD"%string) then "hold"%string
    else decisionClass in
  let trend := or_number (parseFloat_value (trend mat)) (num 0) in
  let isUp := ge trend (num 0) in
  let trendClass := if isUp then "trend-up"%string else "trend-down"%string in
  let trendArrow := if isUp then "▲"%string else "▼"%string in
  let price :=
    or_number (parseFloat_value (or (price mat) (input_price mat))) (num 0) in
  Normal {| className := "material-card " +:+ decisionClass;
            mat_name := or (or (name mat) (material mat)) (Str "Unknown");
            badge_class := decisionClass;
            badge_text :=
              if truthy_str decision then decision else "WAIT"%string;
            grouped := ge price (num 1000);
            mat_price := price;
            trend_class := trendClass;
            trend_arrow := trendArrow;
            trend_abs := abs trend |}).

(** What [fetch] and [res.json()] give: a rejection (the request fails,
    the body is no JSON, or it is [null]), or a body whose [materials] and
    [ai_signals] may be missing. *)
Inductive response : Type :=
  | Failure
  | Body (materials : option (list item)) (ai_signals : option (list ai_signal)).

(** The content of [#material-list]: the message that no live data is
    available, the message of a connection error, or cards. *)
Inductive content : Type :=
  | NoLiveData
  | ConnectionError
  | Cards (cards : list card).

(** [m.name || m.material]. *)
Definition display_name (m : item) : value := or (name m) (material m).

(** [items.some(m => (m.name || m.material) === signal.material)]. *)
Definition exists_in (items : list item) (signal : ai_signal) : bool :=
  existsb (fun m => strict_eq (display_name m) (signal_material signal)) items.

(** The object pushed for a signal. *)
Definition item_of_signal (signal : ai_signal) : item :=
  {| name := signal_material signal;
     material := Undefined;
     decision := signal_decision signal;
     price := signal_input_price signal;
     input_price := Undefined;
     trend := Num (num 0);
     source := Str "ai_signal" |}.

(** The loop over [data.ai_signals], which pushes onto [items]. *)
Definition merge (items : list item) (ai_signals : list ai_signal)
  : list item :=
  fold_left (fun items signal =>
    if exists_in items signal then items
    else items ++ [item_of_signal signal])
    ai_signals items.

(** One run of [updateMarketFeed], to the content of the list after it.
    An exception of a card is caught with those of the request. *)
Definition updateMarketFeed (res : response) : content :=
  match res with
  | Failure => ConnectionError
  | Body materials ai_signals =>
      let items := merge (default [] materials) (default [] ai_signals) in
      if (length items =? 0)%nat then NoLiveData
      else match mapE createMaterialCard items with
           | Normal cards => Cards cards
           | Throw _ => ConnectionError
           end
  end.

End WithUpperCase.

End MarketFeed.

(** [fetchCountryDetails] and the four metrics it sets. *)
Module CountryDetails.
Import Js JsValue MarketFeed.

(** The body of [/api/country/<code>], by the fields the script reads. *)
Record details : Type := {
  error : value;
  economic_health : value;
  local_demand_index : value;
  active_projects : value;
  risk_level : value
}.

(** What [fetch] and [res.json()] give: a rejection, or a body. *)
Inductive response : Type :=
  | Failure
  | Body (data : details).

(** What is written into an element: a value given to [textContent], or
    a number formatted by [toFixed(1)]. *)
Inductive text : Type :=
  | Text (v : value)
  | Fixed1 (n : number).

(** The arguments of [setCountryMetrics]. *)
Record metrics : Type := {
  econHealth : text;
  demandIndex : text;
  activeProjects : text;
  riskLevel : text
}.

Definition fetchCountryDetails (res : response) : metrics :=
  match res with
  | Failure =>
      {| econHealth := Text (Str "Error"); demandIndex := Text (Str "--");
         activeProjects := Text (Str "--"); riskLevel := Text (Str "--") |}
  | Body data =>
      if truthy (error data)
      then {| econHealth := Text (Str "N/A"); demandIndex := Text (Str "N/A");
              activeProjects := Text (Str "0");
              riskLevel := Text (Str "Unknown") |}
      else {| econHealth := Text (or (economic_health data) (Str "Stable"));
              demandIndex :=
                match local_demand_index data with
                | Num n => Fixed1 n
                | v => Text (or v (Str "--"))
                end;
              activeProjects := Text (or (active_projects data) (Num (num 0)));
              riskLevel := Text (or (risk_level data) (Str "Low")) |}
  end.

End CountryDetails.

(** The markers of the map and the automatic change of country. *)
Module Shuffle.

Record country : Type := {
  name : string;
  coords : Q * Q;
  code : string;
  iso3 : string;
  region : string
}.

Definition countries : list country :=
  [ {| name := "Egypt"; coords := (26.82, 30.80)%Q; code := "818";
       iso3 := "EGY"; region := "MENA" |};
    {| name := "UAE"; coords := (23.42, 53.84)%Q; code := "784";
       iso3 := "ARE"; region := "MENA" |};
    {| name := "Saudi Arabia"; coords := (23.88, 45.07)%Q; code := "682";
       iso3 := "SAU"; region := "MENA" |};
    {| name := "China"; coords := (35.86, 104.19)%Q; code := "156";
       iso3 := "CHN"; region := "APAC" |};
    {| name := "India"; coords := (20.59, 78.96)%Q; code := "356";
       iso3 := "IND"; region := "APAC" |};
    {| name := "Japan"; coords := (36.20, 138.25)%Q; code := "392";
       iso3 := "JPN"; region := "APAC" |};
    {| name := "S.Korea"; coords := (35.90, 127.76)%Q; code := "410";
       iso3 := "KOR"; region := "APAC" |};
    {| name := "Australia"; coords := (-25.27, 133.77)%Q; code := "36";
       iso3 := "AUS"; region := "APAC" |};
    {| name := "Germany"; coords := (51.16, 10.45)%Q; code := "276";
       iso3 := "DEU"; region := "EU" |};
    {| name := "Italy"; coords := (41.87, 12.56)%Q; code := "380";
       iso3 := "ITA"; region := "EU" |};
    {| name := "France"; coords := (46.22, 2.21)%Q; code := "251";
       iso3 := "FRA"; region := "EU" |};
    {| name := "Spain"; coords := (40.46, -3.74)%Q; code := "724";
       iso3 := "ESP"; region := "EU" |};
    {| name := "UK"; coords := (55.37, -3.43)%Q; code := "826";
       iso3 := "GBR"; region := "EU" |};
    {| name := "USA"; coords := (37.09, -95.71)%Q; code := "842";
       iso3 := "USA"; region := "NA" |};
    {| name := "Canada"; coords := (56.13, -106.34)%Q; code := "124";
       iso3 := "CAN"; region := "NA" |};
    {| name := "Brazil"; coords := (-14.23, -51.92)%Q; code := "76";
       iso3 := "BRA"; region := "LATAM" |};
    {| name := "Mexico"; coords := (23.63, -102.55)%Q; code := "484";
       iso3 := "MEX"; region := "LATAM" |};
    {| name := "Argentina"; coords := (-38.41, -63.61)%Q; code := "32";
       iso3 := "ARG"; region := "LATAM" |};
    {| name := "South Africa"; coords := (-30.55, 22.93)%Q; code := "710";
       iso3 := "ZAF"; region := "SSA" |};
    {| name := "Nigeria"; coords := (9.08, 8.67)%Q; code := "566";
       iso3 := "NGA"; region := "SSA" |};
    {| name := "Kenya"; coords := (-0.02, 37.90)%Q; code := "404";
       iso3 := "KEN"; region := "SSA" |} ]%string.

(** The two styles of a marker. *)
Inductive marker : Type :=
  | defaultMarkerStyle
  | activeMarkerStyle.

(** [state], with the style of each marker and, for each border that was
    loaded, whether it is drawn ([opacity: 1]) or hidden ([opacity: 0]).
    The camera of the map is not represented. *)
Record state : Type := {
  selectedCountry : option country;
  shuffleIndex : nat;
  shufflePaused : bool;
  markers : list marker;
  geoJsonLayers : gmap string bool
}.

(** The state once the script is loaded: one marker per country. *)
Definition initial : state :=
  {| selectedCountry := None;
     shuffleIndex := 0;
     shufflePaused := false;
     markers := map (fun _ => defaultMarkerStyle) countries;
     geoJsonLayers := ∅ |}.

(** [selectCountry(country, markerIndex)], on the markers and the
    borders. *)
Definition selectCountry (c : country) (markerIndex : option nat)
    (st : state) : state :=
  let reset := map (fun _ => defaultMarkerStyle) (markers st) in
  {| selectedCountry := Some c;
     shuffleIndex := shuffleIndex st;
     shufflePaused := shufflePaused st;
     markers :=
       match markerIndex with
       | Some i =>
           match reset !! i with
           | Some _ => <[i := activeMarkerStyle]> reset
           | None => reset
           end
       | None => reset
       end;
     geoJsonLayers :=
       match geoJsonLayers st !! iso3 c with
       | Some _ =>
           <[iso3 c := true]> ((fun _ => false) <$> geoJsonLayers st)
       | None => geoJsonLayers st
       end |}.

(** What happens to the page (the indices the handlers are given are
    those of [countries], so that the lookups of [step] find a country):
    a marker is clicked, the timeout of a click
    fires, the interval of the shuffle fires, or [loadGeoJson] settles
    with the identifiers of the features it read (none when the request
    failed) and the shuffle starts. *)
Inductive event : Type :=
  | MarkerClick (index : nat)
  | ResumeTimeout
  | ShuffleTick
  | BordersSettled (features : list string).

(** [L.geoJSON] with its [filter] and [onEachFeature]: a hidden border is
    kept for each feature whose identifier is the [iso3] of a country. *)
Definition loadGeoJson (features : list string) (layers : gmap string bool)
  : gmap string bool :=
  fold_left (fun layers id =>
    if existsb (fun c => String.eqb (iso3 c) id) countries
       && Js.truthy_str id
    then <[id := false]> layers else layers)
    features layers.

Definition step (st : state) (e : event) : state :=
  match e with
  | MarkerClick index =>
      match countries !! index with
      | Some c =>
          selectCountry c (Some index)
            {| selectedCountry := selectedCountry st;
               shuffleIndex := shuffleIndex st;
               shufflePaused := true;
               markers := markers st;
               geoJsonLayers := geoJsonLayers st |}
      | None => st
      end
  | ResumeTimeout =>
      {| selectedCountry := selectedCountry st;
         shuffleIndex := shuffleIndex st;
         shufflePaused := false;
         markers := markers st;
         geoJsonLayers := geoJsonLayers st |}
  | ShuffleTick =>
      if shufflePaused st then st
      else
        let index := ((shuffleIndex st + 1) mod length countries)%nat in
        match countries !! index with
        | Some c =>
            selectCountry c (Some index)
              {| selectedCountry := selectedCountry st;
                 shuffleIndex := index;
                 shufflePaused := shufflePaused st;
                 markers := markers st;
                 geoJsonLayers := geoJsonLayers st |}
        | None => st
        end
  | BordersSettled features =>
      match countries !! 0%nat with
      | Some c =>
          selectCountry c (Some 0%nat)
            {| selectedCountry := selectedCountry st;
               shuffleIndex := shuffleIndex st;
               shufflePaused := shufflePaused st;
               markers := markers st;
               geoJsonLayers := loadGeoJson features (geoJsonLayers st) |}
      | None => st
      end
  end.

Definition run (events : list event) (st : state) : state :=
  fold_left step events st.

End Shuffle.

(* ===================================================================== *)
(** * The seed statements of [init.sql] *)
(* ===================================================================== *)

Module Seed.

(** A table with the sequence of its [SERIAL] column. *)
Record table (R : Type) : Type := {
  next_id : Z;
  rows : list R
}.
Arguments next_id {R} t.
Arguments rows {R} t.

(** How a statement ends: it completes, or a unique constraint other than
    the arbiter of [ON CONFLICT] is violated and the statement is rolled
    back, which leaves the rows as they were and the sequence advanced. *)
Inductive result (R : Type) : Type :=
  | Done (t : table R)
  | Aborted (t : table R).
Arguments Done {R} t.
Arguments Aborted {R} t.

Section Insert.
Context {R V : Type}.

(** The row proposed for a tuple of [VALUES], with the value drawn from
    the sequence and the defaults of the other columns. *)
Variable make : Z -> V -> R.
(** The column of the arbiter index, [name]. *)
Variable key : R -> string.
(** Two rows clash on a unique index that is not the arbiter. *)
Variable violates : R -> R -> bool.

(** [INSERT ... VALUES ... ON CONFLICT (name) DO NOTHING], tuple by tuple:
    the sequence is advanced, a tuple whose name is in the table is
    skipped, another unique violation aborts the statement, and otherwise
    the row is inserted, where the following tuples see it. *)
Fixpoint insert_rows (values : list V) (original : list R) (t : table R)
  : result R :=
  match values with
  | [] => Done t
  | v :: rest =>
      let r := make (next_id t) v in
      if existsb (fun x => String.eqb (key x) (key r)) (rows t)
      then insert_rows rest original
             {| next_id := next_id t + 1; rows := rows t |}
      else if existsb (violates r) (rows t)
      then Aborted {| next_id := next_id t + 1; rows := original |}
      else insert_rows rest original
             {| next_id := next_id t + 1; rows := rows t ++ [r] |}
  end.

Definition insert_on_conflict_do_nothing (values : list V) (t : table R)
  : result R :=
  insert_rows values (rows t) t.

End Insert.

(** [INSERT INTO materials (name, category) VALUES ...]. *)
Definition material_values : list (string * string) :=
  [ ("Copper", "Shielding"); ("Aluminum", "Shielding"); ("PVC", "Polymer");
    ("XLPE", "Polymer"); ("PE", "Polymer"); ("LSF", "Polymer");
    ("GSW", "Shielding"); ("Copper Tape", "Shielding");
    ("Aluminum Tape", "Shielding"); ("Mica Tape", "Screening");
    ("Water-blocking", "Screening") ]%string.

Definition material_row (id : Z) (v : string * string) : Materials.row :=
  {| Materials.id := id; Materials.name := v.1; Materials.category := v.2;
     Materials.lead_time := Some 30 |}.

(** The primary key of [materials]. *)
Definition material_clash (a b : Materials.row) : bool :=
  Z.eqb (Materials.id a) (Materials.id b).

Definition seed_materials (t : table Materials.row) : result Materials.row :=
  insert_on_conflict_do_nothing material_row Materials.name material_clash
    material_values t.

(** [INSERT INTO countries (name, code) VALUES ...]. *)
Definition country_values : list (string * string) :=
  [ ("Egypt", "818"); ("UAE", "784"); ("Saudi Arabia", "682");
    ("China", "156"); ("India", "356"); ("Japan", "392");
    ("S.Korea", "410"); ("Australia", "36");
    ("Germany", "276"); ("Italy", "380"); ("France", "251");
    ("Spain", "724"); ("UK", "826");
    ("USA", "842"); ("Canada", "124");
    ("Brazil", "76"); ("Mexico", "484"); ("Argentina", "32");
    ("South Africa", "710"); ("Nigeria", "566"); ("Kenya", "404") ]%string.

Definition country_row (id : Z) (v : string * string) : Countries.row :=
  {| Countries.id := id; Countries.name := v.1; Countries.code := Some v.2 |}.

(** The primary key of [countries] and the unique index of [code], in
    which a [NULL] clashes with nothing. *)
Definition country_clash (a b : Countries.row) : bool :=
  Z.eqb (Countries.id a) (Countries.id b)
  || match Countries.code a, Countries.code b with
     | Some x, Some y => String.eqb x y
     | _, _ => false
     end.

Definition seed_countries (t : table Countries.row) : result Countries.row :=
  insert_on_conflict_do_nothing country_row Countries.name country_clash
    country_values t.

End Seed.

(* ===================================================================== *)
(** * Vocabulary of the further properties *)
(* ===================================================================== *)

Module RangeProps.
Import Js MarketData FeedProps.

(** Every draw lies in [[0,1)], the range of [Math.random]. *)
Definition unit_interval (rnd : nat -> Q) : Prop :=
  forall i : nat, (0 <= rnd i)%Q /\ (rnd i < 1)%Q.

(** A number that is an integer of an interval. *)
Definition integer_between (lo hi : Z) (n : number) : Prop :=
  exists k : Z, n = num k /\ lo <= k <= hi.

(** The ranges of a mock entry. *)
Definition mock_ranges (e : MaterialData) : Prop :=
  integer_between 1000 5999 (price e)
  /\ integer_between 1000 6999 (forecast e)
  /\ exists t : Q, trend e = Fin t /\ (0 <= t)%Q /\ (t < 5)%Q.

(** The cache gives the scanner no confidence to average: it cannot be
    reached, it holds nothing under the first key of the pipeline, or the
    confidence of every material is missing, is no string, does not parse
    or is zero. *)
Definition no_usable_confidence (srv : Redis.server) : bool :=
  match srv with
  | Redis.Unreachable => true
  | Redis.Connected store =>
      negb (first_reply_present store)
      || forallb (fun mat =>
           negb (truthy_num
                   (cached_number store (live_key "Egypt" mat "confidence"))))
           MATERIALS
  end.


(** A finite number of an interval closed below and open above. *)
Definition in_interval (lo hi : Q) (p : number) : Prop :=
  exists q : Q, p = Fin q /\ (lo <= q)%Q /\ (q < hi)%Q.

(** The reader finds nothing to show in the cache, which cannot be
    reached or holds nothing under the first key of the pipeline. *)
Definition cache_silent (srv : Redis.server) : bool :=
  match srv with
  | Redis.Unreachable => true
  | Redis.Connected store => negb (first_reply_present store)
  end.

End RangeProps.

Module StaticFeedProps.
Import Js JsValue Card StaticFeed.

(** The materials of the last poll that did not fail before the list was
    touched. *)
Fixpoint last_body (responses : list response) : option materials_field :=
  match responses with
  | [] => None
  | res :: rest =>
      match last_body rest with
      | Some b => Some b
      | None => match res with Body b => Some b | Failure => None end
      end
  end.

End StaticFeedProps.

Module MarketFeedProps.
Import Js JsValue MarketFeed.

(** The text of a value that is a string and is not empty. *)
Definition text_of (v : value) : option string :=
  match v with
  | Str s => if truthy_str s then Some s else None
  | _ => None
  end.

(** The names under which a list of items shows materials. *)
Definition shown_names (items : list item) : list string :=
  omap (fun m => text_of (display_name m)) items.

(** An item was pushed for a signal of the response that no item of the
    response names. *)
Definition pushed_for (items : list item) (ai_signals : list ai_signal)
    (a : item) : Prop :=
  exists signal,
    In signal ai_signals /\ a = item_of_signal signal
    /\ exists_in items signal = false.

(** The first signal of the response for the material of a pushed
    item. *)
Definition first_signal_of (ai_signals : list ai_signal) (a : item) : Prop :=
  forall s, text_of (name a) = Some s ->
    exists before signal after,
      ai_signals = before ++ signal :: after
      /\ a = item_of_signal signal
      /\ Forall (fun x => signal_material x <> Str s) before.

(** A number that is finite and not negative, or the positive infinity. *)
Definition magnitude (n : number) : Prop :=
  n = PosInf \/ exists q, n = Fin q /\ (0 <= q)%Q.

End MarketFeedProps.

Module CountryDetailsProps.
Import Js JsValue MarketFeed CountryDetails.

(** A text that prints something: a formatted number, a truthy value, or
    the number 0. *)
Definition filled (t : text) : Prop :=
  match t with
  | Fixed1 _ => True
  | Text v => truthy v = true \/ v = Num (num 0)
  end.

End CountryDetailsProps.

Module ShuffleProps.
Import Shuffle.

(** The markers when the one of index [i] alone is highlighted. *)
Definition highlight (i : nat) : list marker :=
  <[i := activeMarkerStyle]>
    (replicate (length countries) defaultMarkerStyle).

(** The border kept under an identifier is drawn. *)
Definition drawn (st : state) (id : string) : Prop :=
  geoJsonLayers st !! id = Some true.

(** The markers, the borders and the index of the shuffle agree with the
    selected country. *)
Definition consistent (st : state) : Prop :=
  length (markers st) = length countries
  /\ (shuffleIndex st < length countries)%nat
  /\ match selectedCountry st with
     | None => markers st = replicate (length countries) defaultMarkerStyle
     | Some c =>
         exists i, countries !! i = Some c /\ markers st = highlight i
                   /\ (is_Some (geoJsonLayers st !! iso3 c) ->
                       drawn st (iso3 c))
     end
  /\ (forall a b, drawn st a -> drawn st b -> a = b)
  /\ (forall id, is_Some (geoJsonLayers st !! id) ->
      exists c, In c countries /\ iso3 c = id).

(** [n] firings of the interval of the shuffle. *)
Definition ticks (n : nat) : list event := replicate n ShuffleTick.

End ShuffleProps.

Module SeedProps.
Import Seed.

(** A name is that of a row of the table. *)
Definition has_name {R : Type} (key : R -> string) (l : list R) (n : string)
  : bool :=
  existsb (fun x => String.eqb (key x) n) l.

(** A country of the seed is missing from the table while its code is
    taken by a row of another name. *)
Definition code_taken (l : list Countries.row) : bool :=
  existsb (fun v : string * string =>
    negb (has_name Countries.name l v.1)
    && existsb (fun x =>
         match Countries.code x with
         | Some c => String.eqb c v.2
         | None => false
         end) l)
    country_values.

(** A table of countries in which the code of the Emirates is taken by a
    row of another name. *)
Definition countries_with_clash : table Countries.row :=
  {| next_id := 2;
     rows := [ {| Countries.id := 1;
                  Countries.name := "United Arab Emirates";
                  Countries.code := Some "784"%string |} ] |}.

End SeedProps.

Module JoinProps.
Import History HistoryProps.

(** Some row of the join has a [NULL] in [created_at]. *)
Definition null_timestamp_in_join (db : database) : bool :=
  existsb (fun r => bool_decide (r_timestamp r = None)) (joined db).

(** The foreign keys of a signal name a material and a country of the
    tables. *)
Definition resolves (db : database) (s : Signals.row) : bool :=
  existsb (fun m =>
    bool_decide (Signals.material_id s = Some (Materials.id m)))
    (materials db)
  && existsb (fun c =>
    bool_decide (Signals.country_id s = Some (Countries.id c)))
    (countries db).

(** The primary keys of [materials] and of [countries]: no two rows of a
    table share an [id]. *)
Definition keys_unique (db : database) : bool :=
  bool_decide (NoDup (map Materials.id (materials db)))
  && bool_decide (NoDup (map Countries.id (countries db))).

(** A row of the join carries the columns of a signal. *)
Definition row_of_signal (s : Signals.row) (r : result_row) : Prop :=
  r_timestamp r = Signals.created_at s
  /\ r_price r = Signals.input_price s
  /\ r_prediction r = Signals.predicted_demand s
  /\ r_signal r = Signals.decision s.

End JoinProps.

(* ===================================================================== *)
(** * The models on sample inputs *)
(* ===================================================================== *)

Example parseFloat_plain : Js.parseFloat "9000.50" = Js.Fin (18001 # 2).
Proof. reflexivity. Qed.
Example parseFloat_exp : Js.parseFloat "  -1.5e2xyz" = Js.Fin (-150 # 1).
Proof. reflexivity. Qed.
Example parseFloat_dot : Js.parseFloat "." = Js.NaN.
Proof. reflexivity. Qed.
Example parseFloat_null : Js.parseFloat "null" = Js.NaN.
Proof. reflexivity. Qed.
Example parseFloat_frac : Js.parseFloat ".5" = Js.Fin (1 # 2).
Proof. reflexivity. Qed.
Example parseFloat_inf : Js.parseFloat "-Infinity" = Js.NegInf.
Proof. reflexivity. Qed.
Example toISOString_2024 :
  JsDate.toISOString 1706691234000 = Some "2024-01-31T08:53:54.000Z"%string.
Proof. reflexivity. Qed.
Example toISOString_epoch :
  JsDate.toISOString 0 = Some "1970-01-01T00:00:00.000Z"%string.
Proof. reflexivity. Qed.
Example toISOString_before_epoch :
  JsDate.toISOString (-1) = Some "1969-12-31T23:59:59.999Z"%string.
Proof. reflexivity. Qed.
Example toISOString_leap_day :
  JsDate.toISOString 951782400000 = Some "2000-02-29T00:00:00.000Z"%string.
Proof. reflexivity. Qed.
Example toISOString_max :
  JsDate.toISOString 8640000000000000 = Some "+275760-09-13T00:00:00.000Z"%string.
Proof. reflexivity. Qed.
Example toISOString_min :
  JsDate.toISOString (-8640000000000000) = Some "-271821-04-20T00:00:00.000Z"%string.
Proof. reflexivity. Qed.
Example toISOString_invalid : JsDate.toISOString 8640000000000001 = None.
Proof. reflexivity. Qed.
Example card_of_mock_copper :
  Card.badge_class (Card.createMaterialCard (fun _ => Js.NaN)
    {| Card.name := JsValue.Str "Copper (LME)";
       Card.material := JsValue.Undefined;
       Card.decision := JsValue.Str "BUY";
       Card.price := JsValue.Num (Js.Fin (17081 # 2));
       Card.input_price := JsValue.Undefined;
       Card.trend := JsValue.Num (Js.Fin (6 # 5)) |})
  = "buy"%string.
Proof. reflexivity. Qed.

(* ===================================================================== *)
(** * The aggregate confidence of the scanner *)
(* ===================================================================== *)

Section ScannerFacts.
Import Js MarketData Props.

Lemma Qsign_Gt (q : Q) : (0 < q)%Q -> Qsign q = Gt.
Proof.
  destruct q as [n d]. unfold Qlt, Qsign. simpl. intros H.
  apply Z.compare_gt_iff. lia.
Qed.

Lemma Qsign_Eq (q : Q) : Qsign q = Eq <-> (q == 0)%Q.
Proof.
  destruct q as [n d]. unfold Qeq, Qsign. simpl.
  rewrite Z.compare_eq_iff. lia.
Qed.

Lemma in_range_spec (c : number) :
  in_range c = true <-> exists q, c = Fin q /\ (0 <= q <= 100)%Q.
Proof.
  destruct c as [q| | |]; simpl.
  - rewrite andb_true_iff, !Qle_bool_iff. split.
    + intros H. exists q. auto.
    + intros (q' & [= <-] & H). exact H.
  - split; [discriminate | intros (q & [=] & _)].
  - split; [discriminate | intros (q & [=] & _)].
  - split; [discriminate | intros (q & [=] & _)].
Qed.

(** An entry in range contributes a finite value in [(0,100]]. *)
Lemma confidence_or_default_contribution (m : MaterialData) :
  match confidence m with Some c => in_range c | None => true end = true ->
  confidence_or_default m = Fin (contribution m)
  /\ (0 <= contribution m <= 100)%Q.
Proof.
  unfold confidence_or_default, contribution.
  destruct (confidence m) as [c|]; [| intros _; split; [reflexivity | split; discriminate]].
  intros H. apply in_range_spec in H. destruct H as (q & -> & Hq).
  simpl. destruct (Qeq_bool q 0) eqn:Hz.
  - apply Qeq_bool_iff, Qsign_Eq in Hz. rewrite Hz.
    split; [reflexivity | split; discriminate].
  - destruct (Qsign q) eqn:Hs.
    + apply Qsign_Eq, Qeq_bool_iff in Hs. congruence.
    + split; [reflexivity | exact Hq].
    + split; [reflexivity | exact Hq].
Qed.

Lemma total_fold (ms : list MaterialData) : forall a : Q,
  confidences_in_range ms = true ->
  exists b : Q,
    fold_left (fun acc curr => add acc (confidence_or_default curr)) ms (Fin a)
    = Fin b
    /\ (b == a + total_contribution ms)%Q.
Proof.
  induction ms as [|m ms IH]; intros a H; simpl.
  - exists a. split; [reflexivity | ring].
  - simpl in H. apply andb_true_iff in H. destruct H as [Hm Hms].
    destruct (confidence_or_default_contribution m Hm) as [-> _]. simpl.
    destruct (IH (Qred (a + contribution m)) Hms) as (b & Hb & Hsum).
    exists b. split; [exact Hb |].
    rewrite Hsum, Qred_correct. ring.
Qed.

Lemma total_contribution_bounds (ms : list MaterialData) :
  confidences_in_range ms = true ->
  (0 <= total_contribution ms
   /\ total_contribution ms <= 100 * inject_Z (Z.of_nat (length ms)))%Q.
Proof.
  induction ms as [|m ms IH]; intros H.
  - simpl. split; discriminate.
  - simpl in H. apply andb_true_iff in H. destruct H as [Hm Hms].
    destruct (confidence_or_default_contribution m Hm) as [_ [Hlo Hhi]].
    destruct (IH Hms) as [IHlo IHhi].
    cbn [total_contribution fold_right length].
    fold (total_contribution ms).
    rewrite Nat2Z.inj_succ, <- Z.add_1_r, inject_Z_plus.
    split.
    + replace 0%Q with (0 + 0)%Q by reflexivity. apply Qplus_le_compat; assumption.
    + setoid_replace (100 * (inject_Z (Z.of_nat (length ms)) + inject_Z 1))%Q
        with (100 + 100 * inject_Z (Z.of_nat (length ms)))%Q
        using relation Qeq by ring.
      apply Qplus_le_compat; assumption.
Qed.

Lemma divisor_pos (ms : list MaterialData) : (1 <= divisor ms)%Z.
Proof. unfold divisor. destruct (length ms); lia. Qed.

Lemma mean_bounds (ms : list MaterialData) :
  confidences_in_range ms = true ->
  (0 <= total_contribution ms / inject_Z (divisor ms) <= 100)%Q.
Proof.
  intros H. destruct (total_contribution_bounds ms H) as [Hlo Hhi].
  pose proof (divisor_pos ms) as Hd.
  assert (Hdq : (0 < inject_Z (divisor ms))%Q).
  { rewrite <- (Zlt_Qlt 0). lia. }
  split.
  - apply Qle_shift_div_l; [exact Hdq |]. rewrite Qmult_0_l. exact Hlo.
  - apply Qle_shift_div_r; [exact Hdq |].
    eapply Qle_trans; [exact Hhi |].
    apply Qmult_le_l; [reflexivity |].
    rewrite <- Zle_Qle. unfold divisor. destruct (length ms); lia.
Qed.

(** The aggregate of [scannerStatus_of] is the floor of the mean
    contribution. *)
Lemma scannerStatus_of_confidence (ms : list MaterialData) (rnd : nat -> Q) (pos : nat) :
  confidences_in_range ms = true ->
  Scanner.confidence (fst (scannerStatus_of ms rnd pos))
  = num (Qfloor (total_contribution ms / inject_Z (divisor ms))).
Proof.
  intros H. unfold scannerStatus_of, bind, random, ret. cbn [fst Scanner.confidence].
  destruct (total_fold ms 0 H) as (b & Hb & Hsum).
  change (num 0) with (Fin 0). rewrite Hb.
  change (Z.of_nat match length ms with O => 1 | _ => length ms end)
    with (divisor ms).
  unfold num at 1, div.
  pose proof (divisor_pos ms) as Hd.
  rewrite (Qsign_Gt (inject_Z (divisor ms))) by (rewrite <- (Zlt_Qlt 0); lia).
  unfold floor, num. do 2 f_equal.
  rewrite Qred_correct, Hsum, Qplus_0_l. reflexivity.
Qed.

End ScannerFacts.

Section ScannerClaim.
Import Js MarketData Props.

(** C10. For every feed [getLiveMarketData] produces in which each
    confidence that is present lies in [[0,100]], the confidence
    [getScannerStatus] returns is an integer [k] with [0 <= k <= 100]: the
    floor of the mean of the entries' contributions, where an entry whose
    confidence is absent or zero contributes the default 85. *)
Theorem scanner_confidence_in_range
    (srv : Redis.server) (rnd : nat -> Q) (pos : nat) :
  let materials := fst (getLiveMarketData srv rnd pos) in
  confidences_in_range materials = true ->
  exists k : Z,
    Scanner.confidence (fst (getScannerStatus srv rnd pos)) = num k
    /\ (0 <= k <= 100)%Z
    /\ k = Qfloor (total_contribution materials / inject_Z (divisor materials))
    /\ (forall m, In m materials ->
          confidence m = None
          \/ (exists q, confidence m = Some (Fin q) /\ (q == 0)%Q) ->
          confidence_or_default m = num 85 /\ (contribution m == 85)%Q).
Proof.
  intros materials H.
  exists (Qfloor (total_contribution materials / inject_Z (divisor materials))).
  split; [| split; [| split]].
  - unfold getScannerStatus, bind. subst materials.
    destruct (getLiveMarketData srv rnd pos) as [ms pos'] eqn:Hfeed.
    cbn [fst] in *. apply scannerStatus_of_confidence. exact H.
  - destruct (mean_bounds materials H) as [Hlo Hhi].
    split.
    + change 0%Z with (Qfloor 0). apply Qfloor_resp_le. exact Hlo.
    + change 100%Z with (Qfloor 100). apply Qfloor_resp_le. exact Hhi.
  - reflexivity.
  - intros m _ [Hnone | (q & Hq & Hz)].
    + unfold confidence_or_default, contribution. rewrite Hnone.
      split; reflexivity.
    + unfold confidence_or_default, contribution. rewrite Hq. simpl.
      pose proof Hz as Hz'. apply Qsign_Eq in Hz'. rewrite Hz'.
      apply Qeq_bool_iff in Hz. rewrite Hz. split; reflexivity.
Qed.

Lemma scanner_confidence_in_range_witness :
  exists k : Z,
    Scanner.confidence
      (fst (getScannerStatus (Redis.Connected Samples.store_copper)
                             Samples.rnd_low 0%nat)) = num k
    /\ (0 <= k <= 100)%Z
    /\ k = Qfloor
             (total_contribution
                (fst (getLiveMarketData (Redis.Connected Samples.store_copper)
                                        Samples.rnd_low 0%nat))
              / inject_Z
                  (divisor
                     (fst (getLiveMarketData (Redis.Connected Samples.store_copper)
                                             Samples.rnd_low 0%nat))))
    /\ (forall m,
          In m (fst (getLiveMarketData (Redis.Connected Samples.store_copper)
                                       Samples.rnd_low 0%nat)) ->
          confidence m = None
          \/ (exists q, confidence m = Some (Fin q) /\ (q == 0)%Q) ->
          confidence_or_default m = num 85 /\ (contribution m == 85)%Q).
Proof.
  apply (scanner_confidence_in_range
           (Redis.Connected Samples.store_copper) Samples.rnd_low 0%nat).
  vm_compute. reflexivity.
Defined.

Example scanner_confidence_sample :
  Scanner.confidence
    (fst (getScannerStatus (Redis.Connected Samples.store_copper)
                           Samples.rnd_low 0%nat)) = num 84.
Proof. vm_compute. reflexivity. Qed.

End ScannerClaim.

(* ===================================================================== *)
(** * The live feed *)
(* ===================================================================== *)

Section FeedFacts.
Import Js MarketData FeedProps.

Lemma pipeline_keys_by_pair :
  pipeline_keys
  = flat_map (fun mat => map (live_key "Egypt" mat) metrics) MATERIALS.
Proof. reflexivity. Qed.

Lemma parseResFloat_get (store : gmap string Redis.value)
    (keys : list string) (idx : nat) (k : string) :
  keys !! idx = Some k ->
  parseResFloat (map (Redis.get store) keys) idx = Some (cached_number store k).
Proof.
  intros H. unfold parseResFloat.
  change (map (Redis.get store) keys) with (Redis.get store <$> keys).
  rewrite list_lookup_fmap, H. simpl. f_equal.
  unfold Redis.get, cached_number.
  destruct (store !! k) as [[v|]|]; reflexivity.
Qed.

Lemma parseResStr_get (store : gmap string Redis.value)
    (keys : list string) (idx : nat) (k : string) :
  keys !! idx = Some k ->
  parseResStr (map (Redis.get store) keys) idx = Some (cached_text store k).
Proof.
  intros H. unfold parseResStr.
  change (map (Redis.get store) keys) with (Redis.get store <$> keys).
  rewrite list_lookup_fmap, H. simpl. f_equal.
  unfold Redis.get, cached_text.
  destruct (store !! k) as [[v|]|]; reflexivity.
Qed.

Lemma liveEntry_get (store : gmap string Redis.value) (i : nat) (mat : string) :
  MATERIALS !! i = Some mat ->
  liveEntry (map (Redis.get store) pipeline_keys) i = Some (entry_of store mat).
Proof.
  intros H. unfold liveEntry. rewrite H. cbn [mbind option_bind].
  assert (Hi : (i < 8)%nat) by (apply lookup_lt_Some in H; exact H).
  do 8 (destruct i as [|i]; [injection H as <-;
    erewrite (parseResFloat_get store pipeline_keys) by reflexivity; cbn [mbind option_bind];
    erewrite (parseResStr_get store pipeline_keys) by reflexivity; cbn [mbind option_bind];
    erewrite (parseResFloat_get store pipeline_keys) by reflexivity; cbn [mbind option_bind];
    erewrite (parseResFloat_get store pipeline_keys) by reflexivity; cbn [mbind option_bind];
    reflexivity |]).
  lia.
Qed.

Lemma hasData_connected (store : gmap string Redis.value) :
  hasData (Some (map (Redis.get store) pipeline_keys))
  = first_reply_present store.
Proof.
  unfold hasData, first_reply_present.
  rewrite length_map.
  change (map (Redis.get store) pipeline_keys !! 0%nat)
    with (Some (Redis.get store (live_key "Egypt" "Copper" "price"))).
  unfold Redis.get.
  destruct (store !! live_key "Egypt" "Copper" "price") as [[v|]|]; reflexivity.
Qed.

(** The feed of a connected cache. *)
Lemma live_feed_connected (store : gmap string Redis.value)
    (rnd : nat -> Q) (pos : nat) :
  getLiveMarketData (Redis.Connected store) rnd pos
  = if first_reply_present store
    then (map (entry_of store) MATERIALS, pos)
    else getMockData rnd pos.
Proof.
  unfold getLiveMarketData, getLiveMarketData_from. cbn [Redis.exec].
  rewrite hasData_connected.
  destruct (first_reply_present store); [| reflexivity].
  cbn [negb]. cbv [default from_option id].
  assert (Hm : mapM (liveEntry (map (Redis.get store) pipeline_keys))
                 (seq 0 (length MATERIALS))
               = Some (map (entry_of store) MATERIALS)).
  { apply mapM_Some. cbn [length MATERIALS seq map].
    repeat (constructor; [apply liveEntry_get; reflexivity |]).
    constructor. }
  rewrite Hm. reflexivity.
Qed.

(** The feed of a cache that is out of reach: no random number is
    drawn. *)
Lemma live_feed_unreachable (rnd : nat -> Q) (pos : nat) :
  getLiveMarketData Redis.Unreachable rnd pos
  = (map failed_entry MATERIALS, pos).
Proof. reflexivity. Qed.

(** A property of each element carries over to the list [mapR] builds. *)
Lemma mapR_Forall2 {A B : Type} (f : A -> Rand B) (R : A -> B -> Prop) :
  (forall x rnd pos, R x (fst (f x rnd pos))) ->
  forall xs rnd pos, Forall2 R xs (fst (mapR f xs rnd pos)).
Proof.
  intros Hf xs rnd. induction xs as [|x xs IH]; intros pos.
  - constructor.
  - cbn [mapR]. unfold bind, ret.
    pose proof (Hf x rnd pos) as Hx.
    destruct (f x rnd pos) as [y pos1].
    pose proof (IH pos1) as Hxs.
    destruct (mapR f xs rnd pos1) as [ys pos2].
    constructor; assumption.
Qed.

Lemma getMockData_entries (rnd : nat -> Q) (pos : nat) :
  Forall2 (fun mat e => name e = mat /\ mock_shaped e)
          MATERIALS (fst (getMockData rnd pos)).
Proof.
  unfold getMockData. apply mapR_Forall2.
  intros mat r p. unfold bind, random, ret. cbn [fst name].
  split; [reflexivity |]. split; [| reflexivity].
  cbn [signal]. destruct (gt _ _); [left | right]; reflexivity.
Qed.

Lemma getMockData_shape (rnd : nat -> Q) (pos : nat) :
  map name (fst (getMockData rnd pos)) = MATERIALS
  /\ Forall mock_shaped (fst (getMockData rnd pos)).
Proof.
  pose proof (getMockData_entries rnd pos) as H.
  induction H as [|mat e mats es [Hn Hs] _ [IHn IHf]].
  - split; [reflexivity | constructor].
  - split; [cbn [map]; f_equal; assumption | constructor; assumption].
Qed.

Lemma entries_show_cached (store : gmap string Redis.value) (mats : list string) :
  Forall (shows_cached store) (map (entry_of store) mats).
Proof.
  induction mats as [|mat mats IH]; constructor; [| exact IH].
  repeat split.
Qed.

Lemma entries_names (store : gmap string Redis.value) (mats : list string) :
  map name (map (entry_of store) mats) = mats.
Proof.
  induction mats as [|mat mats IH]; [reflexivity |].
  cbn [map]. f_equal. exact IH.
Qed.

(** Where the decision of an entry comes from. *)
Lemma feed_signal_origin
    (srv : Redis.server) (rnd : nat -> Q) (pos : nat) :
  Forall (signal_origin srv) (fst (getLiveMarketData srv rnd pos)).
Proof.
  destruct srv as [|store].
  - rewrite live_feed_unreachable. cbn [fst].
    apply List.Forall_forall. intros e He.
    apply in_map_iff in He. destruct He as (mat & <- & _). reflexivity.
  - rewrite live_feed_connected.
    destruct (first_reply_present store) eqn:Hfirst; cbn [fst].
    + eapply Forall_impl; [apply entries_show_cached |].
      intros e (_ & Hs & _). unfold signal_origin. rewrite Hfirst. exact Hs.
    + destruct (getMockData_shape rnd pos) as [_ Hs].
      eapply Forall_impl; [exact Hs |].
      intros e [Hd _]. unfold signal_origin. rewrite Hfirst. exact Hd.
Qed.

End FeedFacts.

Section FeedClaims.
Import Js MarketData FeedProps.



(** C8, as stated, fails. The worker stores another risk and another
    update time for Copper in Egypt: the entries read back are the same,
    so they comprise neither the risk nor the update time, and nothing
    computed from the feed gives the cached risk. *)
Lemma feed_ignores_risk_and_update_time :
  Samples.store_copper !! live_key "Egypt" "Copper" "risk"
    = Some (Redis.Str "0.15")
  /\ Samples.store_copper_later !! live_key "Egypt" "Copper" "risk"
     = Some (Redis.Str "0.95")
  /\ Samples.store_copper !! live_key "Egypt" "Copper" "updated_at"
     = Some (Redis.Str "1706691234")
  /\ Samples.store_copper_later !! live_key "Egypt" "Copper" "updated_at"
     = Some (Redis.Str "1706694834")
  /\ getLiveMarketData (Redis.Connected Samples.store_copper_later)
                       Samples.rnd_low 0%nat
     = getLiveMarketData (Redis.Connected Samples.store_copper)
                         Samples.rnd_low 0%nat
  /\ ~ (exists risk_of : list MaterialData -> option Redis.value,
          forall store rnd pos,
            risk_of (fst (getLiveMarketData (Redis.Connected store) rnd pos))
            = store !! live_key "Egypt" "Copper" "risk").
Proof.
  assert (Hsame :
    getLiveMarketData (Redis.Connected Samples.store_copper_later)
                      Samples.rnd_low 0%nat
    = getLiveMarketData (Redis.Connected Samples.store_copper)
                        Samples.rnd_low 0%nat)
    by (vm_compute; reflexivity).
  split; [vm_compute; reflexivity |].
  split; [vm_compute; reflexivity |].
  split; [vm_compute; reflexivity |].
  split; [vm_compute; reflexivity |].
  split; [exact Hsame |].
  intros [risk_of Hrisk].
  pose proof (Hrisk Samples.store_copper Samples.rnd_low 0%nat) as H1.
  pose proof (Hrisk Samples.store_copper_later Samples.rnd_low 0%nat) as H2.
  rewrite Hsame, H1 in H2. vm_compute in H2. discriminate H2.
Qed.

(** C8, amended. The keys the reader asks for are the five metrics of
    each material of the fixed list under the one country Egypt, each key
    made of the country, the material and the metric. With a value
    cached under the price of Copper, every entry shows the price,
    decision, forecast and confidence cached under the keys of its own
    material. The feed is a function of the values under these keys
    alone: what the cache holds elsewhere, a risk or an update time
    included, is not read. *)
Theorem live_feed_keyed_by_country_and_material
    (store : gmap string Redis.value) (rnd : nat -> Q) (pos : nat) :
  pipeline_keys
    = flat_map (fun mat => map (live_key "Egypt" mat) metrics) MATERIALS
  /\ (first_reply_present store = true ->
      Forall (shows_cached store)
             (fst (getLiveMarketData (Redis.Connected store) rnd pos)))
  /\ (forall store' : gmap string Redis.value,
        (forall k, In k pipeline_keys -> store' !! k = store !! k) ->
        getLiveMarketData (Redis.Connected store') rnd pos
        = getLiveMarketData (Redis.Connected store) rnd pos).
Proof.
  split; [reflexivity |]. split.
  - intros Hfirst. rewrite live_feed_connected, Hfirst.
    apply entries_show_cached.
  - intros store' Hagree.
    unfold getLiveMarketData. cbn [Redis.exec].
    replace (map (Redis.get store') pipeline_keys)
      with (map (Redis.get store) pipeline_keys); [reflexivity |].
    apply map_ext_in. intros k Hk. unfold Redis.get.
    rewrite (Hagree k Hk). reflexivity.
Qed.

End FeedClaims.

(* ===================================================================== *)
(** * Decision values on the dashboard and in the audit table *)
(* ===================================================================== *)

Section DecisionClaims.
Import Js JsValue Exn MarketData FeedProps DecisionProps.

(** C5, as stated, fails. With a price cached for Copper and no decision
    cached for Aluminum the feed shows the decision [N/A] for Aluminum,
    which is none of BUY, WAIT and HOLD, and so does every entry when the
    cache is out of reach; and a card built from an item whose decision
    is SELL shows SELL on its badge. *)
Lemma feed_and_card_show_other_decisions :
  (signal <$> fst (getLiveMarketData (Redis.Connected Samples.store_copper)
                                     Samples.rnd_low 0%nat) !! 1%nat)
    = Some "N/A"%string
  /\ (signal <$> fst (getLiveMarketData Redis.Unreachable
                                        Samples.rnd_low 0%nat) !! 0%nat)
     = Some "N/A"%string
  /\ is_decision "N/A" = false
  /\ Card.badge_text (Card.createMaterialCard (fun _ => NaN)
       {| Card.name := Str "Copper"; Card.material := Undefined;
          Card.decision := Str "SELL"; Card.price := Num (num 9000);
          Card.input_price := Undefined; Card.trend := Num (num 1) |})
     = Str "SELL"
  /\ is_decision "SELL" = false
  /\ ~ (forall srv rnd pos,
          Forall (fun e => is_decision (signal e) = true)
                 (fst (getLiveMarketData srv rnd pos))).
Proof.
  split; [vm_compute; reflexivity |].
  split; [vm_compute; reflexivity |].
  split; [reflexivity |].
  split; [reflexivity |].
  split; [reflexivity |].
  intros H.
  specialize (H (Redis.Connected Samples.store_copper) Samples.rnd_low 0%nat).
  rewrite live_feed_connected in H.
  change (first_reply_present Samples.store_copper) with true in H.
  cbn [fst MATERIALS map] in H.
  apply Forall_cons_1 in H. destruct H as [_ H].
  apply Forall_cons_1 in H. destruct H as [H _].
  vm_compute in H. discriminate H.
Qed.

(** C5, amended. Each of the two cards of the dashboard styles every
    decision with exactly one of the classes buy, wait and hold: BUY gives
    buy, HOLD gives hold, and any other value, a missing one, [null] or an
    unknown one included, gives wait. The card of the first script
    compares the decision as it was received and shows it on its badge, or
    WAIT when it is falsy. The card of [app.js] puts the decision in upper
    case before it compares and shows it, or shows WAIT when it is falsy;
    it cannot be built when the decision is truthy and is no string. The
    decision of a feed entry is [N/A] when the cache is out of reach, the
    cached text when it holds the first key ([N/A] where the key of the
    decision is missing or holds no string), and BUY or WAIT in the mock
    data otherwise. The audit table keeps the decision as a [VARCHAR(20)
    NOT NULL] with no constraint on its value, and neither the audit table
    nor an entry of the feed carries a recommended quantity. *)
Theorem decision_values_on_dashboard :
  (forall (StringToNumber : string -> number) (mat : Card.material_item),
     let c := Card.createMaterialCard StringToNumber mat in
     Card.badge_class c
       = (if strict_eq (Card.decision mat) (Str "HOLD") then "hold"
          else if strict_eq (Card.decision mat) (Str "BUY") then "buy"
          else "wait")%string
     /\ Card.className c = ("material-card " +:+ Card.badge_class c)%string
     /\ Card.badge_text c
        = (if truthy (Card.decision mat) then Card.decision mat
           else Str "WAIT"))
  /\ (forall (toUpperCase : string -> string) (mat : MarketFeed.item),
       match MarketFeed.createMaterialCard toUpperCase mat with
       | Normal c =>
           let d := toUpperCase (decision_text (MarketFeed.decision mat)) in
           (truthy (MarketFeed.decision mat) = false
            \/ exists s, MarketFeed.decision mat = Str s)
           /\ MarketFeed.badge_class c = class_of d
           /\ MarketFeed.className c
              = ("material-card " +:+ MarketFeed.badge_class c)%string
           /\ MarketFeed.badge_text c
              = (if truthy_str d then d else "WAIT"%string)
       | Throw _ =>
           truthy (MarketFeed.decision mat) = true
           /\ forall s, MarketFeed.decision mat <> Str s
       end)
  /\ (forall srv rnd pos,
        Forall (signal_origin srv) (fst (getLiveMarketData srv rnd pos)))
  /\ In (Schema.nn (Schema.col "decision" (Schema.VARCHAR 20))) Schema.ai_signals
  /\ no_quantity_column Schema.ai_signals = true.
Proof.
  split; [| split; [| split; [| split]]].
  - intros StringToNumber mat c. subst c. unfold Card.createMaterialCard.
    cbn [Card.badge_class Card.className Card.badge_text].
    split; [| split].
    + destruct (strict_eq (Card.decision mat) (Str "HOLD")) eqn:Hh;
        [reflexivity |].
      destruct (strict_eq (Card.decision mat) (Str "BUY")); reflexivity.
    + reflexivity.
    + reflexivity.
  - intros toUpperCase mat. unfold MarketFeed.createMaterialCard,
      MarketFeed.upper_decision, or.
    destruct (MarketFeed.decision mat) as [| |b|n|s];
      cbn [truthy decision_text Exn.bind].
    + cbn [MarketFeed.badge_class MarketFeed.className MarketFeed.badge_text].
      split; [left; reflexivity |]. unfold class_of.
      repeat split; repeat case_bool_decide; reflexivity.
    + cbn [MarketFeed.badge_class MarketFeed.className MarketFeed.badge_text].
      split; [left; reflexivity |]. unfold class_of.
      repeat split; repeat case_bool_decide; reflexivity.
    + destruct b.
      * split; [reflexivity | discriminate].
      * cbn [Exn.bind MarketFeed.badge_class MarketFeed.className
             MarketFeed.badge_text].
        split; [left; reflexivity |]. unfold class_of.
        repeat split; repeat case_bool_decide; reflexivity.
    + destruct (truthy_num n).
      * split; [reflexivity | discriminate].
      * cbn [Exn.bind MarketFeed.badge_class MarketFeed.className
             MarketFeed.badge_text].
        split; [left; reflexivity |]. unfold class_of.
        repeat split; repeat case_bool_decide; reflexivity.
    + destruct (truthy_str s) eqn:Hs.
      * cbn [Exn.bind MarketFeed.badge_class MarketFeed.className
             MarketFeed.badge_text].
        split; [right; exists s; reflexivity |]. unfold class_of.
        repeat split; repeat case_bool_decide; reflexivity.
      * destruct s; [| discriminate].
        cbn [Exn.bind MarketFeed.badge_class MarketFeed.className
             MarketFeed.badge_text].
        split; [left; reflexivity |]. unfold class_of.
        repeat split; repeat case_bool_decide; reflexivity.
  - intros srv rnd pos. exact (feed_signal_origin srv rnd pos).
  - vm_compute. tauto.
  - reflexivity.
Qed.

End DecisionClaims.

(* ===================================================================== *)
(** * The decision history *)
(* ===================================================================== *)

Section HistoryFacts.
Import Js Exn History HistoryProps.

Lemma desc_le_total (a b : option Z) : desc_le a b = true \/ desc_le b a = true.
Proof.
  destruct a as [x|], b as [y|]; simpl; auto.
  destruct (Z.leb_spec y x); [left; reflexivity | right; apply Z.leb_le; lia].
Qed.

Lemma desc_le_trans (a b c : option Z) :
  desc_le a b = true -> desc_le b c = true -> desc_le a c = true.
Proof.
  destruct a as [x|], b as [y|], c as [z|]; simpl; try congruence.
  rewrite !Z.leb_le. lia.
Qed.

Lemma insert_desc_perm (r : result_row) (l : list result_row) :
  Permutation (insert_desc r l) (r :: l).
Proof.
  induction l as [|h t IH]; simpl; [reflexivity |].
  destruct (desc_le (r_timestamp h) (r_timestamp r)).
  - rewrite IH. apply perm_swap.
  - reflexivity.
Qed.

Lemma insert_desc_sorted (r : result_row) (l : list result_row) :
  most_recent_first l -> most_recent_first (insert_desc r l).
Proof.
  unfold most_recent_first. induction 1 as [|h t Hs IH Hh]; simpl.
  - repeat constructor.
  - destruct (desc_le (r_timestamp h) (r_timestamp r)) eqn:Hle.
    + constructor; [exact IH |].
      rewrite (insert_desc_perm r t). constructor; assumption.
    + assert (Hrh : before r h).
      { destruct (desc_le_total (r_timestamp h) (r_timestamp r)); congruence. }
      constructor; [constructor; assumption |].
      constructor; [exact Hrh |].
      eapply Forall_impl; [exact Hh |].
      intros x Hx. unfold before in *. eapply desc_le_trans; eassumption.
Qed.

Lemma order_perm (l : list result_row) :
  Permutation (order_by_created_at_desc l) l.
Proof.
  induction l as [|r l IH]; simpl; [reflexivity |].
  rewrite insert_desc_perm, IH. reflexivity.
Qed.

Lemma order_sorted (l : list result_row) :
  most_recent_first (order_by_created_at_desc l).
Proof.
  induction l as [|r l IH]; simpl; [constructor |].
  apply insert_desc_sorted, IH.
Qed.




Lemma convert_serialisable (row : result_row) :
  serialisable row = true ->
  exists rec, convert row = Normal rec /\ represents row rec.
Proof.
  unfold serialisable, convert, represents.
  destruct (r_timestamp row) as [d|]; [| discriminate].
  intros H. apply bool_decide_eq_true in H. destruct H as [iso Hiso].
  rewrite Hiso. eexists. split; [reflexivity |].
  cbn. repeat split. exists d. split; [reflexivity | exact Hiso].
Qed.

Lemma convert_not_serialisable (row : result_row) :
  serialisable row = false -> exists e, convert row = Throw e.
Proof.
  unfold serialisable, convert.
  destruct (r_timestamp row) as [d|]; [| intros _; eexists; reflexivity].
  intros H. apply bool_decide_eq_false in H.
  destruct (JsDate.toISOString d) as [iso|]; [| eexists; reflexivity].
  exfalso. apply H. eexists. reflexivity.
Qed.

Lemma mapE_convert (rows : list result_row) :
  if forallb serialisable rows
  then exists recs, mapE convert rows = Normal recs
                    /\ Forall2 represents rows recs
  else exists e, mapE convert rows = Throw e.
Proof.
  induction rows as [|row rows IH]; cbn [forallb mapE].
  - exists []. split; [reflexivity | constructor].
  - unfold Exn.bind. destruct (serialisable row) eqn:Hs; cbn [andb].
    + destruct (convert_serialisable row Hs) as (rec & -> & Hr).
      destruct (forallb serialisable rows).
      * destruct IH as (recs & -> & Hrs). eexists. split; [reflexivity |].
        constructor; assumption.
      * destruct IH as (e & ->). eexists. reflexivity.
    + destruct (convert_not_serialisable row Hs) as (e & ->).
      eexists. reflexivity.
Qed.

End HistoryFacts.

Section IsoFacts.
Import Js JsDate HistoryProps.









End IsoFacts.

Section HistoryClaims.
Import Js Exn History HistoryProps.



Example history_of_sample :
  getDecisionHistory (Up SampleDb.db)
  = Normal
      [ {| timestamp := "2024-01-31T09:53:54.000Z"; material := "PVC";
           country := "Germany"; price := num 920; prediction := NaN;
           signal := "WAIT" |};
        {| timestamp := "2024-01-31T08:53:54.000Z"; material := "Copper";
           country := "Egypt"; price := num 9000;
           prediction := Fin (18241 # 2); signal := "BUY" |};
        {| timestamp := "2024-01-30T07:33:20.000Z"; material := "Copper";
           country := "Germany"; price := Fin (89901 # 10);
           prediction := num 9000; signal := "HOLD" |} ].
Proof. vm_compute. reflexivity. Qed.

Example history_with_null_timestamp :
  getDecisionHistory (Up SampleDb.db_null_timestamp) = Normal [].
Proof. vm_compute. reflexivity. Qed.

Example history_when_down : getDecisionHistory Down = Normal [].
Proof. reflexivity. Qed.

End HistoryClaims.

(* ===================================================================== *)
(** * The optimizer and the delivery date *)
(* ===================================================================== *)

Section OptimizerFacts.
Import Optimizer.

Variable HoldingCost : Q.
Variable SafetyStock : Q -> Z -> Q.

(** The minimal quantity is feasible, and no feasible quantity costs less
    when buying and holding a unit costs something. *)
Lemma minimal_quantity_optimal
    (forecast : Z -> Q) (rsk inventory qty : Q) (lead_time_days : Z) :
  (0 <= Price_t_delivery forecast lead_time_days + HoldingCost)%Q ->
  feasible SafetyStock rsk lead_time_days inventory qty ->
  feasible SafetyStock rsk lead_time_days inventory
           (minimal_quantity SafetyStock rsk lead_time_days inventory)
  /\ (objective HoldingCost forecast lead_time_days inventory
                (minimal_quantity SafetyStock rsk lead_time_days inventory)
      <= objective HoldingCost forecast lead_time_days inventory qty)%Q.
Proof.
  unfold feasible, objective, minimal_quantity.
  set (p := Price_t_delivery forecast lead_time_days).
  set (ss := SafetyStock rsk lead_time_days).
  intros Hcost [Hss Hq].
  assert (Hmin : (Qmax 0 (ss - inventory) <= qty)%Q).
  { apply Q.max_lub; [exact Hq | lra]. }
  pose proof (Q.le_max_l 0 (ss - inventory)) as H0.
  pose proof (Q.le_max_r 0 (ss - inventory)) as H1.
  split; [split; [lra | exact H0] |].
  nra.
Qed.

End OptimizerFacts.

Section OptimizerClaim.
Import Optimizer.

(** C4. The price term of the objective is the forecast at the delivery
    date, [now + lead_time_days]: two forecast series that agree there
    give the same objective and the same decision, wherever else they
    differ, the day of the call included. *)
Theorem optimize_prices_at_delivery_date
    (HoldingCost : Q) (SafetyStock : Q -> Z -> Q)
    (direction_of : Q -> direction) (hedge_quantity : Q)
    (otherwise : direction -> bool -> policy -> decision_kind * option Q)
    (forecast1 forecast2 : Z -> Q) (rsk inventory : Q)
    (lead_time_days : Z) (pol : policy) :
  forecast1 lead_time_days = forecast2 lead_time_days ->
  optimize SafetyStock direction_of hedge_quantity otherwise
           forecast1 rsk inventory lead_time_days pol
  = optimize SafetyStock direction_of hedge_quantity otherwise
             forecast2 rsk inventory lead_time_days pol
  /\ (forall qty,
        objective HoldingCost forecast1 lead_time_days inventory qty
        = (forecast1 lead_time_days * qty + HoldingCost * (inventory + qty))%Q
        /\ objective HoldingCost forecast1 lead_time_days inventory qty
           = objective HoldingCost forecast2 lead_time_days inventory qty).
Proof.
  intros Hagree. split.
  - unfold optimize, Price_t_delivery. rewrite Hagree. reflexivity.
  - intros qty. unfold objective, Price_t_delivery. rewrite Hagree.
    split; reflexivity.
Qed.

Lemma optimize_prices_at_delivery_date_witness :
  SampleOptimizer.forecast_down_then_up 0 = 8900%Q
  /\ SampleOptimizer.forecast_up 0 = 9300%Q
  /\ SampleOptimizer.optimize SampleOptimizer.forecast_down_then_up
       (1 # 5) 120 30 Conservative
     = SampleOptimizer.optimize SampleOptimizer.forecast_up
         (1 # 5) 120 30 Conservative
  /\ (forall qty,
        objective SampleOptimizer.HoldingCost
                  SampleOptimizer.forecast_down_then_up 30 120 qty
        = (SampleOptimizer.forecast_down_then_up 30 * qty
           + SampleOptimizer.HoldingCost * (120 + qty))%Q
        /\ objective SampleOptimizer.HoldingCost
                     SampleOptimizer.forecast_down_then_up 30 120 qty
           = objective SampleOptimizer.HoldingCost
                       SampleOptimizer.forecast_up 30 120 qty).
Proof.
  split; [reflexivity |]. split; [reflexivity |].
  apply (optimize_prices_at_delivery_date
           SampleOptimizer.HoldingCost SampleOptimizer.SafetyStock
           SampleOptimizer.direction_of SampleOptimizer.hedge_quantity
           SampleOptimizer.otherwise
           SampleOptimizer.forecast_down_then_up SampleOptimizer.forecast_up
           (1 # 5) 120 30 Conservative).
  reflexivity.
Defined.

(** The two dates disagree on the direction of the price: falling today,
    rising on the delivery date. With the inventory below the safety
    stock the decision is the BUY of the delivery date, for the quantity
    that closes the gap. *)
Example buy_on_delivery_date_direction :
  SampleOptimizer.direction_of (SampleOptimizer.forecast_down_then_up 0) = Falling
  /\ SampleOptimizer.direction_of (SampleOptimizer.forecast_down_then_up 30) = Rising
  /\ SampleOptimizer.optimize SampleOptimizer.forecast_down_then_up
       (1 # 5) 120 30 Conservative
     = inr {| decision := BUY; quantity := Some (Qmax 0 (100 + 1000 * (1 # 5) - 120));
              risk := 1 # 5 |}.
Proof. repeat split. Qed.

(** Rising today, falling on the delivery date, the inventory adequate:
    the decision is the WAIT of the delivery date. *)
Example wait_on_delivery_date_direction :
  SampleOptimizer.direction_of (SampleOptimizer.forecast_up_then_down 0) = Rising
  /\ SampleOptimizer.direction_of (SampleOptimizer.forecast_up_then_down 30) = Falling
  /\ SampleOptimizer.optimize SampleOptimizer.forecast_up_then_down
       (1 # 5) 500 30 Aggressive
     = inr {| decision := WAIT; quantity := None; risk := 1 # 5 |}.
Proof. repeat split. Qed.

Example negative_lead_time_infeasible :
  SampleOptimizer.optimize SampleOptimizer.forecast_up (1 # 5) 500 (-1) Aggressive
  = inl InfeasibleOptimization.
Proof. reflexivity. Qed.

End OptimizerClaim.

(* ===================================================================== *)
(** * The intermittent-demand state machine *)
(* ===================================================================== *)

Section CrostonFacts.
Import Croston.

Lemma step_transition (alpha : Q) (st : state) (o : observation) :
  step alpha st o (transition alpha st o).
Proof.
  destruct o as [d s]. unfold transition. cbn [size interval].
  destruct (is_zero s) eqn:Hs; constructor; exact Hs.
Qed.

Lemma step_functional (alpha : Q) (st : state) (o : observation) (st' : state) :
  step alpha st o st' -> st' = transition alpha st o.
Proof.
  intros H. destruct H as [st d s Hs | st d s Hs];
    unfold transition; cbn [size interval]; rewrite Hs; reflexivity.
Qed.

Lemma steps_run (alpha : Q) (os : list observation) : forall st : state,
  steps alpha st os (run alpha st os).
Proof.
  induction os as [|o os IH]; intros st.
  - constructor.
  - econstructor; [apply step_transition | apply IH].
Qed.

Lemma steps_functional (alpha : Q) (st : state) (os : list observation)
    (st' : state) :
  steps alpha st os st' -> st' = run alpha st os.
Proof.
  induction 1 as [st | st st1 st2 o os Hstep _ IH].
  - reflexivity.
  - apply step_functional in Hstep. subst st1. exact IH.
Qed.

(** C7. For a fixed smoothing factor the state machine is a function of
    the observations. A demand of size [s <> 0] after the interval [d]
    leads to exactly one state, with [P] replaced by
    [alpha * d + (1 - alpha) * P], [Z] by [alpha * s + (1 - alpha) * Z]
    and [E] by [0]; an observation of size zero leads to exactly one
    state, with [E] replaced by [E + 1] and [P] and [Z] kept. Every
    sequence of observations has a run, and two runs from the same state
    on the same sequence end in the same state, so with the same [P] and
    the same [Z]. *)
Theorem croston_deterministic (alpha : Q) :
  (forall st d s st',
     is_zero s = false ->
     (step alpha st {| interval := d; size := s |} st'
      <-> st' = {| P := alpha * d + (1 - alpha) * P st;
                   Z := alpha * s + (1 - alpha) * Z st;
                   E := 0 |}))
  /\ (forall st d s st',
        is_zero s = true ->
        (step alpha st {| interval := d; size := s |} st'
         <-> st' = {| P := P st; Z := Z st; E := S (E st) |}))
  /\ (forall st os, steps alpha st os (run alpha st os))
  /\ (forall st os st1 st2,
        steps alpha st os st1 -> steps alpha st os st2 ->
        st1 = st2 /\ P st1 = P st2 /\ Z st1 = Z st2).
Proof.
  split; [| split; [| split]].
  - intros st d s st' Hs. split.
    + intros H. apply step_functional in H. subst st'.
      unfold transition. cbn [size interval]. rewrite Hs. reflexivity.
    + intros ->. constructor. exact Hs.
  - intros st d s st' Hs. split.
    + intros H. apply step_functional in H. subst st'.
      unfold transition. cbn [size interval]. rewrite Hs. reflexivity.
    + intros ->. constructor. exact Hs.
  - intros st os. apply steps_run.
  - intros st os st1 st2 H1 H2.
    apply steps_functional in H1, H2. subst st1 st2. auto.
Qed.

(** The interval estimate is 60 days and the last order was 54 days ago:
    a day without demand, then an order of 1200 after 56 days. *)
Example croston_run_sample :
  let st := run (1 # 10) {| P := 60; Z := 1000; E := 54 |}
                [ {| interval := 0; size := 0 |};
                  {| interval := 56; size := 1200 |} ] in
  Qeq_bool (P st) (298 # 5) = true
  /\ Qeq_bool (Z st) 1020 = true
  /\ E st = 0%nat.
Proof. repeat split. Qed.

End CrostonFacts.

(* ===================================================================== *)
(** * The columns of the audit table *)
(* ===================================================================== *)

Section AuditTableFacts.
Import Schema.

(** C2. Of the fields an audit row is to carry, the table [ai_signals]
    that [init.sql] creates has a column for each but the risk: no column
    of it is named [stockout_risk] and none mentions a risk, while the
    schema reference of the repository lists [stockout_risk] as a column
    of this table. *)
Theorem audit_table_has_no_risk_column :
  carries ai_signals FRisk = false
  /\ List.filter (fun f => negb (carries ai_signals f)) audit_fields = [FRisk]
  /\ forallb (fun c => negb (mentions "risk" (col_name c))) ai_signals = true
  /\ carries ai_signals_documented FRisk = true.
Proof. repeat split. Qed.

End AuditTableFacts.

(** The trend cached for Copper is 1.5; the entry of the feed carries the
    trend 0. *)
Example live_feed_trend_sample :
  FeedProps.cached_number Samples.store_copper
    (FeedProps.live_key "Egypt" "Copper" "trend") = Js.Fin (3 # 2)
  /\ (MarketData.trend
        <$> fst (MarketData.getLiveMarketData
                   (Redis.Connected Samples.store_copper)
                   Samples.rnd_low 0%nat) !! 0%nat)
     = Some (Js.num 0).
Proof. vm_compute. split; reflexivity. Qed.

(* ===================================================================== *)
(** * Further properties of the live feed *)
(* ===================================================================== *)

Section FeedMore.
Import Js MarketData FeedProps.

Lemma liveEntry_name (rs : list Redis.reply) (i : nat) (e : MaterialData) :
  liveEntry rs i = Some e -> MATERIALS !! i = Some (name e).
Proof.
  unfold liveEntry. destruct (MATERIALS !! i) as [mat|]; [| discriminate].
  cbn [mbind option_bind].
  destruct (parseResFloat rs (i * 5)) as [p|]; [| discriminate].
  cbn [mbind option_bind].
  destruct (parseResStr rs (i * 5 + 2)) as [s|]; [| discriminate].
  cbn [mbind option_bind].
  destruct (parseResFloat rs (i * 5 + 3)) as [f|]; [| discriminate].
  cbn [mbind option_bind].
  destruct (parseResFloat rs (i * 5 + 4)) as [c|]; [| discriminate].
  cbn [mbind option_bind]. intros [= <-]. reflexivity.
Qed.

Lemma liveEntry_is_Some (rs : list Redis.reply) (i : nat) :
  is_Some (liveEntry rs i) <-> (i < 8 /\ i * 5 + 4 < length rs)%nat.
Proof.
  unfold liveEntry. split.
  - intros [e He].
    destruct (MATERIALS !! i) as [mat|] eqn:Hm; [| discriminate].
    apply lookup_lt_Some in Hm. cbn [mbind option_bind] in He.
    destruct (parseResFloat rs (i * 5)) as [p|]; [| discriminate].
    cbn [mbind option_bind] in He.
    destruct (parseResStr rs (i * 5 + 2)) as [s|]; [| discriminate].
    cbn [mbind option_bind] in He.
    destruct (parseResFloat rs (i * 5 + 3)) as [f|]; [| discriminate].
    cbn [mbind option_bind] in He.
    destruct (parseResFloat rs (i * 5 + 4)) as [c|] eqn:Hc; [| discriminate].
    unfold parseResFloat in Hc.
    destruct (rs !! (i * 5 + 4)%nat) as [r|] eqn:Hr; [| discriminate].
    apply lookup_lt_Some in Hr. split; [exact Hm | exact Hr].
  - intros [Hi Hlen].
    destruct (lookup_lt_is_Some_2 MATERIALS i Hi) as [mat ->].
    cbn [mbind option_bind]. unfold parseResFloat, parseResStr.
    destruct (lookup_lt_is_Some_2 rs (i * 5) ltac:(lia)) as [r0 ->].
    cbn [mbind option_bind].
    destruct (lookup_lt_is_Some_2 rs (i * 5 + 2) ltac:(lia)) as [r2 ->].
    cbn [mbind option_bind].
    destruct (lookup_lt_is_Some_2 rs (i * 5 + 3) ltac:(lia)) as [r3 ->].
    cbn [mbind option_bind].
    destruct (lookup_lt_is_Some_2 rs (i * 5 + 4) ltac:(lia)) as [r4 ->].
    cbn [mbind option_bind]. eexists. reflexivity.
Qed.

(** The parsing loop completes exactly when there are forty replies. *)
Lemma live_entries_complete (rs : list Redis.reply) :
  is_Some (mapM (liveEntry rs) (seq 0 (length MATERIALS)))
  <-> (40 <= length rs)%nat.
Proof.
  rewrite mapM_is_Some. cbn [length MATERIALS seq].
  rewrite !Forall_cons, Forall_nil. unfold compose.
  rewrite !liveEntry_is_Some. lia.
Qed.

Lemma live_entries_names (rs : list Redis.reply) (data : list MaterialData) :
  mapM (liveEntry rs) (seq 0 (length MATERIALS)) = Some data ->
  map name data = MATERIALS.
Proof.
  intros H. apply mapM_Some_1 in H. cbn [length MATERIALS seq] in H.
  repeat match goal with
  | H : Forall2 _ (_ :: _) _ |- _ =>
      apply Forall2_cons_inv_l in H;
      let e := fresh "e" in let He := fresh "He" in
      destruct H as (e & ? & He & H & ->);
      apply liveEntry_name in He; injection He as He
  | H : Forall2 _ [] _ |- _ => apply Forall2_nil_inv_l in H; subst
  end.
  cbn [map]. unfold MATERIALS. congruence.
Qed.

(** X1. Whatever the pipeline settles to, the feed has one entry per
    material of the fixed list, in its order and under its name. It is
    built from the replies only when the array is there, its first reply
    is not [null] and it holds the forty replies the loop reads: no random
    number is then drawn and entry [i] is read from the replies at
    [5 i], [5 i + 2], [5 i + 3] and [5 i + 4]. In every other case, a
    rejection, a [null] array and an array too short for the loop
    included, the feed is the mock data. *)
Theorem live_feed_for_every_outcome
    (outcome : Redis.exec_outcome) (rnd : nat -> Q) (pos : nat) :
  map name (fst (getLiveMarketData_from outcome rnd pos)) = MATERIALS
  /\ match outcome with
     | Redis.Resolved (Some rs) =>
         if hasData (Some rs) && (40 <=? length rs)%nat
         then snd (getLiveMarketData_from outcome rnd pos) = pos
              /\ Forall2 (fun i e => liveEntry rs i = Some e)
                         (seq 0 (length MATERIALS))
                         (fst (getLiveMarketData_from outcome rnd pos))
         else getLiveMarketData_from outcome rnd pos = getMockData rnd pos
     | _ => getLiveMarketData_from outcome rnd pos = getMockData rnd pos
     end.
Proof.
  destruct (getMockData_shape rnd pos) as [Hmock _].
  destruct outcome as [|[rs|]]; cbn [getLiveMarketData_from].
  - split; [exact Hmock | reflexivity].
  - destruct (hasData (Some rs)) eqn:Hdata; cbn [negb andb].
    + cbv [default from_option id].
      pose proof (live_entries_complete rs) as Hc.
      destruct (mapM (liveEntry rs) (seq 0 (length MATERIALS))) as [data|] eqn:Hm.
      * assert (Hlen : (40 <= length rs)%nat) by (apply Hc; eauto).
        apply Nat.leb_le in Hlen. rewrite Hlen. cbn [ret fst snd].
        split; [exact (live_entries_names rs data Hm) |].
        split; [reflexivity | apply mapM_Some_1; exact Hm].
      * assert (Hlen : ~ (40 <= length rs)%nat).
        { intros Hlen. apply Hc in Hlen. destruct Hlen as [? [=]]. }
        apply Nat.leb_nle in Hlen. rewrite Hlen.
        split; [exact Hmock | reflexivity].
    + split; [exact Hmock | reflexivity].
  - split; [exact Hmock | reflexivity].
Qed.

End FeedMore.

(* ===================================================================== *)
(** * Ranges of the mock data and of the scanner status *)
(* ===================================================================== *)

Section RangeFacts.
Import Js MarketData FeedProps RangeProps.

Lemma Qred_inject_Z (z : Z) : Qred (inject_Z z) = inject_Z z.
Proof.
  unfold Qred, inject_Z.
  pose proof (Z.ggcd_gcd z 1) as Hg.
  pose proof (Z.ggcd_correct_divisors z 1) as Hd.
  destruct (Z.ggcd z 1) as [g [r1 r2]]. cbn [fst snd] in *.
  rewrite Z.gcd_1_r in Hg. subst g. destruct Hd as [Hz Ho].
  rewrite Z.mul_1_l in Hz, Ho. subst r1 r2. reflexivity.
Qed.

Lemma add_num (a b : Z) : add (num a) (num b) = num (a + b).
Proof.
  unfold add, num. f_equal.
  rewrite <- (Qred_inject_Z (a + b)). apply Qred_complete.
  rewrite inject_Z_plus. reflexivity.
Qed.

(** [Math.floor(r * n)] for a draw [r] and a positive integer [n]. *)
Lemma floor_scaled_draw (r : Q) (n : Z) :
  (0 <= r)%Q -> (r < 1)%Q -> 0 < n ->
  exists k : Z, floor (mul (Fin r) (num n)) = num k /\ 0 <= k <= n - 1.
Proof.
  intros Hlo Hhi Hn. exists (Qfloor (Qred (r * inject_Z n))).
  split; [reflexivity |].
  rewrite (Qfloor_comp _ _ (Qred_correct _)).
  assert (Hn' : (0 < inject_Z n)%Q) by (unfold Qlt, inject_Z; cbn [Qnum Qden]; lia).
  split.
  - change 0 with (Qfloor 0). apply Qfloor_resp_le.
    apply Qmult_le_0_compat; [exact Hlo | apply Qlt_le_weak; exact Hn'].
  - assert (H : (inject_Z (Qfloor (r * inject_Z n)) < inject_Z n)%Q).
    { eapply Qle_lt_trans; [apply Qfloor_le |].
      setoid_replace (inject_Z n) with (1 * inject_Z n)%Q
        using relation Qeq at 2 by ring.
      apply Qmult_lt_compat_r; assumption. }
    rewrite <- Zlt_Qlt in H. lia.
Qed.

Lemma mapR_Forall {A B : Type} (f : A -> Rand B) (P : B -> Prop)
    (rnd : nat -> Q) :
  (forall x pos, P (fst (f x rnd pos))) ->
  forall xs pos, Forall P (fst (mapR f xs rnd pos)).
Proof.
  intros Hf xs. induction xs as [|x xs IH]; intros pos.
  - constructor.
  - cbn [mapR]. unfold bind, ret.
    pose proof (Hf x pos) as Hx.
    destruct (f x rnd pos) as [y pos1].
    pose proof (IH pos1) as Hxs.
    destruct (mapR f xs rnd pos1) as [ys pos2].
    constructor; assumption.
Qed.

(** X2. When every draw of [Math.random] lies in [[0,1)], each entry of
    the mock data has an integer price between 1000 and 5999, an integer
    forecast between 1000 and 6999 and a trend in [[0,5)], so a mock trend
    is never negative. *)
Theorem mock_data_ranges (rnd : nat -> Q) (pos : nat) :
  unit_interval rnd ->
  Forall mock_ranges (fst (getMockData rnd pos)).
Proof.
  intros Hrnd. unfold getMockData. apply mapR_Forall.
  intros mat p. unfold bind, random, ret. cbn [fst].
  unfold mock_ranges. cbn [price forecast trend].
  destruct (Hrnd p) as [H1lo H1hi].
  destruct (Hrnd (S p)) as [H2lo H2hi].
  destruct (Hrnd (S (S (S p)))) as [H4lo H4hi].
  split; [| split].
  - destruct (floor_scaled_draw (rnd p) 5000 H1lo H1hi ltac:(lia))
      as (k & -> & Hk).
    exists (k + 1000). split; [apply add_num | lia].
  - destruct (floor_scaled_draw (rnd (S (S (S p)))) 6000 H4lo H4hi ltac:(lia))
      as (k & -> & Hk).
    exists (k + 1000). split; [apply add_num | lia].
  - exists (Qred (rnd (S p) * inject_Z 5)). split; [reflexivity |].
    rewrite Qred_correct. split.
    + apply Qmult_le_0_compat; [exact H2lo | discriminate].
    + setoid_replace (5 : Q) with (1 * inject_Z 5)%Q
        using relation Qeq by reflexivity.
      apply Qmult_lt_compat_r; [reflexivity | exact H2hi].
Qed.

Lemma mock_data_ranges_witness :
  Forall mock_ranges (fst (getMockData Samples.rnd_high 0%nat)).
Proof.
  apply (mock_data_ranges Samples.rnd_high 0%nat).
  intros i. unfold Samples.rnd_high. split; [discriminate | reflexivity].
Defined.

(** X3. When every draw of [Math.random] lies in [[0,1)], the demand the
    scanner reports is an integer between 10000 and 99999, whatever the
    cache holds and whether or not it can be reached. *)
Theorem scanner_demand_range (srv : Redis.server) (rnd : nat -> Q) (pos : nat) :
  unit_interval rnd ->
  integer_between 10000 99999
    (Scanner.demand (fst (getScannerStatus srv rnd pos))).
Proof.
  intros Hrnd. unfold getScannerStatus, bind.
  destruct (getLiveMarketData srv rnd pos) as [materials pos1].
  unfold scannerStatus_of, bind, random, ret. cbn [fst Scanner.demand].
  destruct (Hrnd pos1) as [Hlo Hhi].
  set (r := rnd pos1) in *.
  exists (Qfloor (Qred (inject_Z 10000 + Qred (r * inject_Z 90000)))).
  split; [reflexivity |].
  rewrite (Qfloor_comp _ _ (Qred_correct _)).
  assert (H0 : (0 <= r * inject_Z 90000)%Q)
    by (apply Qmult_le_0_compat; [exact Hlo | discriminate]).
  assert (H1 : (r * inject_Z 90000 < inject_Z 90000)%Q).
  { setoid_replace (inject_Z 90000) with (1 * inject_Z 90000)%Q
      using relation Qeq at 2 by ring.
    apply Qmult_lt_compat_r; [reflexivity | exact Hhi]. }
  split.
  - change 10000 with (Qfloor (inject_Z 10000)). apply Qfloor_resp_le.
    rewrite Qred_correct.
    setoid_replace (inject_Z 10000) with (inject_Z 10000 + 0)%Q
      using relation Qeq at 1 by ring.
    apply Qplus_le_r. exact H0.
  - assert (H : (inject_Z (Qfloor (inject_Z 10000 + Qred (r * inject_Z 90000)))
                 < inject_Z 100000)%Q).
    { eapply Qle_lt_trans; [apply Qfloor_le |].
      rewrite Qred_correct.
      setoid_replace (inject_Z 100000) with (inject_Z 10000 + inject_Z 90000)%Q
        using relation Qeq by reflexivity.
      apply Qplus_lt_r. exact H1. }
    rewrite <- Zlt_Qlt in H. lia.
Qed.

Lemma scanner_demand_range_witness :
  integer_between 10000 99999
    (Scanner.demand
       (fst (getScannerStatus (Redis.Connected Samples.store_copper)
                              Samples.rnd_low 0%nat))).
Proof.
  apply (scanner_demand_range (Redis.Connected Samples.store_copper)
                              Samples.rnd_low 0%nat).
  intros i. unfold Samples.rnd_low. split; [discriminate | reflexivity].
Defined.

(** The total of [n] entries that each count as 85. *)
Lemma total_of_defaults (ms : list MaterialData) : forall a : Z,
  Forall (fun m => confidence_or_default m = num 85) ms ->
  fold_left (fun acc curr => add acc (confidence_or_default curr)) ms (num a)
  = num (a + 85 * Z.of_nat (length ms)).
Proof.
  induction ms as [|m ms IH]; intros a H.
  - cbn [fold_left length]. f_equal. lia.
  - apply Forall_cons in H. destruct H as [Hm Hms].
    cbn [fold_left length]. rewrite Hm, add_num, (IH _ Hms). f_equal. lia.
Qed.

Lemma scannerStatus_of_defaults (ms : list MaterialData)
    (rnd : nat -> Q) (pos : nat) :
  ms <> [] ->
  Forall (fun m => confidence_or_default m = num 85) ms ->
  Scanner.confidence (fst (scannerStatus_of ms rnd pos)) = num 85.
Proof.
  intros Hne H. unfold scannerStatus_of, bind, random, ret.
  cbn [fst Scanner.confidence].
  rewrite (total_of_defaults ms 0 H), Z.add_0_l.
  assert (Hlen : 0 < Z.of_nat (length ms)) by (destruct ms; [congruence | cbn [length]; lia]).
  replace (match length ms with O => 1%nat | S _ => length ms end)
    with (length ms) by (destruct ms; [congruence | reflexivity]).
  set (n := Z.of_nat (length ms)) in *.
  unfold div, num.
  assert (Hs : Qsign (inject_Z n) = Gt)
    by (unfold Qsign, inject_Z; cbn [Qnum]; apply Z.compare_gt_iff; lia).
  rewrite Hs. unfold floor. f_equal.
  rewrite (Qfloor_comp _ 85).
  - reflexivity.
  - rewrite Qred_correct, inject_Z_mult. field.
    intros Hz. unfold Qeq, inject_Z in Hz. cbn [Qnum Qden] in Hz. lia.
Qed.

(** X4. When the cache gives the scanner no confidence to average, the
    confidence it reports is exactly 85: that is so when the cache cannot
    be reached, when it holds nothing under the first key of the pipeline,
    and when the confidence of every material is missing, is no string,
    does not parse or is zero. *)
Theorem scanner_confidence_defaults_to_85
    (srv : Redis.server) (rnd : nat -> Q) (pos : nat) :
  no_usable_confidence srv = true ->
  Scanner.confidence (fst (getScannerStatus srv rnd pos)) = num 85.
Proof.
  intros H. unfold getScannerStatus, bind.
  assert (Hfeed :
    fst (getLiveMarketData srv rnd pos) <> []
    /\ Forall (fun m => confidence_or_default m = num 85)
              (fst (getLiveMarketData srv rnd pos))).
  { assert (Hmock :
      fst (getMockData rnd pos) <> []
      /\ Forall (fun m => confidence_or_default m = num 85)
                (fst (getMockData rnd pos))).
    { destruct (getMockData_shape rnd pos) as [Hn Hs]. split.
      - intros He. rewrite He in Hn. discriminate.
      - eapply Forall_impl; [exact Hs |].
        intros m [_ Hc]. unfold confidence_or_default. rewrite Hc. reflexivity. }
    destruct srv as [|store].
    { rewrite live_feed_unreachable. cbn [fst].
      split; [discriminate |]. apply List.Forall_forall. intros m Hm.
      apply in_map_iff in Hm. destruct Hm as (mat & <- & _). reflexivity. }
    rewrite live_feed_connected. cbn [no_usable_confidence] in H.
    destruct (first_reply_present store); [| exact Hmock].
    cbn [negb orb] in H. cbn [fst]. split; [discriminate |].
    rewrite forallb_forall in H. apply List.Forall_forall.
    intros m Hm. apply in_map_iff in Hm. destruct Hm as (mat & <- & Hmat).
    specialize (H mat Hmat). unfold confidence_or_default, entry_of.
    cbn [confidence].
    destruct (truthy_num _); [discriminate | reflexivity]. }
  destruct (getLiveMarketData srv rnd pos) as [materials pos1].
  cbn [fst] in Hfeed. destruct Hfeed as [Hne Hall].
  apply scannerStatus_of_defaults; assumption.
Qed.

Lemma scanner_confidence_defaults_to_85_witness :
  Scanner.confidence
    (fst (getScannerStatus (Redis.Connected Samples.store_stalled)
                           Samples.rnd_low 0%nat)) = num 85.
Proof.
  apply (scanner_confidence_defaults_to_85
           (Redis.Connected Samples.store_stalled) Samples.rnd_low 0%nat).
  vm_compute. reflexivity.
Defined.

End RangeFacts.

(* ===================================================================== *)
(** * The join and the timestamps of the history *)
(* ===================================================================== *)

Section HistoryMore.
Import Js Exn History HistoryProps JoinProps.

Lemma sorted_null_first (l : list result_row) (r : result_row) :
  most_recent_first l -> In r l -> r_timestamp r = None ->
  exists h t, l = h :: t /\ r_timestamp h = None.
Proof.
  intros Hs Hin Hr. destruct l as [|h t]; [destruct Hin |].
  exists h, t. split; [reflexivity |].
  destruct Hin as [-> | Hin]; [exact Hr |].
  apply StronglySorted_inv in Hs. destruct Hs as [_ Hh].
  rewrite List.Forall_forall in Hh. specialize (Hh r Hin).
  unfold before in Hh. rewrite Hr in Hh.
  destruct (r_timestamp h); [discriminate | reflexivity].
Qed.

(** X5. One row with a [NULL] in [created_at] among the rows of the join
    blanks the whole history: under [ORDER BY created_at DESC] the [NULL]
    stands first, its conversion throws, and the reader answers with the
    empty list, however many well-formed signals the table holds. *)
Theorem null_timestamp_blanks_history (db : database) :
  null_timestamp_in_join db = true ->
  getDecisionHistory (Up db) = Normal [].
Proof.
  unfold null_timestamp_in_join. intros H.
  apply existsb_exists in H. destruct H as (r & Hin & Hr).
  apply bool_decide_eq_true in Hr.
  assert (Hin' : In r (order_by_created_at_desc (joined db))).
  { rewrite <- !list_elem_of_In in *. rewrite order_perm. exact Hin. }
  destruct (sorted_null_first _ r (order_sorted (joined db)) Hin' Hr)
    as (h & t & Hl & Hh).
  unfold getDecisionHistory, getDecisionHistory_body, pool_query, run_query.
  rewrite Hl. cbn [Exn.bind take mapE]. unfold convert. rewrite Hh.
  reflexivity.
Qed.

Lemma null_timestamp_blanks_history_witness :
  getDecisionHistory (Up SampleDb.db_null_timestamp) = Normal [].
Proof.
  apply (null_timestamp_blanks_history SampleDb.db_null_timestamp).
  vm_compute. reflexivity.
Defined.

(** Selecting by a key that no two elements share picks at most one
    element. *)
Lemma bind_select {A B : Type} (key : A -> Z) (ko : option Z)
    (g : A -> list B) (l : list A) :
  NoDup (map key l) ->
  (x ← l; if bool_decide (ko = Some (key x)) then g x else [])
  = match find (fun x => bool_decide (ko = Some (key x))) l with
    | Some x => g x
    | None => []
    end.
Proof.
  induction l as [|a l IH]; intros Hnd; [reflexivity |].
  cbn [map] in Hnd. apply NoDup_cons in Hnd. destruct Hnd as [Ha Hnd].
  rewrite bind_cons. cbn [find].
  case_bool_decide as Hk.
  - assert (Hrest :
      (x ← l; if bool_decide (ko = Some (key x)) then g x else []) = []).
    { clear IH Hnd. induction l as [|b l IHl]; [reflexivity |].
      rewrite bind_cons.
      cbn [map] in Ha. rewrite not_elem_of_cons in Ha. destruct Ha as [Hab Ha].
      rewrite bool_decide_eq_false_2 by congruence.
      exact (IHl Ha). }
    rewrite Hrest. apply app_nil_r.
  - exact (IH Hnd).
Qed.

Lemma find_existsb {A : Type} (p : A -> bool) (l : list A) :
  existsb p l = match find p l with Some _ => true | None => false end.
Proof.
  induction l as [|a l IH]; [reflexivity |].
  cbn [existsb find]. destruct (p a); [reflexivity | exact IH].
Qed.

(** The rows one signal adds to the join. *)
Lemma joined_cons (ms : list Materials.row) (cs : list Countries.row)
    (s : Signals.row) (ss : list Signals.row) :
  joined {| materials := ms; countries := cs; ai_signals := s :: ss |}
  = (m ← ms;
     if bool_decide (Signals.material_id s = Some (Materials.id m))
     then c ← cs;
          if bool_decide (Signals.country_id s = Some (Countries.id c))
          then [ {| r_timestamp := Signals.created_at s;
                    r_material := Materials.name m;
                    r_country := Countries.name c;
                    r_price := Signals.input_price s;
                    r_prediction := Signals.predicted_demand s;
                    r_signal := Signals.decision s |} ]
          else []
     else [])
    ++ joined {| materials := ms; countries := cs; ai_signals := ss |}.
Proof.
  unfold joined. cbn [ai_signals materials countries].
  rewrite bind_cons. f_equal.
  induction ms as [|m ms IHm]; [reflexivity |].
  rewrite !bind_cons. f_equal; [| exact IHm].
  clear IHm. case_bool_decide as Hm.
  - induction cs as [|c cs IHc]; [reflexivity |].
    rewrite !bind_cons. f_equal; [| exact IHc].
    repeat case_bool_decide; tauto || reflexivity.
  - induction cs as [|c cs IHc]; [reflexivity |].
    rewrite bind_cons, bool_decide_eq_false_2 by tauto. exact IHc.
Qed.

Lemma joined_by_signal (db : database) :
  keys_unique db = true ->
  Forall2 row_of_signal (List.filter (resolves db) (ai_signals db)) (joined db).
Proof.
  destruct db as [ms cs ss]. unfold keys_unique.
  cbn [materials countries ai_signals]. intros Hk.
  apply andb_true_iff in Hk. destruct Hk as [Hm Hc].
  apply bool_decide_eq_true in Hm, Hc.
  induction ss as [|s ss IH]; [constructor |].
  rewrite joined_cons.
  rewrite (bind_select Materials.id (Signals.material_id s) _ ms Hm).
  cbn [List.filter]. unfold resolves at 1. cbn [materials countries].
  rewrite !find_existsb.
  destruct (find _ ms) as [m|]; cbn [andb]; [| exact IH].
  rewrite (bind_select Countries.id (Signals.country_id s) _ cs Hc).
  destruct (find _ cs) as [c|]; [| exact IH].
  cbn [app]. constructor; [| exact IH].
  repeat split.
Qed.

(** X6. When no two materials and no two countries share an [id], the
    join holds one row for each signal whose two foreign keys are found in
    the tables, in the order of the signals, and none for a signal with a
    [NULL] or dangling key. When moreover every timestamp of the join can
    be serialised, the history has as many records as there are such
    signals, up to ten. *)
Theorem history_counts_resolving_signals (db : database) :
  keys_unique db = true ->
  forallb serialisable (joined db) = true ->
  Forall2 row_of_signal (List.filter (resolves db) (ai_signals db)) (joined db)
  /\ exists out : list DecisionRecord,
       getDecisionHistory (Up db) = Normal out
       /\ length out
          = Nat.min 10 (length (List.filter (resolves db) (ai_signals db))).
Proof.
  intros Hk Hser. pose proof (joined_by_signal db Hk) as Hj.
  split; [exact Hj |].
  assert (Hrun : forallb serialisable (run_query db) = true).
  { rewrite forallb_forall in Hser. apply forallb_forall. intros r Hr.
    apply Hser. unfold run_query in Hr.
    apply list_elem_of_In. apply list_elem_of_In in Hr.
    apply subseteq_take in Hr. rewrite order_perm in Hr. exact Hr. }
  pose proof (mapE_convert (run_query db)) as Hconv. rewrite Hrun in Hconv.
  destruct Hconv as (recs & Hrecs & Hrep).
  exists recs. split.
  - unfold getDecisionHistory, getDecisionHistory_body, pool_query.
    cbn [Exn.bind]. rewrite Hrecs. reflexivity.
  - rewrite <- (Forall2_length _ _ _ Hrep). unfold run_query.
    rewrite length_take, (Permutation_length (order_perm (joined db))).
    rewrite (Forall2_length _ _ _ Hj). reflexivity.
Qed.

Lemma history_counts_resolving_signals_witness :
  Forall2 row_of_signal
    (List.filter (resolves SampleDb.db) (ai_signals SampleDb.db))
    (joined SampleDb.db)
  /\ exists out : list DecisionRecord,
       getDecisionHistory (Up SampleDb.db) = Normal out
       /\ length out
          = Nat.min 10
              (length (List.filter (resolves SampleDb.db) (ai_signals SampleDb.db))).
Proof.
  apply (history_counts_resolving_signals SampleDb.db);
    vm_compute; reflexivity.
Defined.

End HistoryMore.

(* ===================================================================== *)
(** * The panels of the page *)
(* ===================================================================== *)

Section PanelFacts.
Import Js JsOps MarketData FeedProps RangeProps.

Lemma live_feed_names (srv : Redis.server) (rnd : nat -> Q) (pos : nat) :
  map name (fst (getLiveMarketData srv rnd pos)) = MATERIALS.
Proof.
  destruct srv as [|store].
  - rewrite live_feed_unreachable. reflexivity.
  - rewrite live_feed_connected. destruct (first_reply_present store).
    + apply entries_names.
    + apply getMockData_shape.
Qed.

Lemma live_feed_silent (store : gmap string Redis.value)
    (rnd : nat -> Q) (pos : nat) :
  cache_silent (Redis.Connected store) = true ->
  getLiveMarketData (Redis.Connected store) rnd pos = getMockData rnd pos.
Proof.
  intros H. rewrite live_feed_connected. cbn [cache_silent] in H.
  destruct (first_reply_present store); [discriminate | reflexivity].
Qed.

Lemma find_split {A : Type} (p : A -> bool) (l : list A) :
  match find p l with
  | Some m => exists before after,
      l = before ++ m :: after /\ p m = true
      /\ Forall (fun e => p e = false) before
  | None => Forall (fun e => p e = false) l
  end.
Proof.
  induction l as [|a l IH]; cbn [find]; [constructor |].
  destruct (p a) eqn:Ha.
  - exists [], l. repeat split; [exact Ha | constructor].
  - destruct (find p l) as [m|].
    + destruct IH as (before & after & -> & Hm & Hb).
      exists (a :: before), after. repeat split; [exact Hm |].
      constructor; assumption.
    + constructor; assumption.
Qed.

Lemma interesting_spec (feed : list MaterialData) :
  match ContextPanel.interesting feed with
  | Some m => exists before after,
      feed = before ++ m :: after
      /\ Forall (fun e => signal e <> "BUY"%string) before
      /\ (signal m = "BUY"%string
          \/ (before = [] /\ Forall (fun e => signal e <> "BUY"%string) after))
  | None => feed = []
  end.
Proof.
  unfold ContextPanel.interesting.
  pose proof (find_split
    (fun m => bool_decide (signal m = "BUY"%string)) feed) as Hfind.
  assert (Hneq : forall l : list MaterialData,
    Forall (fun e => bool_decide (signal e = "BUY"%string) = false) l ->
    Forall (fun e => signal e <> "BUY"%string) l).
  { intros l Hl. eapply Forall_impl; [exact Hl |].
    intros e He. apply bool_decide_eq_false in He. exact He. }
  destruct (find _ feed) as [m|].
  - destruct Hfind as (before & after & -> & Hm & Hb).
    apply bool_decide_eq_true in Hm.
    exists before, after. repeat split; [apply Hneq, Hb | left; exact Hm].
  - destruct feed as [|m after]; [reflexivity |].
    apply Hneq in Hfind. apply Forall_cons in Hfind. destruct Hfind as [_ Ha].
    exists [], after. repeat split; [constructor |].
    right. split; [reflexivity | exact Ha].
Qed.

(** X7. While a country is selected, each poll of the decision engine sets
    the signal shown: the feed is never empty, the entry shown is its
    first entry whose signal is [BUY], and when no entry says [BUY] it is
    the first entry of the feed, Copper. The country itself is not used to
    choose it. *)
Theorem decision_engine_pick (c : string) (srv : Redis.server)
    (prev : option ContextPanel.LatestSignal) (rnd : nat -> Q) (pos : nat) :
  truthy_str c = true ->
  exists (m : MaterialData) (before after : list MaterialData),
    fst (getLiveMarketData srv rnd pos) = before ++ m :: after
    /\ fst (ContextPanel.fetchMaterialStatus (Some c) srv prev rnd pos)
       = Some (ContextPanel.latestSignal_of m)
    /\ Forall (fun e => signal e <> "BUY"%string) before
    /\ (signal m = "BUY"%string
        \/ (before = [] /\ name m = "Copper"%string
            /\ Forall (fun e => signal e <> "BUY"%string) after)).
Proof.
  intros Hc. unfold ContextPanel.fetchMaterialStatus. rewrite Hc.
  unfold bind, ret.
  pose proof (live_feed_names srv rnd pos) as Hnames.
  destruct (getLiveMarketData srv rnd pos) as [feed pos1]. cbn [fst] in *.
  pose proof (interesting_spec feed) as Hi.
  destruct (ContextPanel.interesting feed) as [m|].
  - destruct Hi as (before & after & -> & Hb & Hm).
    exists m, before, after. repeat split; [exact Hb |].
    destruct Hm as [Hm | [-> Ha]]; [left; exact Hm | right].
    cbn [app map] in Hnames. injection Hnames as Hn _.
    repeat split; assumption.
  - subst feed. discriminate.
Qed.

Lemma decision_engine_pick_witness :
  exists (m : MaterialData) (before after : list MaterialData),
    fst (getLiveMarketData (Redis.Connected Samples.store_copper)
                           Samples.rnd_low 0%nat)
    = before ++ m :: after
    /\ fst (ContextPanel.fetchMaterialStatus (Some "Germany"%string)
              (Redis.Connected Samples.store_copper) None
              Samples.rnd_low 0%nat)
       = Some (ContextPanel.latestSignal_of m)
    /\ Forall (fun e => signal e <> "BUY"%string) before
    /\ (signal m = "BUY"%string
        \/ (before = [] /\ name m = "Copper"%string
            /\ Forall (fun e => signal e <> "BUY"%string) after)).
Proof.
  apply (decision_engine_pick "Germany"
           (Redis.Connected Samples.store_copper) None Samples.rnd_low 0%nat).
  reflexivity.
Defined.

Lemma gt_90_truthy (c : number) : gt c (num 90) = true -> truthy_num c = true.
Proof.
  destruct c as [q| | |]; cbn [gt num truthy_num];
    try discriminate; try reflexivity.
  destruct (q ?= inject_Z 90)%Q eqn:Hcmp; try discriminate. intros _.
  apply Qgt_alt in Hcmp.
  assert (H0 : (0 < q)%Q) by (eapply Qlt_trans; [| exact Hcmp]; reflexivity).
  rewrite (Qsign_Gt q H0). reflexivity.
Qed.

(** X8. Once a signal is set, the confidence the decision engine shows is
    that of the entry, or 90 when the entry has none or has 0; it is never
    the 0 of the markup. The volatility reads [LOW] exactly when the
    entry has a confidence above 90, so an entry without a confidence,
    counted as 90, is shown with a [HIGH] volatility. *)
Theorem decision_engine_confidence (c : string) (m : MaterialData) :
  let view :=
    ContextPanel.decisionEngine c (Some (ContextPanel.latestSignal_of m)) in
  ContextPanel.confidence_shown view = ContextPanel.confidence_or_90 m
  /\ truthy_num (ContextPanel.confidence_shown view) = true
  /\ (ContextPanel.volatility view = "LOW"%string
      <-> exists x, confidence m = Some x /\ gt x (num 90) = true)
  /\ (ContextPanel.volatility view = "LOW"%string
      \/ ContextPanel.volatility view = "HIGH"%string).
Proof.
  cbn zeta. unfold ContextPanel.decisionEngine.
  cbn [ContextPanel.confidence_shown ContextPanel.volatility].
  unfold ContextPanel.confidence_or_0, ContextPanel.latestSignal_of.
  cbn [ContextPanel.confidence].
  assert (Ht : truthy_num (ContextPanel.confidence_or_90 m) = true).
  { unfold ContextPanel.confidence_or_90.
    destruct (confidence m) as [x|]; [| reflexivity].
    destruct (truthy_num x) eqn:Hx; [exact Hx | reflexivity]. }
  rewrite Ht. split; [reflexivity |]. split; [exact Ht |].
  split.
  - unfold ContextPanel.confidence_or_90.
    destruct (confidence m) as [x|].
    + destruct (truthy_num x) eqn:Hx.
      * destruct (gt x (num 90)) eqn:Hg; split.
        -- intros _. exists x. split; [reflexivity | exact Hg].
        -- reflexivity.
        -- discriminate.
        -- intros (y & [= <-] & Hy). congruence.
      * change (gt (num 90) (num 90)) with false. split; [discriminate |].
        intros (y & [= <-] & Hy). apply gt_90_truthy in Hy. congruence.
    + change (gt (num 90) (num 90)) with false. split; [discriminate |].
      intros (y & [=] & _).
  - destruct (gt _ _); [left | right]; reflexivity.
Qed.

(** X9. When the cache gives the decision engine nothing to show, it
    still shows a recommendation for the selected country, and none that
    was stored. With the cache out of reach it reads [N/A], for Copper at
    a price of 0, with a confidence of 90. With the cache connected and
    nothing under the first key of the pipeline it reads [BUY] or [WAIT]
    as the random draws fall, with a confidence of 85. In both cases the
    volatility reads [HIGH]. *)
Theorem decision_engine_without_cache (c : string) (srv : Redis.server)
    (prev : option ContextPanel.LatestSignal) (rnd : nat -> Q) (pos : nat) :
  truthy_str c = true ->
  cache_silent srv = true ->
  let view :=
    ContextPanel.decisionEngine c
      (fst (ContextPanel.fetchMaterialStatus (Some c) srv prev rnd pos)) in
  match srv with
  | Redis.Unreachable =>
      ContextPanel.recommendation view = "N/A"%string
      /\ ContextPanel.buy_style view = false
      /\ ContextPanel.detail view = Some ("Copper"%string, num 0)
      /\ ContextPanel.confidence_shown view = num 90
  | Redis.Connected _ =>
      (ContextPanel.recommendation view = "BUY"%string
       \/ ContextPanel.recommendation view = "WAIT"%string)
      /\ (ContextPanel.buy_style view = true
          <-> ContextPanel.recommendation view = "BUY"%string)
      /\ ContextPanel.confidence_shown view = num 85
  end
  /\ ContextPanel.volatility view = "HIGH"%string.
Proof.
  intros Hc Hs. cbn zeta.
  unfold ContextPanel.fetchMaterialStatus. rewrite Hc.
  unfold bind, ret. destruct srv as [|store].
  - rewrite live_feed_unreachable. repeat split.
  - rewrite (live_feed_silent store rnd pos Hs).
    destruct (getMockData_shape rnd pos) as [Hnames Hshape].
    destruct (getMockData rnd pos) as [feed pos1]. cbn [fst] in *.
    pose proof (interesting_spec feed) as Hi.
    destruct (ContextPanel.interesting feed) as [m|];
      [| subst feed; discriminate].
    destruct Hi as (before & after & -> & _ & _).
    apply Forall_app in Hshape. destruct Hshape as [_ Hshape].
    apply Forall_cons in Hshape. destruct Hshape as [[Hsig Hconf] _].
    unfold ContextPanel.decisionEngine, ContextPanel.confidence_or_0,
      ContextPanel.latestSignal_of, ContextPanel.confidence_or_90.
    cbn [option_map ContextPanel.signal ContextPanel.confidence
         ContextPanel.recommendation ContextPanel.buy_style
         ContextPanel.confidence_shown ContextPanel.volatility].
    rewrite Hconf.
    destruct Hsig as [-> | ->]; repeat split; auto; try discriminate.
Qed.

Lemma decision_engine_without_cache_witness :
  let view :=
    ContextPanel.decisionEngine "Egypt"
      (fst (ContextPanel.fetchMaterialStatus (Some "Egypt"%string)
              Redis.Unreachable None Samples.rnd_low 0%nat)) in
  (ContextPanel.recommendation view = "N/A"%string
   /\ ContextPanel.buy_style view = false
   /\ ContextPanel.detail view = Some ("Copper"%string, num 0)
   /\ ContextPanel.confidence_shown view = num 90)
  /\ ContextPanel.volatility view = "HIGH"%string.
Proof.
  apply (decision_engine_without_cache "Egypt" Redis.Unreachable None
           Samples.rnd_low 0%nat); reflexivity.
Defined.

End PanelFacts.

Section PanelRanges.
Import Js JsOps MarketData FeedProps RangeProps.

Lemma arrayFrom_spec {A : Type} (f : Rand A) (P : A -> Prop)
    (rnd : nat -> Q) :
  (forall pos, P (fst (f rnd pos))) ->
  forall n pos,
    length (fst (arrayFrom n f rnd pos)) = n
    /\ Forall P (fst (arrayFrom n f rnd pos)).
Proof.
  intros Hf n. induction n as [|n IH]; intros pos.
  - split; [reflexivity | constructor].
  - cbn [arrayFrom]. unfold bind, ret.
    pose proof (Hf pos) as Hx.
    destruct (f rnd pos) as [y pos1].
    destruct (IH pos1) as [Hlen Hall].
    destruct (arrayFrom n f rnd pos1) as [ys pos2].
    cbn [fst] in *. split; [cbn [length]; f_equal; exact Hlen |].
    constructor; assumption.
Qed.



Lemma ge_0_not_lt (t : number) :
  t <> NaN -> ge t (num 0) = negb (lt t (num 0)).
Proof.
  destruct t as [q| | |]; intros Hn; try reflexivity; [| congruence].
  unfold lt, ge, gt, num. rewrite <- (Qcompare_antisym q (inject_Z 0)).
  destruct (q ?= inject_Z 0)%Q; reflexivity.
Qed.

Lemma gt_0_ge (t : number) : gt t (num 0) = true -> ge t (num 0) = true.
Proof.
  destruct t as [q| | |]; try discriminate; try reflexivity.
  unfold gt, ge, num. destruct (q ?= inject_Z 0)%Q; congruence.
Qed.

(** X11. On every card of the left panel the three marks of the trend
    agree when the trend is a number: the arrow points down exactly when
    the figure and the bar are red, an arrow that points up comes with
    the green class and the plus sign, and the figure and the bar always
    share their colour. A trend that is [NaN] is the one case that shows a
    red figure beside the flat mark. *)
Theorem left_panel_marks_agree (data : list MaterialData)
    (rnd : nat -> Q) (pos : nat) :
  Forall2 (fun item card =>
    LeftPanel.title card = name item
    /\ LeftPanel.shown_trend card = trend item
    /\ (LeftPanel.trend_icon card = LeftPanel.ArrowUpRight ->
        LeftPanel.trend_class card = "text-emerald-500"%string
        /\ LeftPanel.trend_sign card = "+"%string)
    /\ (trend item <> NaN ->
        (LeftPanel.trend_icon card = LeftPanel.ArrowDownRight
         <-> LeftPanel.trend_class card = "text-red-500"%string))
    /\ (trend item = NaN ->
        LeftPanel.trend_icon card = LeftPanel.Minus
        /\ LeftPanel.trend_class card = "text-red-500"%string)
    /\ (LeftPanel.bar_class card = "bg-red-500"%string
        <-> LeftPanel.trend_class card = "text-red-500"%string))
    data (fst (LeftPanel.LeftPanel data rnd pos)).
Proof.
  unfold LeftPanel.LeftPanel. apply mapR_Forall2.
  intros item r p. unfold bind, random, ret. cbn [fst].
  cbn [LeftPanel.title LeftPanel.shown_trend LeftPanel.trend_icon
       LeftPanel.trend_class LeftPanel.trend_sign LeftPanel.bar_class].
  split; [reflexivity |]. split; [reflexivity |].
  split; [| split; [| split]].
  - destruct (gt (trend item) (num 0)) eqn:Hg.
    + rewrite (gt_0_ge _ Hg). intros _. split; reflexivity.
    + destruct (lt (trend item) (num 0)); discriminate.
  - intros Hn. rewrite (ge_0_not_lt _ Hn).
    destruct (gt (trend item) (num 0)) eqn:Hg.
    + pose proof (gt_0_ge _ Hg) as Hge. rewrite (ge_0_not_lt _ Hn) in Hge.
      destruct (lt (trend item) (num 0)); [discriminate |].
      cbn [negb]. split; discriminate.
    + destruct (lt (trend item) (num 0)); cbn [negb]; split;
        (reflexivity || discriminate).
  - intros ->. split; reflexivity.
  - destruct (ge (trend item) (num 0)); split; (reflexivity || discriminate).
Qed.

Lemma getMockData_trend (rnd : nat -> Q) (pos : nat) :
  unit_interval rnd ->
  Forall (fun e => ge (trend e) (num 0) = true
                   /\ lt (trend e) (num 0) = false)
         (fst (getMockData rnd pos)).
Proof.
  intros Hrnd. unfold getMockData. apply mapR_Forall.
  intros mat p. unfold bind, random, ret. cbn [fst trend].
  destruct (Hrnd (S p)) as [Hlo _]. set (r := rnd (S p)) in *.
  assert (H0 : (0 <= Qred (r * inject_Z 5))%Q).
  { rewrite Qred_correct. apply Qmult_le_0_compat; [exact Hlo | discriminate]. }
  unfold lt, ge, gt, mul, num.
  rewrite <- (Qcompare_antisym (Qred (r * inject_Z 5)) (inject_Z 0)).
  destruct (Qred (r * inject_Z 5) ?= inject_Z 0)%Q eqn:Hcmp;
    try (split; reflexivity).
  apply Qlt_alt in Hcmp. exfalso. apply (Qlt_not_le _ _ Hcmp). exact H0.
Qed.

Lemma Forall2_imap_snd {A B : Type} (P : A -> B -> Prop) (l : list A) :
  forall (f : nat -> A -> nat * A) (gs : list B),
    (forall i x, (f i x).2 = x) ->
    Forall2 (fun ix g => P ix.2 g) (imap f l) gs -> Forall2 P l gs.
Proof.
  induction l as [|x l IH]; intros f gs Hf H; cbn [imap] in H.
  - apply Forall2_nil_inv_l in H. subst gs. constructor.
  - apply Forall2_cons_inv_l in H. destruct H as (g & gs' & Hg & H & ->).
    rewrite Hf in Hg. constructor; [exact Hg |].
    apply (IH (f ∘ S)); [intros i y; apply Hf | exact H].
Qed.

Lemma forecasts_spec (rnd : nat -> Q) (data : list MaterialData) (pos : nat) :
  Forall2 (fun item g =>
    BottomPanel.caption g = name item
    /\ length (BottomPanel.points g) = 20%nat)
    (take 2 data) (fst (BottomPanel.forecasts data rnd pos)).
Proof.
  unfold BottomPanel.forecasts.
  apply (Forall2_imap_snd _ _ pair); [reflexivity |].
  apply mapR_Forall2. intros ix r p. unfold bind, ret.
  pose proof (arrayFrom_spec
    (bind random (fun x => ret
       (add (price ix.2)
            (mul (sub x (Fin (1 # 2))) (mul (price ix.2) (Fin (1 # 20)))))))
    (fun _ => True) r (fun _ => I) 20 p) as [Hlen _].
  unfold BottomPanel.getSparkline.
  destruct (arrayFrom 20 _ r p) as [pts p1]. cbn [fst] in *.
  split; [reflexivity | exact Hlen].
Qed.

(** X12. The page hands the feed it read on the server to its panels: the
    left panel shows one card per material of the fixed list, in its
    order, and the forecast card shows two sparklines of twenty points,
    for Copper and for Aluminum. When the draws of the server lie in
    [[0,1)] no card of the left panel shows a falling trend, whatever the
    cache holds: the reader sets the trend of the entries it reads from
    the cache to 0, and a mock trend is not negative. *)
Theorem page_panels (srv : Redis.server) (server_rnd : nat -> Q)
    (server_pos : nat) (rnd : nat -> Q) (pos : nat) :
  unit_interval server_rnd ->
  let p := fst (DashboardPage.Page srv server_rnd server_pos rnd pos) in
  map LeftPanel.title (DashboardPage.left p) = MATERIALS
  /\ Forall (fun card =>
       LeftPanel.trend_icon card <> LeftPanel.ArrowDownRight
       /\ LeftPanel.trend_class card = "text-emerald-500"%string
       /\ LeftPanel.bar_class card = "bg-emerald-500"%string)
       (DashboardPage.left p)
  /\ map BottomPanel.caption (DashboardPage.bottom p)
     = [ "Copper"; "Aluminum" ]%string
  /\ Forall (fun g => length (BottomPanel.points g) = 20%nat)
            (DashboardPage.bottom p).
Proof.
  intros Hrnd. cbn zeta. unfold DashboardPage.Page, DashboardPage.DashboardLayout.
  pose proof (live_feed_names srv server_rnd server_pos) as Hnames.
  assert (Htrend :
    Forall (fun e => ge (trend e) (num 0) = true
                     /\ lt (trend e) (num 0) = false)
           (fst (getLiveMarketData srv server_rnd server_pos))).
  { assert (Hmock := getMockData_trend server_rnd server_pos Hrnd).
    destruct srv as [|store].
    { rewrite live_feed_unreachable. cbn [fst].
      apply List.Forall_forall. intros e He.
      apply in_map_iff in He. destruct He as (mat & <- & _).
      split; reflexivity. }
    rewrite live_feed_connected.
    destruct (first_reply_present store); [| exact Hmock].
    cbn [fst]. apply List.Forall_forall. intros e He.
    apply in_map_iff in He. destruct He as (mat & <- & _).
    split; reflexivity. }
  set (data := fst (getLiveMarketData srv server_rnd server_pos)) in *.
  unfold bind, ret.
  pose proof (mapR_Forall2
    (fun item : MaterialData =>
       bind random (fun r => ret
         {| LeftPanel.title := name item;
            LeftPanel.trend_icon :=
              if gt (trend item) (num 0) then LeftPanel.ArrowUpRight
              else if lt (trend item) (num 0) then LeftPanel.ArrowDownRight
              else LeftPanel.Minus;
            LeftPanel.shown_price := price item;
            LeftPanel.trend_class :=
              if ge (trend item) (num 0) then "text-emerald-500"%string
              else "text-red-500"%string;
            LeftPanel.trend_sign :=
              if gt (trend item) (num 0) then "+"%string else ""%string;
            LeftPanel.shown_trend := trend item;
            LeftPanel.bar_class :=
              if ge (trend item) (num 0) then "bg-emerald-500"%string
              else "bg-red-500"%string;
            LeftPanel.bar_width := add (mul r (num 40)) (num 30) |}))
    (fun item card =>
       LeftPanel.title card = name item
       /\ (ge (trend item) (num 0) = true /\ lt (trend item) (num 0) = false ->
           LeftPanel.trend_icon card <> LeftPanel.ArrowDownRight
           /\ LeftPanel.trend_class card = "text-emerald-500"%string
           /\ LeftPanel.bar_class card = "bg-emerald-500"%string))
    ltac:(intros item r p; unfold bind, random, ret; cbn [fst];
          split; [reflexivity |]; cbn; intros [-> ->];
          destruct (gt (trend item) (num 0)); repeat split; discriminate)
    data rnd pos) as Hleft.
  fold (LeftPanel.LeftPanel data) in Hleft.
  destruct (LeftPanel.LeftPanel data rnd pos) as [cards pos1].
  pose proof (forecasts_spec rnd data pos1) as Hbottom.
  destruct (BottomPanel.forecasts data rnd pos1) as [graphs pos2].
  cbn [fst DashboardPage.left DashboardPage.bottom] in *.
  repeat split.
  - rewrite <- Hnames. clear -Hleft.
    induction Hleft as [|item card items cards' [Ht _] _ IH];
      [reflexivity | cbn [map]; f_equal; assumption].
  - clear -Hleft Htrend. induction Hleft as [|item card items cards' [_ Hc] _ IH].
    + constructor.
    + apply Forall_cons in Htrend. destruct Htrend as [Hi Htrend].
      constructor; [exact (Hc Hi) | exact (IH Htrend)].
  - destruct data as [|a [|b data']]; try discriminate.
    cbn [map] in Hnames. injection Hnames as Ha Hb _.
    cbn [take] in Hbottom.
    apply Forall2_cons_inv_l in Hbottom.
    destruct Hbottom as (g1 & gs1 & [Hg1 _] & Hbottom & ->).
    apply Forall2_cons_inv_l in Hbottom.
    destruct Hbottom as (g2 & gs2 & [Hg2 _] & Hbottom & ->).
    apply Forall2_nil_inv_l in Hbottom. subst gs2.
    cbn [map]. congruence.
  - clear -Hbottom. induction Hbottom as [|item g items gs [_ Hl] _ IH];
      constructor; assumption.
Qed.

Lemma page_panels_witness :
  let p := fst (DashboardPage.Page (Redis.Connected Samples.store_copper)
                  Samples.rnd_low 0%nat Samples.rnd_high 0%nat) in
  map LeftPanel.title (DashboardPage.left p) = MATERIALS
  /\ Forall (fun card =>
       LeftPanel.trend_icon card <> LeftPanel.ArrowDownRight
       /\ LeftPanel.trend_class card = "text-emerald-500"%string
       /\ LeftPanel.bar_class card = "bg-emerald-500"%string)
       (DashboardPage.left p)
  /\ map BottomPanel.caption (DashboardPage.bottom p)
     = [ "Copper"; "Aluminum" ]%string
  /\ Forall (fun g => length (BottomPanel.points g) = 20%nat)
            (DashboardPage.bottom p).
Proof.
  apply (page_panels (Redis.Connected Samples.store_copper)
           Samples.rnd_low 0%nat Samples.rnd_high 0%nat).
  intros i. unfold Samples.rnd_low. split; [discriminate | reflexivity].
Defined.

End PanelRanges.

(* ===================================================================== *)
(** * The static dashboard *)
(* ===================================================================== *)

Section StaticFeedFacts.
Import Js JsValue Card StaticFeed StaticFeedProps.

Variable StringToNumber : string -> number.

Lemma polls_snoc (responses : list response) (res : response)
    (container : list card) :
  polls StringToNumber (responses ++ [res]) container
  = updateMarketFeed StringToNumber res
      (polls StringToNumber responses container).
Proof. unfold polls. rewrite fold_left_app. reflexivity. Qed.

Lemma last_body_snoc (responses : list response) (res : response) :
  last_body (responses ++ [res])
  = match res with
    | Body b => Some b
    | Failure => last_body responses
    end.
Proof.
  induction responses as [|r rs IH]; cbn [app last_body].
  - destruct res; reflexivity.
  - rewrite IH. destruct res; [| reflexivity].
    destruct (last_body rs); reflexivity.
Qed.

(** The loop over elements none of which is [null], and over elements
    the first [null] of which stands after them. *)
Lemma forEach_append_objects (l : list material_item)
    (rest : list (option material_item)) (container : list card) :
  forEach_append StringToNumber (map Some l) container
  = container ++ map (createMaterialCard StringToNumber) l
  /\ forEach_append StringToNumber (map Some l ++ None :: rest) container
     = container ++ map (createMaterialCard StringToNumber) l.
Proof.
  revert container. induction l as [|m l IH]; intros container.
  - cbn [map app forEach_append]. rewrite app_nil_r. split; reflexivity.
  - cbn [map app forEach_append].
    destruct (IH (container ++ [createMaterialCard StringToNumber m]))
      as [-> ->].
    rewrite <- app_assoc. split; reflexivity.
Qed.

(** X13. After any sequence of polls the list of the static dashboard
    holds what the last poll that reached it put there, and what it held
    when the page was loaded while every poll has failed before reaching
    it; cards of earlier polls never stay beside it. Such a poll shows
    the five demonstration cards when the response has no material, and
    one card per material, in order, when the materials are objects. It
    cuts the list short at the first element that is [null], and it
    leaves the list empty when the materials are truthy and no array. *)
Theorem static_feed_shows_last_poll (responses : list response)
    (container : list card) :
  polls StringToNumber responses container
  = match last_body responses with
    | None => container
    | Some materials => updateMarketFeed StringToNumber (Body materials) []
    end
  /\ (last_body responses = None
      <-> Forall (fun res => res = Failure) responses)
  /\ (forall materials,
        no_items materials = true ->
        updateMarketFeed StringToNumber (Body materials) []
        = map (createMaterialCard StringToNumber) generateMockData)
  /\ (forall l,
        l <> [] ->
        updateMarketFeed StringToNumber (Body (Array (map Some l))) []
        = map (createMaterialCard StringToNumber) l)
  /\ (forall l rest,
        updateMarketFeed StringToNumber
          (Body (Array (map Some l ++ None :: rest))) []
        = map (createMaterialCard StringToNumber) l)
  /\ updateMarketFeed StringToNumber (Body (NotAnArray false)) [] = [].
Proof.
  split; [| split; [| split; [| split; [| split]]]].
  - induction responses as [|res responses IH] using rev_ind; [reflexivity |].
    rewrite polls_snoc, last_body_snoc.
    destruct res as [|materials]; [exact IH | reflexivity].
  - induction responses as [|res responses IH]; cbn [last_body].
    + split; [constructor | reflexivity].
    + rewrite Forall_cons. destruct (last_body responses) as [b|].
      * split; [discriminate |]. intros [_ H]. apply IH in H. discriminate.
      * destruct res as [|b]; split; try discriminate.
        -- intros _. split; [reflexivity | apply IH; reflexivity].
        -- reflexivity.
        -- intros [[=] _].
  - intros materials Hn. cbn [updateMarketFeed]. rewrite Hn.
    apply (forEach_append_objects generateMockData [] []).
  - intros l Hl. cbn [updateMarketFeed no_items]. rewrite length_map.
    destruct l as [|m l]; [congruence |]. cbn [length Nat.eqb].
    apply (forEach_append_objects (m :: l) [] []).
  - intros l rest. cbn [updateMarketFeed no_items].
    rewrite length_app, length_map. cbn [length].
    replace (length l + S (length rest) =? 0)%nat with false
      by (symmetry; apply Nat.eqb_neq; lia).
    apply (forEach_append_objects l rest []).
  - reflexivity.
Qed.

(** X14. The number the card of the static dashboard hands to
    [toFixed(2)] for the trend is 0.5 when the trend is falsy: beside the
    falling mark when the trend is missing or [NaN], and beside the rising
    mark when it is [null], [false] or 0, which compare as 0. Any other
    number is handed over by its magnitude, beside the rising mark exactly
    when it is positive; [true] counts as 1, and a text is converted to a
    number first, the empty text being replaced by 0.5. *)
Theorem card_trend_display (mat : material_item) :
  let c := createMaterialCard StringToNumber mat in
  (trend_class c = "trend-up"%string <-> trend_arrow c = "▲"%string)
  /\ match trend mat with
     | Undefined | Num NaN =>
         trend_abs c = Fin (1 # 2) /\ trend_arrow c = "▼"%string
     | Null | Bool false =>
         trend_abs c = Fin (1 # 2) /\ trend_arrow c = "▲"%string
     | Bool true =>
         trend_abs c = num 1 /\ trend_arrow c = "▲"%string
     | Num (Fin q) =>
         if Qeq_bool q 0
         then trend_abs c = Fin (1 # 2) /\ trend_arrow c = "▲"%string
         else trend_abs c = Fin (Qabs q)
              /\ (trend_arrow c = "▲"%string <-> (0 < q)%Q)
              /\ (trend_arrow c = "▼"%string <-> (q < 0)%Q)
     | Num PosInf =>
         trend_abs c = PosInf /\ trend_arrow c = "▲"%string
     | Num NegInf =>
         trend_abs c = PosInf /\ trend_arrow c = "▼"%string
     | Str s =>
         trend_abs c
         = (if truthy_str s then abs (StringToNumber s) else Fin (1 # 2))
         /\ (trend_arrow c = "▲"%string
             <-> ge (StringToNumber s) (num 0) = true)
     end.
Proof.
  cbn zeta. unfold createMaterialCard.
  cbn [trend_abs trend_arrow trend_class].
  split.
  { destruct (ge (ToNumber StringToNumber (trend mat)) (num 0));
      split; (reflexivity || discriminate). }
  unfold or.
  destruct (trend mat) as [| |[|]|[q| | |]|s];
    cbn [truthy ToNumber truthy_num abs ge num];
    try (split; reflexivity).
  - change (inject_Z 0) with 0%Q.
    destruct (Qeq_bool q 0) eqn:Hz.
    + apply Qeq_bool_iff in Hz. pose proof Hz as Hs. apply Qsign_Eq in Hs.
      rewrite Hs. cbn [ToNumber abs].
      assert (Hc : (q ?= 0)%Q = Eq) by (apply Qeq_alt; exact Hz).
      rewrite Hc. split; reflexivity.
    + apply Qeq_bool_neq in Hz.
      assert (Ht : match Qsign q with Eq => false | _ => true end = true).
      { destruct (Qsign q) eqn:Hs; try reflexivity.
        apply Qsign_Eq in Hs. contradiction. }
      rewrite Ht. cbn [ToNumber abs].
      split; [reflexivity |].
      destruct (q ?= 0)%Q eqn:Hc.
      * apply Qeq_alt in Hc. contradiction.
      * apply Qlt_alt in Hc. split; split; intros H;
          try discriminate; try reflexivity; try exact Hc; lra.
      * apply Qgt_alt in Hc. split; split; intros H;
          try discriminate; try reflexivity; try exact Hc; lra.
  - destruct (truthy_str s); cbn [ToNumber abs]; (split; [reflexivity |]);
      destruct (ge (StringToNumber s) (num 0));
      split; (reflexivity || discriminate).
Qed.

(** X15. The price the card of the static dashboard hands to
    [toFixed(2)] is the number of the price of the material when that is
    truthy, and of the input price otherwise, so a price of 0 is passed
    over. It is [NaN] exactly when the value so chosen is a text that
    converts to [NaN], or when the price is falsy and the input price is
    missing or [NaN]; an input price of [null] counts as 0. *)
Theorem card_price_display (mat : material_item) :
  let p := mat_price (createMaterialCard StringToNumber mat) in
  (truthy (price mat) = true -> p = ToNumber StringToNumber (price mat))
  /\ (truthy (price mat) = false ->
      p = ToNumber StringToNumber (input_price mat))
  /\ (truthy (price mat) = false -> input_price mat = Null -> p = num 0)
  /\ (p = NaN
      <-> (exists s, or (price mat) (input_price mat) = Str s
                     /\ StringToNumber s = NaN)
          \/ (truthy (price mat) = false
              /\ (input_price mat = Undefined
                  \/ input_price mat = Num NaN))).
Proof.
  cbn zeta. unfold createMaterialCard. cbn [mat_price]. unfold or.
  assert (Hnum : forall v,
    ToNumber StringToNumber v = NaN
    <-> (exists s, v = Str s /\ StringToNumber s = NaN)
        \/ v = Undefined \/ v = Num NaN).
  { intros v. split.
    - destruct v as [| |[|]|n|s]; cbn [ToNumber]; unfold num; intros H;
        try discriminate.
      + right. left. reflexivity.
      + right. right. rewrite H. reflexivity.
      + left. exists s. split; [reflexivity | exact H].
    - intros [(s & -> & H) | [-> | ->]];
        [exact H | reflexivity | reflexivity]. }
  destruct (truthy (price mat)) eqn:Hp.
  - split; [reflexivity |]. split; [discriminate |]. split; [discriminate |].
    rewrite Hnum. split.
    + intros [H | [H | H]]; [left; exact H | |];
        rewrite H in Hp; discriminate.
    + intros [H | [[=] _]]. left. exact H.
  - split; [discriminate |]. split; [reflexivity |].
    split; [intros _ ->; reflexivity |].
    rewrite Hnum. split.
    + intros [H | H]; [left; exact H | right; split; [reflexivity | exact H]].
    + intros [H | [_ H]]; [left; exact H | right; exact H].
Qed.

End StaticFeedFacts.

(* ===================================================================== *)
(** * The market feed of [app.js] *)
(* ===================================================================== *)

Section MarketFeedFacts.
Import Js JsValue Exn MarketFeed MarketFeedProps.

Lemma text_of_Some (v : value) (s : string) :
  text_of v = Some s <-> v = Str s /\ truthy_str s = true.
Proof.
  destruct v as [| |b|n|t]; cbn [text_of]; try (split; [discriminate | intros [[=] _]]).
  destruct (truthy_str t) eqn:Ht; split.
  - intros [= ->]. split; [reflexivity | exact Ht].
  - intros [[= ->] _]. reflexivity.
  - discriminate.
  - intros [[= ->] H]. congruence.
Qed.

Lemma strict_eq_Str (v : value) (s : string) :
  strict_eq v (Str s) = true <-> v = Str s.
Proof.
  destruct v as [| |b|[q| | |]|t]; cbn [strict_eq];
    try (split; [discriminate | intros [=]]).
  rewrite String.eqb_eq. split; [intros -> | intros [= ->]]; reflexivity.
Qed.

Lemma shown_names_app (l1 l2 : list item) :
  shown_names (l1 ++ l2) = shown_names l1 ++ shown_names l2.
Proof. unfold shown_names. apply omap_app. Qed.

Lemma In_shown_names (items : list item) (s : string) :
  In s (shown_names items)
  <-> exists m, In m items /\ display_name m = Str s /\ truthy_str s = true.
Proof.
  unfold shown_names. rewrite <- list_elem_of_In, list_elem_of_omap.
  split.
  - intros (m & Hm & Ht). apply text_of_Some in Ht.
    exists m. rewrite <- list_elem_of_In. tauto.
  - intros (m & Hm & Ht). exists m. rewrite list_elem_of_In.
    split; [exact Hm | apply text_of_Some; exact Ht].
Qed.

Lemma exists_in_shown (items : list item) (signal : ai_signal) (s : string) :
  signal_material signal = Str s -> truthy_str s = true ->
  (exists_in items signal = true <-> In s (shown_names items)).
Proof.
  intros Hs Ht. unfold exists_in. rewrite existsb_exists, In_shown_names, Hs.
  split.
  - intros (m & Hm & He). apply strict_eq_Str in He. exists m. tauto.
  - intros (m & Hm & He & _). exists m. split; [exact Hm |].
    apply strict_eq_Str. exact He.
Qed.

Lemma exists_in_app (l1 l2 : list item) (signal : ai_signal) :
  exists_in (l1 ++ l2) signal = exists_in l1 signal || exists_in l2 signal.
Proof. unfold exists_in. apply existsb_app. Qed.

Lemma display_name_pushed (signal : ai_signal) :
  text_of (display_name (item_of_signal signal))
  = text_of (signal_material signal).
Proof.
  unfold display_name, item_of_signal, or. cbn [name material].
  destruct (signal_material signal) as [| |b|n|s]; cbn [truthy text_of];
    try reflexivity.
  - destruct b; reflexivity.
  - destruct (truthy_num n); reflexivity.
  - destruct (truthy_str s) eqn:Ht; cbn [text_of]; rewrite ?Ht; reflexivity.
Qed.

Lemma shown_names_cons (m : item) (l : list item) :
  shown_names (m :: l)
  = match text_of (display_name m) with
    | Some s => s :: shown_names l
    | None => shown_names l
    end.
Proof. reflexivity. Qed.

Lemma shown_names_pushed (signal : ai_signal) (l : list item) :
  shown_names (item_of_signal signal :: l)
  = match text_of (signal_material signal) with
    | Some s => s :: shown_names l
    | None => shown_names l
    end.
Proof. rewrite shown_names_cons, display_name_pushed. reflexivity. Qed.

(** The loop of the signals, from any list of items. *)
Lemma merge_spec (ai_signals : list ai_signal) : forall items : list item,
  exists added : list item,
    merge items ai_signals = items ++ added
    /\ Forall (pushed_for items ai_signals) added
    /\ (forall signal s,
          In signal ai_signals -> text_of (signal_material signal) = Some s ->
          In s (shown_names (items ++ added)))
    /\ NoDup (shown_names added)
    /\ (forall s, In s (shown_names added) -> ~ In s (shown_names items))
    /\ Forall (first_signal_of ai_signals) added.
Proof.
  induction ai_signals as [|sig rest IH]; intros items.
  - exists []. cbn [merge fold_left]. rewrite app_nil_r.
    repeat split; try constructor; intros; contradiction.
  - unfold merge. cbn [fold_left].
    fold (merge (if exists_in items sig then items
                 else items ++ [item_of_signal sig]) rest).
    destruct (exists_in items sig) eqn:Hex.
    + destruct (IH items) as (added & Hm & Hpush & Hcov & Hnd & Hdis & Hfirst).
      exists added. split; [exact Hm |]. split; [| split; [| split; [| split]]].
      * eapply Forall_impl; [exact Hpush |].
        intros a (signal & Hin & Ha & He). exists signal.
        split; [right; exact Hin | split; assumption].
      * intros signal s [<- | Hin] Hs; [| exact (Hcov signal s Hin Hs)].
        rewrite shown_names_app. apply in_or_app. left.
        apply text_of_Some in Hs. destruct Hs as [Hs Ht].
        apply (exists_in_shown items sig s Hs Ht). exact Hex.
      * exact Hnd.
      * exact Hdis.
      * rewrite List.Forall_forall in Hfirst |- *. intros a Ha s Hs.
        destruct (Hfirst a Ha s Hs) as (before & signal & after & -> & Hsig & Hb).
        exists (sig :: before), signal, after.
        split; [reflexivity |]. split; [exact Hsig |].
        constructor; [| exact Hb]. intros Hsm.
        apply text_of_Some in Hs. destruct Hs as [Hn Ht].
        apply (Hdis s).
        -- apply In_shown_names. exists a. split; [exact Ha |].
           split; [| exact Ht].
           rewrite Hsig in Hn |- *. unfold display_name, or.
           cbn [name material item_of_signal] in Hn |- *.
           rewrite Hn. cbn [truthy]. rewrite Ht. reflexivity.
        -- apply (exists_in_shown items sig s Hsm Ht). exact Hex.
    + destruct (IH (items ++ [item_of_signal sig]))
        as (added & Hm & Hpush & Hcov & Hnd & Hdis & Hfirst).
      exists (item_of_signal sig :: added).
      split; [rewrite Hm, <- app_assoc; reflexivity |].
      assert (Hnew : forall s,
        text_of (signal_material sig) = Some s ->
        ~ In s (shown_names added) /\ ~ In s (shown_names items)).
      { intros s Hs. split.
        - intros Hin. apply (Hdis s Hin). rewrite shown_names_app.
          apply in_or_app. right. rewrite shown_names_pushed, Hs.
          left. reflexivity.
        - intros Hin. apply text_of_Some in Hs. destruct Hs as [Hs Ht].
          apply (exists_in_shown items sig s Hs Ht) in Hin. congruence. }
      split; [| split; [| split; [| split]]].
      * constructor.
        -- exists sig. split; [left; reflexivity | split; [reflexivity | exact Hex]].
        -- eapply Forall_impl; [exact Hpush |].
           intros a (signal & Hin & Ha & He). exists signal.
           split; [right; exact Hin | split; [exact Ha |]].
           rewrite exists_in_app in He. apply orb_false_iff in He. tauto.
      * intros signal s [<- | Hin] Hs.
        -- rewrite shown_names_app. apply in_or_app. right.
           rewrite shown_names_pushed, Hs. left. reflexivity.
        -- specialize (Hcov signal s Hin Hs).
           rewrite <- app_assoc in Hcov. exact Hcov.
      * rewrite shown_names_pushed.
        destruct (text_of (signal_material sig)) as [s|] eqn:Hs; [| exact Hnd].
        apply NoDup_cons. split; [| exact Hnd].
        rewrite list_elem_of_In. apply (Hnew s eq_refl).
      * intros s Hin Hitems. rewrite shown_names_pushed in Hin.
        destruct (text_of (signal_material sig)) as [s'|] eqn:Hs.
        -- destruct Hin as [<- | Hin].
           ++ apply (Hnew s' eq_refl). exact Hitems.
           ++ apply (Hdis s Hin). rewrite shown_names_app.
              apply in_or_app. left. exact Hitems.
        -- apply (Hdis s Hin). rewrite shown_names_app.
           apply in_or_app. left. exact Hitems.
      * constructor.
        -- intros s Hs. exists [], sig, rest.
           split; [reflexivity | split; [reflexivity | constructor]].
        -- rewrite List.Forall_forall in Hfirst |- *. intros a Ha s Hs.
           destruct (Hfirst a Ha s Hs)
             as (before & signal & after & -> & Hsig & Hb).
           exists (sig :: before), signal, after.
           split; [reflexivity |]. split; [exact Hsig |].
           constructor; [| exact Hb]. intros Hsm.
           apply text_of_Some in Hs. destruct Hs as [Hn Ht].
           apply (Hdis s).
           ++ apply In_shown_names. exists a. split; [exact Ha |].
              split; [| exact Ht].
              rewrite Hsig in Hn |- *. unfold display_name, or.
              cbn [name material item_of_signal] in Hn |- *.
              rewrite Hn. cbn [truthy]. rewrite Ht. reflexivity.
           ++ rewrite shown_names_app. apply in_or_app. right.
              rewrite shown_names_pushed, Hsm. cbn [text_of].
              rewrite Ht. left. reflexivity.
Qed.

(** X16. The loop that merges the signals into the feed keeps the
    materials of the response, in their order, and pushes after them one
    item per signal that they do not name. Every signal whose material is
    a non-empty string is then shown under that name; no such name is
    pushed twice, none is pushed beside a material of the response that
    bears it, and the item pushed for a name carries the price and the
    decision of the first signal of the response for it. *)
Theorem merge_adds_unseen_signals (items : list item)
    (ai_signals : list ai_signal) :
  exists added : list item,
    merge items ai_signals = items ++ added
    /\ Forall (pushed_for items ai_signals) added
    /\ (forall signal s,
          In signal ai_signals -> text_of (signal_material signal) = Some s ->
          In s (shown_names (merge items ai_signals)))
    /\ NoDup (shown_names added)
    /\ (forall s, In s (shown_names added) -> ~ In s (shown_names items))
    /\ Forall (first_signal_of ai_signals) added.
Proof.
  destruct (merge_spec ai_signals items)
    as (added & Hm & Hpush & Hcov & Hnd & Hdis & Hfirst).
  exists added. rewrite Hm. repeat split; assumption.
Qed.

Lemma or_number_not_NaN (a : number) : or_number a (num 0) <> NaN.
Proof.
  unfold or_number. destruct (truthy_num a) eqn:Ha; [| discriminate].
  intros ->. discriminate.
Qed.

Lemma upper_decision_spec (toUpperCase : string -> string) (mat : item) :
  match upper_decision toUpperCase mat with
  | Normal d =>
      truthy (decision mat) = false \/ exists s, decision mat = Str s
  | Throw e =>
      e = TypeError /\ truthy (decision mat) = true
      /\ text_of (decision mat) = None
  end.
Proof.
  unfold upper_decision, or.
  destruct (decision mat) as [| |b|n|s]; cbn [truthy text_of].
  - left. reflexivity.
  - left. reflexivity.
  - destruct b; [repeat split | left; reflexivity].
  - destruct (truthy_num n); [repeat split | left; reflexivity].
  - destruct (truthy_str s); right; exists s; reflexivity.
Qed.


(** X17. The card of [app.js] never prints [NaN]: a price or a trend that
    is missing or cannot be read is printed as 0, the trend beside the
    rising mark, and the trend is printed by its magnitude. The card
    always has a name, at worst [Unknown], a badge that is not empty and
    one of the three classes. It cannot be built only when the decision is
    truthy and is no string, in which case a [TypeError] is thrown. *)
Theorem app_card_display (toUpperCase : string -> string) (mat : item) :
  match createMaterialCard toUpperCase mat with
  | Normal c =>
      mat_price c <> NaN
      /\ magnitude (trend_abs c)
      /\ (truthy_num (parseFloat_value (trend mat)) = false ->
          trend_abs c = num 0 /\ trend_arrow c = "▲"%string)
      /\ (truthy_num
            (parseFloat_value (or (price mat) (input_price mat))) = false ->
          mat_price c = num 0)
      /\ truthy (mat_name c) = true
      /\ badge_text c <> ""%string
      /\ In (badge_class c) [ "wait"; "buy"; "hold" ]%string
      /\ (truthy (decision mat) = false \/ exists s, decision mat = Str s)
  | Throw e =>
      e = TypeError /\ truthy (decision mat) = true
      /\ text_of (decision mat) = None
  end.
Proof.
  unfold createMaterialCard.
  pose proof (upper_decision_spec toUpperCase mat) as Hd.
  destruct (upper_decision toUpperCase mat) as [d|e]; cbn [Exn.bind];
    [| exact Hd].
  cbn [mat_price trend_abs trend_arrow mat_name badge_text badge_class].
  split; [apply or_number_not_NaN |].
  split; [| split; [| split; [| split; [| split; [| split]]]]].
  - pose proof (or_number_not_NaN (parseFloat_value (trend mat))) as Hn.
    destruct (or_number (parseFloat_value (trend mat)) (num 0)) as [q| | |];
      cbn [abs]; [right | congruence | left; reflexivity | left; reflexivity].
    exists (Qabs q). split; [reflexivity | apply Qabs_nonneg].
  - unfold or_number. intros ->. split; reflexivity.
  - unfold or_number. intros ->. reflexivity.
  - unfold or. destruct (truthy (name mat)) eqn:Hn.
    + rewrite Hn. exact Hn.
    + destruct (truthy (material mat)) eqn:Hm; [exact Hm | reflexivity].
  - destruct (truthy_str d) eqn:Ht; [| discriminate].
    intros ->. discriminate.
  - repeat case_bool_decide; cbn [In]; tauto.
  - exact Hd.
Qed.




End MarketFeedFacts.

(* ===================================================================== *)
(** * The markers and the shuffle of [app.js] *)
(* ===================================================================== *)

Section ShuffleFacts.
Import Shuffle ShuffleProps.

Lemma countries_length : length countries = 21%nat.
Proof. reflexivity. Qed.

Lemma reset_markers (ms : list marker) :
  length ms = length countries ->
  map (fun _ => defaultMarkerStyle) ms
  = replicate (length countries) defaultMarkerStyle.
Proof.
  intros <-. induction ms as [|m ms IH]; [reflexivity |].
  cbn [map length replicate]. f_equal. exact IH.
Qed.

Lemma highlight_length (i : nat) : length (highlight i) = length countries.
Proof. unfold highlight. rewrite length_insert, length_replicate. reflexivity. Qed.

(** [selectCountry] with the index of the country restores the
    agreement, whatever was selected before. *)
Lemma selectCountry_consistent (c : country) (i : nat) (st : state) :
  countries !! i = Some c ->
  length (markers st) = length countries ->
  (shuffleIndex st < length countries)%nat ->
  (forall a b, drawn st a -> drawn st b -> a = b) ->
  (forall id, is_Some (geoJsonLayers st !! id) ->
     exists c, In c countries /\ iso3 c = id) ->
  consistent (selectCountry c (Some i) st).
Proof.
  intros Hc Hlen Hidx Huniq Hkeys. unfold consistent, selectCountry, drawn.
  cbn [markers shuffleIndex selectedCountry geoJsonLayers].
  rewrite (reset_markers _ Hlen).
  assert (Hi : (i < length countries)%nat) by (eapply lookup_lt_Some; exact Hc).
  destruct (lookup_lt_is_Some_2
              (replicate (length countries) defaultMarkerStyle) i
              ltac:(rewrite length_replicate; exact Hi)) as [m ->].
  split; [apply highlight_length |]. split; [exact Hidx |].
  destruct (geoJsonLayers st !! iso3 c) as [b|] eqn:Hl.
  - split; [| split].
    + exists i. split; [exact Hc |]. split; [reflexivity |].
      intros _. apply lookup_insert_eq.
    + intros a b' Ha Hb.
      destruct (decide (a = iso3 c)) as [-> | Hna];
        destruct (decide (b' = iso3 c)) as [-> | Hnb]; try reflexivity.
      * rewrite lookup_insert_ne, lookup_fmap in Hb by congruence.
        destruct (geoJsonLayers st !! b'); discriminate.
      * rewrite lookup_insert_ne, lookup_fmap in Ha by congruence.
        destruct (geoJsonLayers st !! a); discriminate.
      * rewrite lookup_insert_ne, lookup_fmap in Ha by congruence.
        destruct (geoJsonLayers st !! a); discriminate.
    + intros id [v Hv].
      destruct (decide (id = iso3 c)) as [-> | Hne].
      * apply Hkeys. rewrite Hl. eauto.
      * rewrite lookup_insert_ne, lookup_fmap in Hv by congruence.
        apply Hkeys. destruct (geoJsonLayers st !! id); [eauto | discriminate].
  - split; [| split; [exact Huniq | exact Hkeys]].
    exists i. split; [exact Hc |]. split; [reflexivity |].
    rewrite Hl. intros [v [=]].
Qed.

Lemma loadGeoJson_spec (features : list string) :
  forall layers : gmap string bool,
    (forall id, loadGeoJson features layers !! id = Some true ->
                layers !! id = Some true)
    /\ ((forall id, is_Some (layers !! id) ->
           exists c, In c countries /\ iso3 c = id) ->
        forall id, is_Some (loadGeoJson features layers !! id) ->
           exists c, In c countries /\ iso3 c = id).
Proof.
  induction features as [|f features IH]; intros layers;
    cbn [loadGeoJson fold_left]; [split; auto |].
  fold (loadGeoJson features
          (if existsb (fun c => String.eqb (iso3 c) f) countries
              && Js.truthy_str f
           then <[f := false]> layers else layers)).
  destruct (existsb (fun c => String.eqb (iso3 c) f) countries
            && Js.truthy_str f) eqn:Hf.
  - destruct (IH (<[f := false]> layers)) as [Hd Hk]. split.
    + intros id Hid. apply Hd in Hid.
      destruct (decide (id = f)) as [-> | Hne].
      * rewrite lookup_insert_eq in Hid. discriminate.
      * rewrite lookup_insert_ne in Hid by congruence. exact Hid.
    + intros Hkeys. apply Hk. intros id [v Hv].
      destruct (decide (id = f)) as [-> | Hne].
      * apply andb_true_iff in Hf. destruct Hf as [Hf _].
        apply existsb_exists in Hf. destruct Hf as (c & Hc & He).
        apply String.eqb_eq in He. exists c. split; assumption.
      * rewrite lookup_insert_ne in Hv by congruence. apply Hkeys. eauto.
  - apply IH.
Qed.

Lemma step_consistent (st : state) (e : event) :
  consistent st -> consistent (step st e).
Proof.
  intros (Hlen & Hidx & Hsel & Huniq & Hkeys).
  destruct e as [index| | |features]; cbn [step].
  - destruct (countries !! index) as [c|] eqn:Hc;
      [| repeat split; assumption].
    apply (selectCountry_consistent c index); assumption.
  - repeat split; assumption.
  - destruct (shufflePaused st); [repeat split; assumption |].
    assert (Hi : ((shuffleIndex st + 1) mod length countries
                  < length countries)%nat)
      by (apply Nat.mod_upper_bound; discriminate).
    destruct (lookup_lt_is_Some_2 countries _ Hi) as [c Hc]. rewrite Hc.
    apply (selectCountry_consistent c _ _ Hc); assumption.
  - destruct (countries !! 0%nat) as [c|] eqn:Hc; [| discriminate].
    destruct (loadGeoJson_spec features (geoJsonLayers st)) as [Hd Hk].
    apply (selectCountry_consistent c 0%nat _ Hc);
      cbn [markers shuffleIndex geoJsonLayers]; try assumption.
    + unfold drawn. cbn [geoJsonLayers]. intros a b Ha Hb.
      apply Huniq; apply Hd; assumption.
    + apply Hk. exact Hkeys.
Qed.

Lemma run_consistent (events : list event) : forall st : state,
  consistent st -> consistent (run events st).
Proof.
  induction events as [|e events IH]; intros st Hst; [exact Hst |].
  apply IH. apply step_consistent. exact Hst.
Qed.

(** X19. Whatever sequence of clicks, timeouts, ticks of the shuffle and
    arrivals of the borders the page goes through, there is one marker per
    country, the index of the shuffle stays inside the list, the one
    highlighted marker is that of the selected country, at most one
    border is drawn, and when the selected country has a border it is the
    one that is drawn. *)
Theorem shuffle_keeps_markers_consistent (events : list event) :
  consistent (run events initial).
Proof.
  apply run_consistent. unfold consistent, initial.
  cbn [markers shuffleIndex selectedCountry geoJsonLayers].
  split; [apply length_map |]. split; [cbn; lia |].
  split; [reflexivity |].
  split.
  - unfold drawn. cbn [geoJsonLayers]. intros a b Ha.
    rewrite lookup_empty in Ha. discriminate.
  - intros id [v Hv]. rewrite lookup_empty in Hv. discriminate.
Qed.

Lemma tick_unpaused (st : state) :
  shufflePaused st = false ->
  let i := ((shuffleIndex st + 1) mod 21)%nat in
  shuffleIndex (step st ShuffleTick) = i
  /\ selectedCountry (step st ShuffleTick) = countries !! i
  /\ shufflePaused (step st ShuffleTick) = false.
Proof.
  intros Hp. cbn zeta. cbn [step]. rewrite Hp, countries_length.
  assert (Hi : ((shuffleIndex st + 1) mod 21 < length countries)%nat)
    by (rewrite countries_length; apply Nat.mod_upper_bound; discriminate).
  destruct (lookup_lt_is_Some_2 countries _ Hi) as [c Hc]. rewrite Hc.
  cbn [selectCountry shuffleIndex selectedCountry shufflePaused].
  repeat split; assumption.
Qed.

Lemma ticks_unpaused (n : nat) : forall st : state,
  shufflePaused st = false ->
  let i := ((shuffleIndex st + S n) mod 21)%nat in
  shuffleIndex (run (ticks (S n)) st) = i
  /\ selectedCountry (run (ticks (S n)) st) = countries !! i
  /\ shufflePaused (run (ticks (S n)) st) = false.
Proof.
  induction n as [|n IH]; intros st Hp; cbn zeta.
  - apply tick_unpaused. exact Hp.
  - destruct (tick_unpaused st Hp) as (Hi & _ & Hp').
    change (run (ticks (S (S n))) st)
      with (run (ticks (S n)) (step st ShuffleTick)).
    destruct (IH (step st ShuffleTick) Hp') as (Hi' & Hs' & Hp'').
    rewrite Hi in Hi', Hs'.
    replace (((shuffleIndex st + 1) mod 21 + S n) mod 21)%nat
      with ((shuffleIndex st + S (S n)) mod 21)%nat in Hi', Hs'.
    + repeat split; assumption.
    + rewrite Nat.Div0.add_mod_idemp_l. f_equal. lia.
Qed.

(** X20. While the shuffle is not paused, each tick selects the next
    country of the list and the last is followed by the first: after [n]
    ticks, one or more, the selected country is the one [n] places further
    on, counted round the 21 countries. Every country is therefore
    selected within 21 ticks, and 21 ticks lead back to the same
    country. *)
Theorem shuffle_visits_in_order (st : state) (n : nat) :
  shufflePaused st = false ->
  (shuffleIndex st < 21)%nat ->
  selectedCountry (run (ticks (S n)) st)
  = countries !! ((shuffleIndex st + S n) mod 21)%nat
  /\ shuffleIndex (run (ticks 21) st) = shuffleIndex st
  /\ forall c, In c countries ->
       exists k, (k < 21)%nat
                 /\ selectedCountry (run (ticks (S k)) st) = Some c.
Proof.
  intros Hp Hidx. split; [apply (ticks_unpaused n st Hp) |]. split.
  - destruct (ticks_unpaused 20 st Hp) as (Hi & _ & _). rewrite Hi.
    replace (shuffleIndex st + 21)%nat with (shuffleIndex st + 1 * 21)%nat
      by lia.
    rewrite Nat.Div0.mod_add. apply Nat.mod_small. exact Hidx.
  - intros c Hc. apply list_elem_of_In, list_elem_of_lookup in Hc.
    destruct Hc as [i Hi].
    assert (Hlt : (i < 21)%nat)
      by (apply lookup_lt_Some in Hi; rewrite countries_length in Hi; exact Hi).
    destruct (le_lt_dec i (shuffleIndex st)) as [Hle | Hgt].
    + exists (i + 20 - shuffleIndex st)%nat. split; [lia |].
      destruct (ticks_unpaused (i + 20 - shuffleIndex st) st Hp)
        as (_ & Hs & _). rewrite Hs, <- Hi. f_equal.
      replace (shuffleIndex st + S (i + 20 - shuffleIndex st))%nat
        with (i + 1 * 21)%nat by lia.
      rewrite Nat.Div0.mod_add. apply Nat.mod_small. exact Hlt.
    + exists (i - shuffleIndex st - 1)%nat. split; [lia |].
      destruct (ticks_unpaused (i - shuffleIndex st - 1) st Hp)
        as (_ & Hs & _). rewrite Hs, <- Hi. f_equal.
      replace (shuffleIndex st + S (i - shuffleIndex st - 1))%nat
        with i by lia.
      apply Nat.mod_small. exact Hlt.
Qed.

Lemma shuffle_visits_in_order_witness :
  selectedCountry (run (ticks 3) initial)
  = countries !! ((shuffleIndex initial + 3) mod 21)%nat
  /\ shuffleIndex (run (ticks 21) initial) = shuffleIndex initial
  /\ forall c, In c countries ->
       exists k, (k < 21)%nat
                 /\ selectedCountry (run (ticks (S k)) initial) = Some c.
Proof.
  apply (shuffle_visits_in_order initial 2); [reflexivity | cbn; lia].
Defined.

End ShuffleFacts.

(* ===================================================================== *)
(** * The seed statements *)
(* ===================================================================== *)

Section SeedFacts.
Import Seed SeedProps.

Section InsertFacts.
Context {R V : Type}.
Variable make : Z -> V -> R.
Variable key : R -> string.
Variable violates : R -> R -> bool.
Variable vkey : V -> string.
Hypothesis key_make : forall i v, key (make i v) = vkey v.

Lemma has_name_app (l1 l2 : list R) (n : string) :
  has_name key (l1 ++ l2) n = has_name key l1 n || has_name key l2 n.
Proof. unfold has_name. apply existsb_app. Qed.

(** What a statement leaves: the rows it found, followed by rows of the
    tuples, with the name of every tuple in the table. *)
Lemma insert_rows_spec (values : list V) (original : list R) :
  forall t : table R,
    match insert_rows make key violates values original t with
    | Done t' =>
        exists added,
          rows t' = rows t ++ added
          /\ Forall (fun r => exists i v, In v values /\ r = make i v) added
          /\ Forall (fun v => has_name key (rows t') (vkey v) = true) values
          /\ next_id t' = next_id t + Z.of_nat (length values)
    | Aborted t' => rows t' = original
    end.
Proof.
  induction values as [|v rest IH]; intros t; cbn [insert_rows].
  - exists []. rewrite app_nil_r. cbn [length Z.of_nat].
    repeat split; try constructor. lia.
  - rewrite key_make.
    destruct (existsb (fun x => String.eqb (key x) (vkey v)) (rows t)) eqn:Hk.
    + specialize (IH {| next_id := next_id t + 1; rows := rows t |}).
      destruct (insert_rows make key violates rest original _) as [t'|t'];
        [| exact IH].
      cbn [rows next_id] in IH.
      destruct IH as (added & Hrows & Hadded & Hnames & Hseq).
      exists added. split; [exact Hrows |]. split; [| split].
      * eapply Forall_impl; [exact Hadded |].
        intros r (i & w & Hw & Hr). exists i, w. split; [right |]; assumption.
      * constructor; [| exact Hnames].
        rewrite Hrows, has_name_app. unfold has_name at 1. rewrite Hk.
        reflexivity.
      * rewrite Hseq. cbn [length]. lia.
    + destruct (existsb (violates (make (next_id t) v)) (rows t));
        [reflexivity |].
      specialize (IH {| next_id := next_id t + 1;
                        rows := rows t ++ [make (next_id t) v] |}).
      destruct (insert_rows make key violates rest original _) as [t'|t'];
        [| exact IH].
      cbn [rows next_id] in IH.
      destruct IH as (added & Hrows & Hadded & Hnames & Hseq).
      exists (make (next_id t) v :: added).
      split; [rewrite Hrows, <- app_assoc; reflexivity |]. split; [| split].
      * constructor.
        -- exists (next_id t), v. split; [left |]; reflexivity.
        -- eapply Forall_impl; [exact Hadded |].
           intros r (i & w & Hw & Hr). exists i, w.
           split; [right |]; assumption.
      * constructor; [| exact Hnames].
        rewrite Hrows, !has_name_app. unfold has_name at 2.
        cbn [existsb]. rewrite key_make, String.eqb_refl.
        rewrite orb_true_r. reflexivity.
      * rewrite Hseq. cbn [length]. lia.
Qed.

(** When the name of every tuple is in the table, the statement inserts
    nothing. *)
Lemma insert_rows_present (values : list V) (original : list R) :
  forall t : table R,
    Forall (fun v => has_name key (rows t) (vkey v) = true) values ->
    insert_rows make key violates values original t
    = Done {| next_id := next_id t + Z.of_nat (length values);
              rows := rows t |}.
Proof.
  induction values as [|v rest IH]; intros t H; cbn [insert_rows].
  - destruct t as [n l]. cbn [length Z.of_nat next_id rows].
    rewrite Z.add_0_r. reflexivity.
  - apply Forall_cons in H. destruct H as [Hv Hrest].
    rewrite key_make. unfold has_name in Hv. rewrite Hv.
    rewrite (IH {| next_id := next_id t + 1; rows := rows t |} Hrest).
    cbn [next_id rows length]. do 2 f_equal. lia.
Qed.

Lemma statement_spec (values : list V) (t : table R) :
  match insert_on_conflict_do_nothing make key violates values t with
  | Done t' =>
      (exists added,
         rows t' = rows t ++ added
         /\ Forall (fun r => exists i v, In v values /\ r = make i v) added)
      /\ Forall (fun v => has_name key (rows t') (vkey v) = true) values
      /\ insert_on_conflict_do_nothing make key violates values t'
         = Done {| next_id := next_id t' + Z.of_nat (length values);
                   rows := rows t' |}
  | Aborted t' => rows t' = rows t
  end.
Proof.
  unfold insert_on_conflict_do_nothing.
  pose proof (insert_rows_spec values (rows t) t) as H.
  destruct (insert_rows make key violates values (rows t) t) as [t'|t'];
    [| exact H].
  destruct H as (added & Hrows & Hadded & Hnames & _).
  split; [exists added; split; assumption |].
  split; [exact Hnames |].
  apply insert_rows_present. exact Hnames.
Qed.

End InsertFacts.

(** X21. The two seed statements of [init.sql] never change or remove a
    row they find. When a statement completes, the rows it found are
    followed by rows of its tuples, every name of the seed is in the
    table, and running the statement again completes and leaves the rows
    as they are: only the sequence advances. When it is aborted the rows
    are as they were. *)
Theorem seed_statements_idempotent
    (tm : table Materials.row) (tc : table Countries.row) :
  match seed_materials tm with
  | Done tm' =>
      (exists added,
         rows tm' = rows tm ++ added
         /\ Forall (fun r => exists i v,
                      In v material_values /\ r = material_row i v) added)
      /\ Forall (fun v => has_name Materials.name (rows tm') v.1 = true)
                material_values
      /\ seed_materials tm'
         = Done {| next_id := next_id tm' + 11; rows := rows tm' |}
  | Aborted tm' => rows tm' = rows tm
  end
  /\ match seed_countries tc with
     | Done tc' =>
         (exists added,
            rows tc' = rows tc ++ added
            /\ Forall (fun r => exists i v,
                         In v country_values /\ r = country_row i v) added)
         /\ Forall (fun v => has_name Countries.name (rows tc') v.1 = true)
                   country_values
         /\ seed_countries tc'
            = Done {| next_id := next_id tc' + 21; rows := rows tc' |}
     | Aborted tc' => rows tc' = rows tc
     end.
Proof.
  split.
  - exact (statement_spec material_row Materials.name material_clash
             (fun v => v.1) (fun _ _ => eq_refl) material_values tm).
  - exact (statement_spec country_row Countries.name country_clash
             (fun v => v.1) (fun _ _ => eq_refl) country_values tc).
Qed.

Lemma code_clash (i : Z) (v : string * string) (l : list Countries.row) :
  existsb (fun x => match Countries.code x with
                    | Some c => String.eqb c v.2
                    | None => false
                    end) l = true ->
  existsb (country_clash (country_row i v)) l = true.
Proof.
  rewrite !existsb_exists. intros (x & Hx & Hc). exists x.
  split; [exact Hx |]. unfold country_clash, country_row.
  cbn [Countries.code Countries.id].
  destruct (Countries.code x) as [c|]; [| discriminate].
  rewrite String.eqb_sym, Hc. apply orb_true_r.
Qed.

Lemma insert_countries_aborts (values : list (string * string))
    (original : list Countries.row) :
  NoDup (map fst values) ->
  forall t : table Countries.row,
    existsb (fun v : string * string =>
      negb (has_name Countries.name (rows t) v.1)
      && existsb (fun x => match Countries.code x with
                           | Some c => String.eqb c v.2
                           | None => false
                           end) (rows t)) values = true ->
    exists t', insert_rows country_row Countries.name country_clash
                 values original t = Aborted t'.
Proof.
  induction values as [|w rest IH]; intros Hnd t H; [discriminate |].
  cbn [map] in Hnd. apply NoDup_cons in Hnd. destruct Hnd as [Hw Hnd].
  cbn [insert_rows]. cbn [existsb] in H.
  change (Countries.name (country_row (next_id t) w)) with w.1.
  fold (has_name Countries.name (rows t) w.1).
  destruct (has_name Countries.name (rows t) w.1) eqn:Hname.
  - cbn [negb andb orb] in H.
    apply (IH Hnd {| next_id := next_id t + 1; rows := rows t |}). exact H.
  - cbn [negb andb] in H.
    destruct (existsb (country_clash (country_row (next_id t) w)) (rows t))
      eqn:Hclash; [eexists; reflexivity |].
    apply orb_true_iff in H. destruct H as [H | H].
    + rewrite (code_clash _ _ _ H) in Hclash. discriminate.
    + apply (IH Hnd). cbn [rows].
      apply existsb_exists in H. destruct H as (v & Hv & Hc).
      apply existsb_exists. exists v. split; [exact Hv |].
      apply andb_true_iff in Hc. destruct Hc as [Hn Hc].
      apply andb_true_iff. split.
      * rewrite has_name_app. apply negb_true_iff in Hn. rewrite Hn.
        unfold has_name. cbn [existsb orb country_row Countries.name].
        rewrite orb_false_r. apply negb_true_iff. apply String.eqb_neq.
        intros Heq. apply Hw. rewrite Heq.
        apply list_elem_of_In. apply in_map. exact Hv.
      * rewrite existsb_app, Hc. reflexivity.
Qed.

(** X22. [ON CONFLICT (name)] does not cover the unique index of [code]:
    when a country of the seed is missing from the table while a row of
    another name holds its code, the statement that seeds the countries
    is aborted and no country of the seed is inserted. *)
Theorem country_seed_aborts_on_taken_code (tc : table Countries.row) :
  code_taken (rows tc) = true ->
  exists tc', seed_countries tc = Aborted tc' /\ rows tc' = rows tc.
Proof.
  intros H. unfold seed_countries, insert_on_conflict_do_nothing.
  assert (Hnd : NoDup (map fst country_values))
    by (apply (bool_decide_unpack _); vm_compute; exact I).
  destruct (insert_countries_aborts country_values (rows tc) Hnd tc H)
    as [tc' Htc].
  exists tc'. split; [exact Htc |].
  pose proof (insert_rows_spec country_row Countries.name country_clash
                (fun v => v.1) (fun _ _ => eq_refl)
                country_values (rows tc) tc) as Hspec.
  rewrite Htc in Hspec. exact Hspec.
Qed.

Lemma country_seed_aborts_on_taken_code_witness :
  exists tc', seed_countries countries_with_clash = Aborted tc'
              /\ rows tc' = rows countries_with_clash.
Proof.
  apply (country_seed_aborts_on_taken_code countries_with_clash).
  vm_compute. reflexivity.
Defined.

End SeedFacts.

(* ===================================================================== *)
(** * The metrics of a country *)
(* ===================================================================== *)

Section CountryDetailsFacts.
Import Js JsValue MarketFeed CountryDetails CountryDetailsProps.

Lemma or_filled (v d : value) : truthy d = true -> truthy (or v d) = true.
Proof. intros Hd. unfold or. destruct (truthy v) eqn:Hv; assumption. Qed.

(** X23. Whatever the API answers, [fetchCountryDetails] leaves none of
    the four metrics of the country blank: each is set to a value that
    prints, a default standing in for a field that is missing, [null],
    empty or 0, also when the request fails. An answer with a truthy
    [error] field shows the same four texts whatever its other fields
    hold. *)
Theorem country_metrics_never_blank (res : response) :
  filled (econHealth (fetchCountryDetails res))
  /\ filled (demandIndex (fetchCountryDetails res))
  /\ filled (activeProjects (fetchCountryDetails res))
  /\ filled (riskLevel (fetchCountryDetails res))
  /\ forall data data',
       res = Body data -> truthy (error data) = true ->
       truthy (error data') = true ->
       fetchCountryDetails (Body data') = fetchCountryDetails res.
Proof.
  split; [| split; [| split; [| split]]].
  - destruct res as [|data]; cbn [fetchCountryDetails];
      [left; reflexivity |].
    destruct (truthy (error data)); cbn [econHealth filled]; left;
      [reflexivity | apply or_filled; reflexivity].
  - destruct res as [|data]; cbn [fetchCountryDetails];
      [left; reflexivity |].
    destruct (truthy (error data)); cbn [demandIndex];
      [left; reflexivity |].
    destruct (local_demand_index data) as [| |b|n|s];
      cbn [filled]; try exact I; left; apply or_filled; reflexivity.
  - destruct res as [|data]; cbn [fetchCountryDetails];
      [left; reflexivity |].
    destruct (truthy (error data)); cbn [activeProjects filled];
      [left; reflexivity |].
    unfold or. destruct (truthy (active_projects data)) eqn:Hp;
      [left; exact Hp | right; reflexivity].
  - destruct res as [|data]; cbn [fetchCountryDetails];
      [left; reflexivity |].
    destruct (truthy (error data)); cbn [riskLevel filled]; left;
      [reflexivity | apply or_filled; reflexivity].
  - intros data data' -> He He'. cbn [fetchCountryDetails].
    rewrite He, He'. reflexivity.
Qed.

End CountryDetailsFacts.
